(** * btc-powerlaw-dashboard: the power-law fit engine and the
      collateralized-borrowing simulator

    A shallow embedding of [src/lib/powerlaw.ts] and [src/lib/bbd-simulator.ts],
    with the valuation zones of [src/lib/types.ts], the halving tables of
    [src/lib/halvings.ts] and the conversions of the price route, the
    properties their specification states about them, and further properties
    read off the code.

    Number model.  A JavaScript [number] is embedded as an extended real:
    a finite value carries an exact real, and the three IEEE special values
    [+Infinity], [-Infinity] and [NaN] are kept, with the arithmetic and
    comparison rules ECMAScript gives them (division by zero, [0/0],
    [Math.pow] at its special points, comparisons with [NaN]).  Rounding,
    overflow and the sign of zero are not modelled: a finite result is the
    exact real where the code has the nearest double.  What is stated of the
    code is therefore what rounding keeps: the special values, comparisons
    and weak inequalities, equalities between expressions the code computes
    in the same way, and the integer and structural facts.  Strict
    inequalities that a rounding error can turn into equalities, exact
    cancellations and closed forms hold in exact arithmetic only and are not
    stated of the code.

    Date model.  A [Date] is its time value, the integer number of
    milliseconds since 1970-01-01T00:00:00Z; only valid dates are modelled.
    The wall clock read by [new Date()] is an explicit argument. *)

From stdpp Require Import gmap strings pretty.
From Stdlib Require Import Reals Lra Lia ZArith List Bool.
Import ListNotations.

(* ================================================================== *)
(** * JavaScript numbers *)
(* ================================================================== *)

Inductive number : Type :=
| Fin (r : R)
| PInf
| NInf
| NaN.

Declare Scope js_scope.
Delimit Scope js_scope with js.
Bind Scope js_scope with number.

Definition Rltb (x y : R) : bool := if Rlt_dec x y then true else false.
Definition Rleb (x y : R) : bool := if Rle_dec x y then true else false.
Definition Reqb (x y : R) : bool := if Req_dec_T x y then true else false.

(** [zero], [one] and the embedding of integers and array lengths. *)
Definition of_Z (z : Z) : number := Fin (IZR z).
Definition of_nat (n : nat) : number := Fin (INR n).

Definition neg (x : number) : number :=
  match x with
  | Fin a => Fin (- a)
  | PInf => NInf
  | NInf => PInf
  | NaN => NaN
  end.

Definition add (x y : number) : number :=
  match x, y with
  | NaN, _ | _, NaN => NaN
  | Fin a, Fin b => Fin (a + b)
  | PInf, NInf | NInf, PInf => NaN
  | PInf, _ | _, PInf => PInf
  | NInf, _ | _, NInf => NInf
  end.

Definition sub (x y : number) : number := add x (neg y).

(** An infinity times a finite [a]: [NaN] at zero, else the sign rule. *)
Definition inf_times (positive : bool) (a : R) : number :=
  if Reqb a 0 then NaN
  else if Bool.eqb positive (Rltb 0 a) then PInf else NInf.

Definition mul (x y : number) : number :=
  match x, y with
  | NaN, _ | _, NaN => NaN
  | Fin a, Fin b => Fin (a * b)
  | Fin a, PInf | PInf, Fin a => inf_times true a
  | Fin a, NInf | NInf, Fin a => inf_times false a
  | PInf, PInf | NInf, NInf => PInf
  | PInf, NInf | NInf, PInf => NInf
  end.

Definition div (x y : number) : number :=
  match x, y with
  | NaN, _ | _, NaN => NaN
  | Fin a, Fin b =>
      if Reqb b 0
      then (if Reqb a 0 then NaN else if Rltb 0 a then PInf else NInf)
      else Fin (a / b)
  | Fin _, PInf | Fin _, NInf => Fin 0
  | PInf, Fin b => if Rltb b 0 then NInf else PInf
  | NInf, Fin b => if Rltb b 0 then PInf else NInf
  | PInf, PInf | PInf, NInf | NInf, PInf | NInf, NInf => NaN
  end.

(** Comparisons: every comparison with [NaN] is [false]. *)
Definition ltb (x y : number) : bool :=
  match x, y with
  | NaN, _ | _, NaN => false
  | Fin a, Fin b => Rltb a b
  | NInf, NInf => false
  | NInf, _ => true
  | _, NInf => false
  | PInf, _ => false
  | Fin _, PInf => true
  end.

Definition leb (x y : number) : bool :=
  match x, y with
  | NaN, _ | _, NaN => false
  | Fin a, Fin b => Rleb a b
  | NInf, _ => true
  | _, NInf => false
  | _, PInf => true
  | PInf, Fin _ => false
  end.

Definition gtb (x y : number) : bool := ltb y x.
Definition geb (x y : number) : bool := leb y x.

(** Strict equality [===] on numbers. *)
Definition strict_eq (x y : number) : bool :=
  match x, y with
  | Fin a, Fin b => Reqb a b
  | PInf, PInf | NInf, NInf => true
  | _, _ => false
  end.

Infix "+" := add : js_scope.
Infix "-" := sub : js_scope.
Infix "*" := mul : js_scope.
Infix "/" := div : js_scope.
Infix "<?" := ltb : js_scope.
Infix "<=?" := leb : js_scope.
Infix ">?" := gtb (at level 70) : js_scope.
Infix ">=?" := geb (at level 70) : js_scope.
Infix "===" := strict_eq (at level 70) : js_scope.

(** ** The [Math] functions the code calls *)

(** [Math.log], [Math.exp], [Math.sqrt] and [Math.pow] are approximated by
    the implementation; the model takes their exact values on the reals and
    ECMAScript's results at the special points.  In the code [Math.exp]
    underflows to 0, overflows to [+Infinity] and returns 1 for an argument
    too small to tell from 0, and [Math.log] and [Math.pow] round. *)
Definition Math_log (x : number) : number :=
  match x with
  | Fin a => if Rltb 0 a then Fin (ln a) else if Reqb a 0 then NInf else NaN
  | PInf => PInf
  | NInf | NaN => NaN
  end.

Definition Math_exp (x : number) : number :=
  match x with
  | Fin a => Fin (exp a)
  | PInf => PInf
  | NInf => Fin 0
  | NaN => NaN
  end.

Definition Math_sqrt (x : number) : number :=
  match x with
  | Fin a => if Rleb 0 a then Fin (sqrt a) else NaN
  | PInf => PInf
  | NInf | NaN => NaN
  end.

Definition is_integer (b : R) : bool := Reqb (IZR (Int_part b)) b.
Definition is_odd_integer (b : R) : bool := is_integer b && Z.odd (Int_part b).

(** [Math.pow] and the [**] operator (Number::exponentiate). *)
Definition Math_pow (base exponent : number) : number :=
  match exponent with
  | NaN => NaN
  | Fin b =>
      if Reqb b 0 then Fin 1 else
      match base with
      | NaN => NaN
      | PInf => if Rltb 0 b then PInf else Fin 0
      | NInf => if Rltb 0 b
                then (if is_odd_integer b then NInf else PInf)
                else Fin 0
      | Fin a =>
          if Reqb a 0 then (if Rltb 0 b then Fin 0 else PInf)
          else if Rltb 0 a then Fin (Rpower a b)
          else if is_integer b then Fin (powerRZ a (Int_part b))
          else NaN
      end
  | PInf =>
      match base with
      | NaN => NaN
      | PInf | NInf => PInf
      | Fin a => if Rltb 1 (Rabs a) then PInf
                 else if Reqb (Rabs a) 1 then NaN else Fin 0
      end
  | NInf =>
      match base with
      | NaN => NaN
      | PInf | NInf => Fin 0
      | Fin a => if Rltb 1 (Rabs a) then Fin 0
                 else if Reqb (Rabs a) 1 then NaN else PInf
      end
  end.

Infix "**" := Math_pow (at level 30, right associativity) : js_scope.

(* ================================================================== *)
(** * Dates *)
(* ================================================================== *)

Local Open Scope Z_scope.

(** The time value of a valid [Date], in milliseconds since the epoch. *)
Definition Date : Type := Z.

Definition msPerDay : Z := 86400000.

Definition getTime (d : Date) : Z := d.

(** Day number of a time value: [Day(t) = floor(t / msPerDay)]. *)
Definition Day (t : Z) : Z := t / msPerDay.

(** Civil date (year, month 0..11, day of month 1..31) of a day number
    counted from 1970-01-01, proleptic Gregorian calendar. *)
Definition civil_from_days (days : Z) : Z * Z * Z :=
  let z := days + 719468 in
  let era := z / 146097 in
  let doe := z - era * 146097 in
  let yoe := (doe - doe / 1460 + doe / 36524 - doe / 146096) / 365 in
  let doy := doe - (365 * yoe + yoe / 4 - yoe / 100) in
  let mp := (5 * doy + 2) / 153 in
  let d := doy - (153 * mp + 2) / 5 + 1 in
  let m := if mp <? 10 then mp + 3 else mp - 9 in
  let y := yoe + era * 400 + (if m <=? 2 then 1 else 0) in
  (y, m - 1, d).

(** Day number of the civil date (year [y], month [m] in 1..12, day [d]). *)
Definition days_from_civil (y m d : Z) : Z :=
  let y' := if m <=? 2 then y - 1 else y in
  let era := y' / 400 in
  let yoe := y' - era * 400 in
  let doy := (153 * (if m >? 2 then m - 3 else m + 9) + 2) / 5 + d - 1 in
  let doe := yoe * 365 + yoe / 4 - yoe / 100 + doy in
  era * 146097 + doe - 719468.

Definition getUTCFullYear (d : Date) : Z := fst (fst (civil_from_days (Day d))).
Definition getUTCMonth (d : Date) : Z := snd (fst (civil_from_days (Day d))).
Definition getUTCDate (d : Date) : Z := snd (civil_from_days (Day d)).

(** [Date.UTC(year, month, date)]: a year in 0..99 means 1900 + year, the
    month overflows into the year ([MakeDay]), the time of day is zero. *)
Definition Date_UTC (year month date : Z) : Date :=
  let yr := if (0 <=? year) && (year <=? 99) then 1900 + year else year in
  let ym := yr + month / 12 in
  let mn := month mod 12 in
  (days_from_civil ym (mn + 1) 1 + date - 1) * msPerDay.

(* ================================================================== *)
(** * Data model ([src/lib/types.ts]) *)
(* ================================================================== *)

Module PriceDataPoint.
Record t : Type := mk {
  date : Date;
  timestamp : number;
  price : number;
  daysSinceGenesis : number
}.
End PriceDataPoint.

Module PowerLawFit.
Record t : Type := mk {
  A : number;
  B : number;
  rSquared : number;
  sigma : number
}.
End PowerLawFit.

Module FittedDataPoint.
Record t : Type := mk {
  point : PriceDataPoint.t;
  fittedPrice : number;
  deviationPercent : number;
  sigmaDeviation : number;
  logResidual : number;
  band1SigmaUpper : number;
  band1SigmaLower : number;
  band2SigmaUpper : number;
  band2SigmaLower : number
}.
End FittedDataPoint.

(* ================================================================== *)
(** * The fit engine ([src/lib/powerlaw.ts]) *)
(* ================================================================== *)

(** [new Date('2009-01-03T00:00:00Z')] *)
Definition BITCOIN_GENESIS_DATE : Date := 1230940800000.

(** [Math.floor(diffMs / (1000 * 60 * 60 * 24))]: both operands are
    integers and the divisor is positive, so the floored quotient is the
    integer division. *)
Definition daysSinceGenesis (date : Date) : number :=
  let diffMs := getTime date - getTime BITCOIN_GENESIS_DATE in
  of_Z (diffMs / (1000 * 60 * 60 * 24)).

(** [xs.reduce((a, b) => a + b, 0)] *)
Definition sum (xs : list number) : number :=
  fold_left (fun a b => (a + b)%js) xs (Fin 0).

(** [xs.reduce((s, x) => s + (x - c) ** 2, 0)] *)
Definition sum_sq_about (c : number) (xs : list number) : number :=
  fold_left (fun s x => (s + (x - c) ** Fin 2)%js) xs (Fin 0).

(** An array read [xs[i]]; out of range it is [undefined], which every
    arithmetic operator turns into [NaN]. *)
Definition at_index (xs : list number) (i : nat) : number := nth i xs NaN.

(** The loop accumulating [numerator] and [denominator] of the slope. *)
Definition slope_sums (logT logP : list number) (meanLogT meanLogP : number)
    (n : nat) : number * number :=
  fold_left
    (fun (acc : number * number) (i : nat) =>
       let (numerator, denominator) := acc in
       ((numerator
          + (at_index logT i - meanLogT) * (at_index logP i - meanLogP))%js,
        (denominator + (at_index logT i - meanLogT) ** Fin 2)%js))
    (seq 0 n) (Fin 0, Fin 0).

Definition is_valid (d : PriceDataPoint.t) : bool :=
  (PriceDataPoint.price d >? Fin 0)%js
  && (PriceDataPoint.daysSinceGenesis d >? Fin 0)%js.

Definition zero_fit : PowerLawFit.t :=
  PowerLawFit.mk (Fin 0) (Fin 0) (Fin 0) (Fin 0).

Definition fitPowerLaw (data : list PriceDataPoint.t) : PowerLawFit.t :=
  let validData := List.filter is_valid data in
  if (length validData <? 2)%nat then zero_fit
  else
    let n := of_nat (length validData) in
    let logT := map (fun d => Math_log (PriceDataPoint.daysSinceGenesis d)) validData in
    let logP := map (fun d => Math_log (PriceDataPoint.price d)) validData in
    let meanLogT := (sum logT / n)%js in
    let meanLogP := (sum logP / n)%js in
    let (numerator, denominator) :=
      slope_sums logT logP meanLogT meanLogP (length validData) in
    let B := (numerator / denominator)%js in
    let logA := (meanLogP - B * meanLogT)%js in
    let A := Math_exp logA in
    let predictedLogP := map (fun lt => (logA + B * lt)%js) logT in
    let residuals := imap (fun i lp => (lp - at_index predictedLogP i)%js) logP in
    let ssRes := fold_left (fun s r => (s + r ** Fin 2)%js) residuals (Fin 0) in
    let ssTot := sum_sq_about meanLogP logP in
    let rSquared := (Fin 1 - ssRes / ssTot)%js in
    let meanResidual := (sum residuals / n)%js in
    let variance := (sum_sq_about meanResidual residuals / (n - Fin 1))%js in
    let sigma := Math_sqrt variance in
    PowerLawFit.mk A B rSquared sigma.

Definition powerLawPrice (days : number) (fit : PowerLawFit.t) : number :=
  (PowerLawFit.A fit * Math_pow days (PowerLawFit.B fit))%js.

Definition calculateDeviation (actualPrice fittedPrice : number) : number :=
  if (fittedPrice === Fin 0)%js then Fin 0
  else (((actualPrice - fittedPrice) / fittedPrice) * Fin 100)%js.

Definition calculateSigmaDeviation (actualPrice fittedPrice sigma : number)
    : number :=
  if (fittedPrice <=? Fin 0)%js || (sigma === Fin 0)%js then Fin 0
  else
    let logResidual := (Math_log actualPrice - Math_log fittedPrice)%js in
    (logResidual / sigma)%js.

Definition applyFit (fit : PowerLawFit.t) (d : PriceDataPoint.t)
    : FittedDataPoint.t :=
  let fittedPrice := powerLawPrice (PriceDataPoint.daysSinceGenesis d) fit in
  let deviationPercent := calculateDeviation (PriceDataPoint.price d) fittedPrice in
  let sigmaDeviation :=
    calculateSigmaDeviation (PriceDataPoint.price d) fittedPrice (PowerLawFit.sigma fit) in
  let logResidual :=
    if (PriceDataPoint.price d >? Fin 0)%js && (fittedPrice >? Fin 0)%js
    then (Math_log (PriceDataPoint.price d) - Math_log fittedPrice)%js
    else Fin 0 in
  let band1SigmaUpper := (fittedPrice * Math_exp (PowerLawFit.sigma fit))%js in
  let band1SigmaLower := (fittedPrice * Math_exp (neg (PowerLawFit.sigma fit)))%js in
  let band2SigmaUpper := (fittedPrice * Math_exp (Fin 2 * PowerLawFit.sigma fit))%js in
  let band2SigmaLower := (fittedPrice * Math_exp (Fin (-2) * PowerLawFit.sigma fit))%js in
  FittedDataPoint.mk d fittedPrice deviationPercent sigmaDeviation logResidual
    band1SigmaUpper band1SigmaLower band2SigmaUpper band2SigmaLower.

(** [data.map(d => { ... })] *)
Definition applyFitToData (data : list PriceDataPoint.t) (fit : PowerLawFit.t)
    : list FittedDataPoint.t :=
  map (applyFit fit) data.

(* ================================================================== *)
(** * The borrowing simulator ([src/lib/bbd-simulator.ts]) *)
(* ================================================================== *)

Inductive PriceScenario : Type :=
| fair | plus1sigma | plus2sigma | minus1sigma | minus2sigma.

Inductive InterestMode : Type := capitalize | pay_monthly.

Inductive BorrowFrequency : Type := monthly | yearly.

(** A spending step-up as the controls build it
    ([{ startYear, monthlySpendingUsd }], BBDControls).  The simulator's own
    [BBDSimulatorConfig] interface does not declare a [spendingSteps] field;
    the configuration objects of its callers carry one (the default
    configuration of the controls and every configuration of the test suite
    have [spendingSteps: []]), and the simulator hands the object back
    untouched.  The record below is that object: the declared fields and the
    list the callers add. *)
Module SpendingStep.
Record t : Type := mk {
  startYear : Z;
  monthlySpendingUsd : number
}.
End SpendingStep.

(** [projectionYears] is taken as an integer: the loops count the months
    0 .. projectionYears * 12. *)
Module BBDSimulatorConfig.
Record t : Type := mk {
  btcHeld : number;
  monthlySpendingUsd : number;
  interestAprPercent : number;
  liquidationLtvPercent : number;
  startingLtvPercent : option number;
  borrowMonthly : bool;
  borrowFrequency : BorrowFrequency;
  interestMode : InterestMode;
  projectionYears : Z;
  scenario : PriceScenario;
  startDate : string;
  spendingSteps : list SpendingStep.t
}.
End BBDSimulatorConfig.

Module BBDMonthlyStep.
Record t : Type := mk {
  month : Z;
  year : Z;
  date : Date;
  btcPrice : number;
  collateralValue : number;
  loanBalance : number;
  ltv : number;
  netEquity : number;
  interestPaidThisMonth : number;
  borrowedThisMonth : number;
  isLiquidated : bool;
  isProjection : bool
}.
End BBDMonthlyStep.

Module BBDSimulationSummary.
Record t : Type := mk {
  initialCollateralValue : number;
  finalCollateralValue : option number;
  initialLoanBalance : number;
  finalLoanBalance : option number;
  initialLtv : number;
  finalLtv : option number;
  initialNetEquity : number;
  finalNetEquity : option number;
  totalInterestPaid : number;
  totalBorrowed : number;
  isLiquidated : bool;
  liquidationMonth : option Z;
  monthsUntilLiquidation : option Z
}.
End BBDSimulationSummary.

Module BBDSimulationResult.
Record t : Type := mk {
  config : BBDSimulatorConfig.t;
  steps : list BBDMonthlyStep.t;
  summary : BBDSimulationSummary.t
}.
End BBDSimulationResult.

(** An element of a price path: [{ date, price, isProjection }]. *)
Module PathPoint.
Record t : Type := mk {
  date : Date;
  price : number;
  isProjection : bool
}.
End PathPoint.

Module HistoricalPricePoint.
Record t : Type := mk {
  date : Date;
  price : number
}.
End HistoricalPricePoint.

(** A call either returns normally or throws. *)
Inductive JSError : Type := TypeError.

Inductive completion (T : Type) : Type :=
| Return (v : T)
| Throw (e : JSError).
Arguments Return {T} v.
Arguments Throw {T} e.

Definition getScenarioPrice (date : Date) (fit : PowerLawFit.t)
    (scenario : PriceScenario) : number :=
  let days := daysSinceGenesis date in
  let fittedPrice := powerLawPrice days fit in
  match scenario with
  | fair => fittedPrice
  | plus1sigma => (fittedPrice * Math_exp (PowerLawFit.sigma fit))%js
  | plus2sigma => (fittedPrice * Math_exp (Fin 2 * PowerLawFit.sigma fit))%js
  | minus1sigma => (fittedPrice * Math_exp (neg (PowerLawFit.sigma fit)))%js
  | minus2sigma => (fittedPrice * Math_exp (Fin (-2) * PowerLawFit.sigma fit))%js
  end.

(** The values [0, 1, ..., totalMonths] that the loop counter
    [for (month = 0; month <= totalMonths; month++)] goes through. *)
Definition month_range (totalMonths : Z) : list Z :=
  map Z.of_nat (seq 0 (Z.to_nat (totalMonths + 1))).

(** [new Date(Date.UTC(startDate.getUTCFullYear(),
                       startDate.getUTCMonth() + month, 1))] *)
Definition month_start (startDate : Date) (month : Z) : Date :=
  Date_UTC (getUTCFullYear startDate) (getUTCMonth startDate + month) 1.

Definition generatePricePath (startDate : Date) (projectionYears : Z)
    (fit : PowerLawFit.t) (scenario : PriceScenario) : list PathPoint.t :=
  let totalMonths := projectionYears * 12 in
  map (fun month =>
         let date := month_start startDate month in
         let price := getScenarioPrice date fit scenario in
         PathPoint.mk date price true)
      (month_range totalMonths).

(** [String(n).padStart(2, '0')] *)
Definition padStart2 (s : string) : string :=
  if (String.length s <? 2)%nat then "0" +:+ s else s.

(** The map key [`${year}-${month + 1 padded}`] of a date. *)
Definition month_key (d : Date) : string :=
  pretty (getUTCFullYear d) +:+ "-" +:+ padStart2 (pretty (getUTCMonth d + 1)).

(** The [Map] filled by [historicalMap.set(key, point.price)] over the
    historical points in order: the last price of a month stays. *)
Definition historical_map (historicalData : list HistoricalPricePoint.t)
    : gmap string number :=
  fold_left
    (fun (m : gmap string number) point =>
       <[month_key (HistoricalPricePoint.date point)
           := HistoricalPricePoint.price point]> m)
    historicalData ∅.

(** [now] is the value of [new Date()] at the time of the call. *)
Definition generateMixedPricePath (now : Date) (startDate : Date)
    (projectionYears : Z) (fit : PowerLawFit.t) (scenario : PriceScenario)
    (historicalData : list HistoricalPricePoint.t) : list PathPoint.t :=
  let totalMonths := projectionYears * 12 in
  let today := now in
  let todayMonth := Date_UTC (getUTCFullYear today) (getUTCMonth today) 1 in
  let historicalMap := historical_map historicalData in
  map (fun month =>
         let date := month_start startDate month in
         let dateKey := month_key date in
         let isBeforeOrToday := date <=? todayMonth in
         match historicalMap !! dateKey with
         | Some historicalPrice =>
             if isBeforeOrToday
             then PathPoint.mk date historicalPrice false
             else PathPoint.mk date (getScenarioPrice date fit scenario) true
         | None => PathPoint.mk date (getScenarioPrice date fit scenario) true
         end)
      (month_range totalMonths).

(** The variables the loop of [runBBDSimulation] updates. *)
Module SimState.
Record t : Type := mk {
  loanBalance : number;
  totalInterestPaid : number;
  totalBorrowed : number;
  isLiquidated : bool;
  liquidationMonth : option Z;
  steps : list BBDMonthlyStep.t
}.
End SimState.

(** One iteration of the loop, for the counter [i] and [pricePath[i]]. *)
Definition loop_body (config : BBDSimulatorConfig.t)
    (monthlyInterestRate liquidationLtv : number)
    (i : Z) (point : PathPoint.t) (st : SimState.t) : SimState.t :=
  let date := PathPoint.date point in
  let price := PathPoint.price point in
  let isProjection := PathPoint.isProjection point in
  let month := i in
  let year := i / 12 in
  let collateralValue := (BBDSimulatorConfig.btcHeld config * price)%js in
  (* borrowing *)
  let '(loanBalance1, borrowedThisMonth, totalBorrowed1) :=
    if BBDSimulatorConfig.borrowMonthly config && (0 <? i) then
      match BBDSimulatorConfig.borrowFrequency config with
      | monthly =>
          ((SimState.loanBalance st + BBDSimulatorConfig.monthlySpendingUsd config)%js,
           BBDSimulatorConfig.monthlySpendingUsd config,
           (SimState.totalBorrowed st + BBDSimulatorConfig.monthlySpendingUsd config)%js)
      | yearly =>
          if i mod 12 =? 0 then
            let yearlyAmount := (BBDSimulatorConfig.monthlySpendingUsd config * Fin 12)%js in
            ((SimState.loanBalance st + yearlyAmount)%js,
             yearlyAmount,
             (SimState.totalBorrowed st + yearlyAmount)%js)
          else (SimState.loanBalance st, Fin 0, SimState.totalBorrowed st)
      end
    else (SimState.loanBalance st, Fin 0, SimState.totalBorrowed st) in
  (* interest *)
  let '(loanBalance2, interestPaidThisMonth, totalInterestPaid1) :=
    if 0 <? i then
      let interestAmount := (loanBalance1 * monthlyInterestRate)%js in
      match BBDSimulatorConfig.interestMode config with
      | capitalize =>
          ((loanBalance1 + interestAmount)%js, Fin 0, SimState.totalInterestPaid st)
      | pay_monthly =>
          (loanBalance1, interestAmount,
           (SimState.totalInterestPaid st + interestAmount)%js)
      end
    else (loanBalance1, Fin 0, SimState.totalInterestPaid st) in
  let ltv :=
    if (collateralValue >? Fin 0)%js
    then (loanBalance2 / collateralValue)%js else Fin 0 in
  let netEquity := (collateralValue - loanBalance2)%js in
  (* liquidation *)
  let '(isLiquidated1, liquidationMonth1) :=
    if (ltv >=? liquidationLtv)%js && negb (SimState.isLiquidated st)
    then (true, Some month)
    else (SimState.isLiquidated st, SimState.liquidationMonth st) in
  SimState.mk loanBalance2 totalInterestPaid1 totalBorrowed1
    isLiquidated1 liquidationMonth1
    (SimState.steps st ++
       [BBDMonthlyStep.mk month year date price collateralValue loanBalance2
          ltv netEquity interestPaidThisMonth borrowedThisMonth
          isLiquidated1 isProjection]).

(** [for (let i = ...; i < pricePath.length; i++) { ...; if (isLiquidated) break; }]
    from counter value [i], over the elements of [pricePath] from [i] on. *)
Fixpoint sim_loop (config : BBDSimulatorConfig.t)
    (monthlyInterestRate liquidationLtv : number)
    (i : Z) (rest : list PathPoint.t) (st : SimState.t) : SimState.t :=
  match rest with
  | [] => st
  | point :: rest' =>
      let st' := loop_body config monthlyInterestRate liquidationLtv i point st in
      if SimState.isLiquidated st' then st'
      else sim_loop config monthlyInterestRate liquidationLtv (i + 1) rest' st'
  end.

(** The state before the loop; [pricePath[0].price] throws on an empty path. *)
Definition initial_state (config : BBDSimulatorConfig.t)
    (pricePath : list PathPoint.t) : completion SimState.t :=
  match BBDSimulatorConfig.startingLtvPercent config with
  | Some startingLtvPercent =>
      if negb (BBDSimulatorConfig.borrowMonthly config) then
        match pricePath with
        | [] => Throw TypeError
        | first :: _ =>
            let initialPrice := PathPoint.price first in
            let initialCollateralValue :=
              (BBDSimulatorConfig.btcHeld config * initialPrice)%js in
            let startingLtv := (startingLtvPercent / Fin 100)%js in
            let loanBalance := (initialCollateralValue * startingLtv)%js in
            Return (SimState.mk loanBalance (Fin 0) loanBalance false None [])
        end
      else Return (SimState.mk (Fin 0) (Fin 0) (Fin 0) false None [])
  | None => Return (SimState.mk (Fin 0) (Fin 0) (Fin 0) false None [])
  end.

(** The summary; [steps[0].collateralValue] throws when no step was made. *)
Definition summarize (config : BBDSimulatorConfig.t) (st : SimState.t)
    : completion BBDSimulationResult.t :=
  match SimState.steps st with
  | [] => Throw TypeError
  | firstStep :: _ =>
      let lastStep := List.last (SimState.steps st) firstStep in
      let isLiquidated := SimState.isLiquidated st in
      let final (field : BBDMonthlyStep.t -> number) : option number :=
        if isLiquidated then None else Some (field lastStep) in
      Return (BBDSimulationResult.mk config (SimState.steps st)
        (BBDSimulationSummary.mk
           (BBDMonthlyStep.collateralValue firstStep)
           (final BBDMonthlyStep.collateralValue)
           (BBDMonthlyStep.loanBalance firstStep)
           (final BBDMonthlyStep.loanBalance)
           (BBDMonthlyStep.ltv firstStep)
           (final BBDMonthlyStep.ltv)
           (BBDMonthlyStep.netEquity firstStep)
           (final BBDMonthlyStep.netEquity)
           (SimState.totalInterestPaid st)
           (SimState.totalBorrowed st)
           isLiquidated
           (SimState.liquidationMonth st)
           (SimState.liquidationMonth st)))
  end.

(** The price path [runBBDSimulation] picks: the mixed one when a
    non-empty [historicalData] is passed. *)
Definition select_price_path (now : Date) (config : BBDSimulatorConfig.t)
    (fit : PowerLawFit.t) (startDate : Date)
    (historicalData : option (list HistoricalPricePoint.t)) : list PathPoint.t :=
  match historicalData with
  | Some ((_ :: _) as data) =>
      generateMixedPricePath now startDate
        (BBDSimulatorConfig.projectionYears config) fit
        (BBDSimulatorConfig.scenario config) data
  | _ =>
      generatePricePath startDate
        (BBDSimulatorConfig.projectionYears config) fit
        (BBDSimulatorConfig.scenario config)
  end.

Definition runBBDSimulation (now : Date) (config : BBDSimulatorConfig.t)
    (fit : PowerLawFit.t) (startDate : Date)
    (historicalData : option (list HistoricalPricePoint.t))
    : completion BBDSimulationResult.t :=
  let pricePath := select_price_path now config fit startDate historicalData in
  let monthlyInterestRate :=
    (BBDSimulatorConfig.interestAprPercent config / Fin 100 / Fin 12)%js in
  let liquidationLtv :=
    (BBDSimulatorConfig.liquidationLtvPercent config / Fin 100)%js in
  match initial_state config pricePath with
  | Throw e => Throw e
  | Return st0 =>
      summarize config
        (sim_loop config monthlyInterestRate liquidationLtv 0 pricePath st0)
  end.

(* ================================================================== *)
(** * Further functions of the libraries *)
(* ================================================================== *)

(** ** Array helpers *)

(** [xs.slice(start, end)]: negative positions count from the end, all
    positions are clipped to the length. *)
Definition slice {T : Type} (xs : list T) (start finish : Z) : list T :=
  let len := Z.of_nat (length xs) in
  let k := if start <? 0 then Z.max (len + start) 0 else Z.min start len in
  let final := if finish <? 0 then Z.max (len + finish) 0 else Z.min finish len in
  firstn (Z.to_nat (final - k)) (skipn (Z.to_nat k) xs).

(** [xs.findIndex(p)], with [None] for -1. *)
Fixpoint findIndex {T : Type} (p : T -> bool) (xs : list T) : option nat :=
  match xs with
  | [] => None
  | x :: rest =>
      if p x then Some 0%nat
      else match findIndex p rest with
           | Some i => Some (S i)
           | None => None
           end
  end.

(** ** Rolling volatility ([src/lib/powerlaw.ts]) *)

Module VolatilityDataPoint.
Record t : Type := mk {
  date : Date;
  rollingStdDev : option number
}.
End VolatilityDataPoint.

Definition ROLLING_WINDOW_DAYS : Z := 730.

(** The body of the loop once [windowData] is cut: the sample standard
    deviation of the window's log residuals, or [null] below two points. *)
Definition window_std_dev (windowData : list FittedDataPoint.t) : option number :=
  if (2 <=? length windowData)%nat then
    let residuals := map FittedDataPoint.logResidual windowData in
    let n := of_nat (length residuals) in
    let mean := (sum residuals / n)%js in
    let variance := (sum_sq_about mean residuals / (n - Fin 1))%js in
    Some (Math_sqrt variance)
  else None.

(** [windowSize] is taken as an integer number of points. *)
Definition calculateRollingVolatility (data : list FittedDataPoint.t)
    (windowSize : Z) : list VolatilityDataPoint.t :=
  imap
    (fun (i : nat) (d : FittedDataPoint.t) =>
       let startIdx := Z.max 0 (Z.of_nat i - windowSize + 1) in
       let windowData := slice data startIdx (Z.of_nat i + 1) in
       VolatilityDataPoint.mk
         (PriceDataPoint.date (FittedDataPoint.point d))
         (window_std_dev windowData))
    data.

(** ** Portfolio valuation ([src/lib/powerlaw.ts]) *)

Module PortfolioDataPoint.
Record t : Type := mk {
  date : Date;
  portfolioValue : number;
  portfolioFairValue : number;
  portfolioBand1SigmaUpper : number;
  portfolioBand1SigmaLower : number;
  portfolioBand2SigmaUpper : number;
  portfolioBand2SigmaLower : number
}.
End PortfolioDataPoint.

Module PortfolioSummary.
Record t : Type := mk {
  btcHeld : number;
  currentValue : number;
  fairValue : number;
  band1SigmaUpper : number;
  band1SigmaLower : number;
  band2SigmaUpper : number;
  band2SigmaLower : number
}.
End PortfolioSummary.

Definition calculatePortfolioData (data : list FittedDataPoint.t)
    (btcHeld : number) : list PortfolioDataPoint.t :=
  map (fun d =>
         PortfolioDataPoint.mk
           (PriceDataPoint.date (FittedDataPoint.point d))
           (btcHeld * PriceDataPoint.price (FittedDataPoint.point d))%js
           (btcHeld * FittedDataPoint.fittedPrice d)%js
           (btcHeld * FittedDataPoint.band1SigmaUpper d)%js
           (btcHeld * FittedDataPoint.band1SigmaLower d)%js
           (btcHeld * FittedDataPoint.band2SigmaUpper d)%js
           (btcHeld * FittedDataPoint.band2SigmaLower d)%js)
      data.

Definition calculatePortfolioSummary (lastDataPoint : FittedDataPoint.t)
    (btcHeld : number) : PortfolioSummary.t :=
  PortfolioSummary.mk btcHeld
    (btcHeld * PriceDataPoint.price (FittedDataPoint.point lastDataPoint))%js
    (btcHeld * FittedDataPoint.fittedPrice lastDataPoint)%js
    (btcHeld * FittedDataPoint.band1SigmaUpper lastDataPoint)%js
    (btcHeld * FittedDataPoint.band1SigmaLower lastDataPoint)%js
    (btcHeld * FittedDataPoint.band2SigmaUpper lastDataPoint)%js
    (btcHeld * FittedDataPoint.band2SigmaLower lastDataPoint)%js.

(** ** Valuation zones ([src/lib/types.ts]) *)

Module ValuationZone.
Inductive t : Type := deep_value | undervalued | fair | overvalued | bubble.
End ValuationZone.

Definition getValuationZone (sigmaDeviation : number) : ValuationZone.t :=
  if (sigmaDeviation <=? Fin (-2))%js then ValuationZone.deep_value
  else if (sigmaDeviation <=? Fin (-1))%js then ValuationZone.undervalued
  else if (sigmaDeviation <=? Fin 1)%js then ValuationZone.fair
  else if (sigmaDeviation <=? Fin 2)%js then ValuationZone.overvalued
  else ValuationZone.bubble.

(** ** Yearly rows of a simulation ([src/lib/bbd-simulator.ts]) *)

(** The values 12, 24, 36, ... below [len] that the counter of
    [for (let i = 12; i < steps.length; i += 12)] takes. *)
Definition yearly_indices (len : nat) : list nat :=
  map (fun j => (12 * S j)%nat) (seq 0 ((len - 1) / 12)).

(** [steps[steps.length - 1].month] throws on an empty array. *)
Definition getYearlyData (steps : list BBDMonthlyStep.t)
    : completion (list BBDMonthlyStep.t) :=
  let start := match steps with [] => [] | first :: _ => [first] end in
  let years :=
    flat_map (fun i => match nth_error steps i with
                       | Some s => [s]
                       | None => []
                       end)
             (yearly_indices (length steps)) in
  match List.last (map Some steps) None with
  | None => Throw TypeError
  | Some lastStep =>
      if negb (Z.rem (BBDMonthlyStep.month lastStep) 12 =? 0)
         && negb (BBDMonthlyStep.month lastStep =? 0)
      then Return (start ++ years ++ [lastStep])
      else Return (start ++ years)
  end.

(** ** Halvings ([src/lib/halvings.ts]) *)

Module Halving.
Record t : Type := mk {
  date : Date;
  dateStr : string;
  label : string;
  blockHeight : Z
}.
End Halving.

Module HalvingCycle.
Record t : Type := mk {
  start : Date;
  finish : Date;
  label : string;
  color : string
}.
End HalvingCycle.

(** The dates are those of [new Date('YYYY-MM-DDT00:00:00Z')]. *)
Definition HALVING_DATES : list Halving.t :=
  [Halving.mk (Date_UTC 2012 10 28) "2012-11-28" "Halving 1" 210000;
   Halving.mk (Date_UTC 2016 6 9) "2016-07-09" "Halving 2" 420000;
   Halving.mk (Date_UTC 2020 4 11) "2020-05-11" "Halving 3" 630000;
   Halving.mk (Date_UTC 2024 3 20) "2024-04-20" "Halving 4" 840000].

Definition BITCOIN_GENESIS : Date := Date_UTC 2009 0 3.

Definition HALVING_CYCLES : list HalvingCycle.t :=
  [HalvingCycle.mk BITCOIN_GENESIS (Date_UTC 2012 10 28) "Cycle 1" "rgba(239, 68, 68, 0.05)";
   HalvingCycle.mk (Date_UTC 2012 10 28) (Date_UTC 2016 6 9) "Cycle 2" "rgba(249, 115, 22, 0.05)";
   HalvingCycle.mk (Date_UTC 2016 6 9) (Date_UTC 2020 4 11) "Cycle 3" "rgba(234, 179, 8, 0.05)";
   HalvingCycle.mk (Date_UTC 2020 4 11) (Date_UTC 2024 3 20) "Cycle 4" "rgba(34, 197, 94, 0.05)";
   HalvingCycle.mk (Date_UTC 2024 3 20) (Date_UTC 2028 3 20) "Cycle 5" "rgba(59, 130, 246, 0.05)"].

Definition getHalvingDateStrings : list string :=
  map Halving.dateStr HALVING_DATES.

(** [dateStr.slice(0, 10)]; strings are compared and cut by character,
    which for the ASCII date labels the code handles is what JavaScript does
    by UTF-16 code unit. *)
Definition first_10 (dateStr : string) : string := String.substring 0 10 dateStr.

Definition isHalvingDate (dateStr : string) : bool :=
  let halvingStrings := getHalvingDateStrings in
  existsb (String.eqb (first_10 dateStr)) halvingStrings.

Definition getHalvingInfo (dateStr : string) : option Halving.t :=
  let targetDate := first_10 dateStr in
  find (fun h => String.eqb (Halving.dateStr h) targetDate) HALVING_DATES.

Definition getCycleForDate (date : Date) : option HalvingCycle.t :=
  let timestamp := getTime date in
  find (fun c =>
          (getTime (HalvingCycle.start c) <=? timestamp)
          && (timestamp <? getTime (HalvingCycle.finish c)))
       HALVING_CYCLES.

Module HalvingIndex.
Record t : Type := mk {
  index : nat;
  halving : Halving.t
}.
End HalvingIndex.

Definition getHalvingIndices (labels : list string) : list HalvingIndex.t :=
  match labels with
  | [] => []
  | minLabel :: _ =>
      let maxLabel := List.last labels minLabel in
      flat_map
        (fun halving =>
           let halvingStr := Halving.dateStr halving in
           if String.ltb halvingStr minLabel || String.ltb maxLabel halvingStr
           then []
           else
             let index :=
               match findIndex (fun label => String.eqb label halvingStr) labels with
               | Some i => Some i
               | None => findIndex (fun label => negb (String.ltb label halvingStr)) labels
               end in
             match index with
             | Some i => [HalvingIndex.mk i halving]
             | None => []
             end)
        HALVING_DATES
  end.

(** ** The price route's conversions ([src/app/api/btc-prices/route.ts]) *)

(** Timestamps are integers of milliseconds. *)
Definition normalizeToMidnight (timestamp : Z) : Z :=
  let date := timestamp in
  Date_UTC (getUTCFullYear date) (getUTCMonth date) (getUTCDate date).

Definition convertToDataPoints (prices : list (Z * number)) : list PriceDataPoint.t :=
  map (fun '(timestamp, price) =>
         let date := timestamp in
         PriceDataPoint.mk date (of_Z timestamp) price (daysSinceGenesis date))
      prices.

(* ================================================================== *)
(** * Configurations and fixtures used in the statements *)
(* ================================================================== *)

(** The reference configuration of the specification's testable
    properties; the fields it does not fix are parameters. *)
Definition reference_config (startingLtvPercent : option number)
    (projectionYears : Z) (scenario : PriceScenario) (startDate : string)
    (spendingSteps : list SpendingStep.t) : BBDSimulatorConfig.t :=
  BBDSimulatorConfig.mk (Fin 1) (Fin 5000) (Fin 10) (Fin 80) startingLtvPercent
    true monthly capitalize projectionYears scenario startDate spendingSteps.

(** The fixtures of the test suite: [mockFit], [testDate] (2025-01-01) and
    [baseConfig]. *)
Definition mockFit : PowerLawFit.t :=
  PowerLawFit.mk (Fin (1 / 10 ^ 17)) (Fin (58 / 10)) (Fin (95 / 100)) (Fin (5 / 10)).

Definition testDate : Date := 1735689600000.

Definition baseConfig : BBDSimulatorConfig.t :=
  BBDSimulatorConfig.mk (Fin 1) (Fin 5000) (Fin 10) (Fin 80) None
    true monthly capitalize 5 fair "2025-01" [].



(** A flat price of one million: the fit A = 1000000, B = 0. *)
Definition flat_million_fit : PowerLawFit.t :=
  PowerLawFit.mk (Fin 1000000) (Fin 0) (Fin 0) (Fin 0).

(** [baseConfig] over two years, with one step-up to 10000 from year 2. *)
Definition step_up_config : BBDSimulatorConfig.t :=
  BBDSimulatorConfig.mk (Fin 1) (Fin 5000) (Fin 10) (Fin 80) None
    true monthly capitalize 2 fair "2025-01"
    [SpendingStep.mk 2 (Fin 10000)].

(** A lump-sum configuration (starting LTV, no recurring borrowing) with
    interest paid monthly. *)
Definition lump_sum_config (startingLtvPercent : number) : BBDSimulatorConfig.t :=
  BBDSimulatorConfig.mk (Fin 1) (Fin 5000) (Fin 10) (Fin 80)
    (Some startingLtvPercent) false monthly pay_monthly 5 fair "2025-01" [].

(** Both modes requested at once: recurring borrowing and a starting LTV. *)
Definition conflicting_config : BBDSimulatorConfig.t :=
  BBDSimulatorConfig.mk (Fin 1) (Fin 5000) (Fin 10) (Fin 80) (Some (Fin 20))
    true monthly capitalize 5 fair "2025-01" [].

(** A negative holding. *)
Definition negative_holding_config : BBDSimulatorConfig.t :=
  BBDSimulatorConfig.mk (Fin (-1)) (Fin 5000) (Fin 10) (Fin 80) None
    true monthly capitalize 5 fair "2025-01" [].

(** One historical price, recorded on 2025-01-15. *)
Definition january_history : list HistoricalPricePoint.t :=
  [HistoricalPricePoint.mk 1736899200000 (Fin 50000)].

(** Two readings of the clock: 2024-06-15 and 2025-06-15, noon UTC. *)
Definition clock_2024_06 : Date := 1718452800000.
Definition clock_2025_06 : Date := 1749988800000.

(** 2025-01-15T00:00:00Z, a start date in the middle of a month. *)
Definition mid_january : Date := 1736899200000.

(** The real carried by a finite number (0 for the special values). *)
Definition finite_part (x : number) : R :=
  match x with Fin a => a | _ => 0%R end.

(** One more squared deviation of [xs[i]] from [c] added to [b]. *)
Definition sq_dev (xs : list R) (c : R) (b : R) (i : nat) : R :=
  (b + (nth i xs 0 - c) * (nth i xs 0 - c))%R.

(** A plain fit, 10·age^2 with sigma 1/2, and two points that lie on it. *)
Definition simple_fit : PowerLawFit.t :=
  PowerLawFit.mk (Fin 10) (Fin 2) (Fin 1) (Fin (1 / 2)).

Definition power_law_points : list PriceDataPoint.t :=
  [PriceDataPoint.mk 1239580800000 (Fin 1239580800000)
     (Fin (10 * Rpower 100 2)) (Fin 100);
   PriceDataPoint.mk 1248220800000 (Fin 1248220800000)
     (Fin (10 * Rpower 200 2)) (Fin 200)].

(** A point the regression drops: its price is zero. *)
Definition zero_price_point : PriceDataPoint.t :=
  PriceDataPoint.mk 1231804800000 (Fin 1231804800000) (Fin 0) (Fin 10).

(** Two annotated points with the same log residual. *)
Definition constant_residual_points : list FittedDataPoint.t :=
  map (fun d =>
         FittedDataPoint.mk d (Fin 100) (Fin 0) (Fin 0) (Fin (1 / 10))
           (Fin 200) (Fin 50) (Fin 400) (Fin 25))
      power_law_points.


(** A lump-sum configuration that differs from [lump_sum_config (Fin 20)]
    in the fields that mode does not read. *)
Definition other_lump_sum_config : BBDSimulatorConfig.t :=
  BBDSimulatorConfig.mk (Fin 1) (Fin 0) (Fin 10) (Fin 80)
    (Some (Fin 20)) false yearly pay_monthly 5 fair "2030-06"
    [SpendingStep.mk 2 (Fin 10000)].

(** [baseConfig] with the interest paid every month. *)
Definition pay_monthly_config : BBDSimulatorConfig.t :=
  BBDSimulatorConfig.mk (Fin 1) (Fin 5000) (Fin 10) (Fin 80) None
    true monthly pay_monthly 5 fair "2025-01" [].

(** The position of a zone in the order of the [ValuationZone] union, from
    deep value to bubble. *)
Definition zone_rank (zone : ValuationZone.t) : Z :=
  match zone with
  | ValuationZone.deep_value => 0
  | ValuationZone.undervalued => 1
  | ValuationZone.fair => 2
  | ValuationZone.overvalued => 3
  | ValuationZone.bubble => 4
  end.

(** The labels of a chart axis around the fourth halving. *)
Definition axis_labels : list string :=
  ["2024-01-01"; "2024-04-20"; "2024-12-31"].

(** What one month does to the loan balance: the borrowing, then the
    interest, of iteration [i] of the loop, as a function of the balance
    alone. *)
Definition monthly_update (config : BBDSimulatorConfig.t)
    (monthlyInterestRate : number) (i : Z) (balance : number) : number :=
  let borrowed :=
    if BBDSimulatorConfig.borrowMonthly config && (0 <? i) then
      match BBDSimulatorConfig.borrowFrequency config with
      | monthly => (balance + BBDSimulatorConfig.monthlySpendingUsd config)%js
      | yearly =>
          if i mod 12 =? 0
          then (balance + BBDSimulatorConfig.monthlySpendingUsd config * Fin 12)%js
          else balance
      end
    else balance in
  if 0 <? i then
    match BBDSimulatorConfig.interestMode config with
    | capitalize => (borrowed + borrowed * monthlyInterestRate)%js
    | pay_monthly => borrowed
    end
  else borrowed.

(** The balance after the months 1 .. [k], from the balance [b0]. *)
Definition balance_after (config : BBDSimulatorConfig.t)
    (monthlyInterestRate : number) (b0 : number) (k : nat) : number :=
  fold_left (fun balance i => monthly_update config monthlyInterestRate i balance)
            (map Z.of_nat (seq 1 k)) b0.

(** The rows [getYearlyData] keeps: a multiple of 12 months, or the last. *)
Definition is_yearly_row (len : nat) (s : BBDMonthlyStep.t) : bool :=
  (BBDMonthlyStep.month s mod 12 =? 0)
  || (BBDMonthlyStep.month s =? Z.of_nat len - 1).

(* ================================================================== *)
(** * Facts about numbers *)
(* ================================================================== *)

Local Open Scope R_scope.

Lemma Rltb_true (x y : R) : x < y -> Rltb x y = true.
Proof. intros H. unfold Rltb. destruct (Rlt_dec x y); [reflexivity | contradiction]. Qed.

Lemma Rltb_false (x y : R) : y <= x -> Rltb x y = false.
Proof. intros H. unfold Rltb. destruct (Rlt_dec x y); [lra | reflexivity]. Qed.

Lemma Rleb_true (x y : R) : x <= y -> Rleb x y = true.
Proof. intros H. unfold Rleb. destruct (Rle_dec x y); [reflexivity | contradiction]. Qed.

Lemma Rleb_false (x y : R) : y < x -> Rleb x y = false.
Proof. intros H. unfold Rleb. destruct (Rle_dec x y); [lra | reflexivity]. Qed.

Lemma Reqb_true (x y : R) : x = y -> Reqb x y = true.
Proof. intros H. unfold Reqb. destruct (Req_dec_T x y); [reflexivity | contradiction]. Qed.

Lemma Reqb_false (x y : R) : x <> y -> Reqb x y = false.
Proof. intros H. unfold Reqb. destruct (Req_dec_T x y); [contradiction | reflexivity]. Qed.

Lemma Rltb_spec (x y : R) : Rltb x y = true <-> x < y.
Proof.
  unfold Rltb. destruct (Rlt_dec x y); split; intros; auto; discriminate.
Qed.

Lemma Int_part_IZR (z : Z) : Int_part (IZR z) = z.
Proof.
  symmetry. apply Int_part_spec. split; lra.
Qed.

Lemma is_integer_IZR (z : Z) : is_integer (IZR z) = true.
Proof. unfold is_integer. rewrite Int_part_IZR. apply Reqb_true. reflexivity. Qed.

(** Squaring through [**]: for a finite base the result is the real square. *)
Lemma pow_2_Fin (a : R) : Math_pow (Fin a) (Fin 2) = Fin (a * a).
Proof.
  unfold Math_pow. rewrite (Reqb_false 2 0) by lra.
  destruct (Req_dec_T a 0) as [-> | Hne].
  - rewrite Reqb_true by reflexivity. rewrite Rltb_true by lra. f_equal. lra.
  - rewrite (Reqb_false a 0) by assumption.
    destruct (Rlt_dec 0 a) as [Hpos | Hneg].
    + rewrite Rltb_true by assumption. f_equal.
      change 2 with (INR 2). rewrite Rpower_pow by assumption. simpl. lra.
    + rewrite Rltb_false by lra.
      change 2 with (IZR 2). rewrite is_integer_IZR, Int_part_IZR.
      f_equal. simpl. lra.
Qed.

(** A square root is never negative, whatever it is taken of. *)
Lemma Math_sqrt_not_negative (x : number) : ltb (Math_sqrt x) (Fin 0) = false.
Proof.
  destruct x as [a | | |]; cbn; try reflexivity.
  destruct (Rleb 0 a); cbn; [| reflexivity].
  apply Rltb_false. apply sqrt_pos.
Qed.

(* ================================================================== *)
(** * The fit engine: prediction and bands *)
(* ================================================================== *)

Lemma Math_pow_positive_base (a b : R) :
  0 < a -> Math_pow (Fin a) (Fin b) = Fin (Rpower a b).
Proof.
  intros Ha. unfold Math_pow.
  destruct (Req_dec_T b 0) as [-> | Hb].
  - rewrite Reqb_true by reflexivity. rewrite Rpower_O by assumption. reflexivity.
  - rewrite (Reqb_false b 0) by assumption.
    rewrite (Reqb_false a 0) by lra. rewrite Rltb_true by assumption. reflexivity.
Qed.

Lemma Math_pow_zero_base (b : R) : 0 < b -> Math_pow (Fin 0) (Fin b) = Fin 0.
Proof.
  intros Hb. unfold Math_pow.
  rewrite (Reqb_false b 0) by lra. rewrite Reqb_true by reflexivity.
  rewrite Rltb_true by assumption. reflexivity.
Qed.

Lemma Math_pow_negative_base_integer (a : R) (z : Z) :
  a < 0 -> z <> 0%Z -> Math_pow (Fin a) (Fin (IZR z)) = Fin (powerRZ a z).
Proof.
  intros Ha Hz. unfold Math_pow.
  rewrite (Reqb_false (IZR z) 0) by (intros H; apply eq_IZR in H; contradiction).
  rewrite (Reqb_false a 0) by lra. rewrite Rltb_false by lra.
  rewrite is_integer_IZR, Int_part_IZR. reflexivity.
Qed.

(** C6, as the specification states it, fails: at the age -100, which is
    not positive, the fit with A = 10 and B = 2 predicts 10·(-100)² = 100000,
    not 0. *)
Lemma powerLawPrice_nonpositive_age_not_zero :
  let fit := PowerLawFit.mk (Fin 10) (Fin 2) (Fin 1) (Fin (1/2)) in
  leb (Fin (-100)) (Fin 0) = true
  /\ powerLawPrice (Fin (-100)) fit = Fin 100000
  /\ strict_eq (powerLawPrice (Fin (-100)) fit) (Fin 0) = false.
Proof.
  cbv zeta.
  assert (E : powerLawPrice (Fin (-100))
                (PowerLawFit.mk (Fin 10) (Fin 2) (Fin 1) (Fin (1/2))) = Fin 100000).
  { unfold powerLawPrice. cbn [PowerLawFit.A PowerLawFit.B].
    rewrite (Math_pow_negative_base_integer (-100) 2) by (lra || lia).
    cbn [mul]. f_equal. simpl. lra. }
  split; [| split].
  - cbn. apply Rleb_true. lra.
  - exact E.
  - rewrite E. cbn. apply Reqb_false. lra.
Qed.

(** Without any exponent to rescue it, a negative age gives [NaN]. *)
Example powerLawPrice_negative_age_NaN :
  powerLawPrice (Fin (-1)) (PowerLawFit.mk (Fin 1) (Fin (1/2)) (Fin 1) (Fin 0)) = NaN.
Proof.
  unfold powerLawPrice. cbn [PowerLawFit.A PowerLawFit.B]. unfold Math_pow.
  rewrite (Reqb_false (1/2) 0) by lra. rewrite (Reqb_false (-1) 0) by lra.
  rewrite Rltb_false by lra.
  assert (Hi : is_integer (1/2) = false).
  { unfold is_integer. apply Reqb_false. intros H.
    destruct (base_Int_part (1/2)) as [Hle Hgt].
    assert (Hz : (Int_part (1/2) = 0)%Z).
    { symmetry. apply Int_part_spec. lra. }
    rewrite Hz in H. lra. }
  rewrite Hi. reflexivity.
Qed.

(** C6 (amended): [powerLawPrice] is [A * Math.pow(age, B)] with no guard on
    the age.  For a finite fit it returns A·age^B at every finite age > 0,
    and at age 0 it returns 0 when the exponent is positive. *)
Theorem powerLawPrice_value :
  (forall days fit,
      powerLawPrice days fit
      = mul (PowerLawFit.A fit) (Math_pow days (PowerLawFit.B fit)))
  /\ (forall age A B r2 s, 0 < age ->
      powerLawPrice (Fin age) (PowerLawFit.mk (Fin A) (Fin B) r2 s)
      = Fin (A * Rpower age B))
  /\ (forall A B r2 s, 0 < B ->
      powerLawPrice (Fin 0) (PowerLawFit.mk (Fin A) (Fin B) r2 s) = Fin 0).
Proof.
  split; [| split].
  - intros. reflexivity.
  - intros age A B r2 s Hage. unfold powerLawPrice.
    cbn [PowerLawFit.A PowerLawFit.B].
    rewrite Math_pow_positive_base by assumption. reflexivity.
  - intros A B r2 s HB. unfold powerLawPrice.
    cbn [PowerLawFit.A PowerLawFit.B].
    rewrite Math_pow_zero_base by assumption. cbn. f_equal. lra.
Qed.

Lemma powerLawPrice_value_witness :
  powerLawPrice (Fin 100) (PowerLawFit.mk (Fin 10) (Fin 2) (Fin 1) (Fin (1/2)))
  = Fin (10 * Rpower 100 2)
  /\ powerLawPrice (Fin 0) (PowerLawFit.mk (Fin 10) (Fin 2) (Fin 1) (Fin (1/2)))
     = Fin 0.
Proof.
  destruct powerLawPrice_value as [_ [Hpos Hzero]].
  split.
  - apply Hpos. lra.
  - apply Hzero. lra.
Defined.

(** The model price at a positive finite age, for a finite fit. *)
Lemma powerLawPrice_positive_age (age A B : R) (r2 s : number) :
  0 < age ->
  powerLawPrice (Fin age) (PowerLawFit.mk (Fin A) (Fin B) r2 s)
  = Fin (A * Rpower age B).
Proof.
  intros Hage. unfold powerLawPrice. cbn [PowerLawFit.A PowerLawFit.B].
  rewrite Math_pow_positive_base by assumption. reflexivity.
Qed.

(** The four bands and the model price of one annotated point. *)
Lemma applyFit_bands (fit : PowerLawFit.t) (d : PriceDataPoint.t) (s m : R) :
  PowerLawFit.sigma fit = Fin s ->
  FittedDataPoint.fittedPrice (applyFit fit d) = Fin m ->
  FittedDataPoint.band2SigmaLower (applyFit fit d) = Fin (m * exp (-2 * s))
  /\ FittedDataPoint.band1SigmaLower (applyFit fit d) = Fin (m * exp (- s))
  /\ FittedDataPoint.band1SigmaUpper (applyFit fit d) = Fin (m * exp s)
  /\ FittedDataPoint.band2SigmaUpper (applyFit fit d) = Fin (m * exp (2 * s)).
Proof.
  intros Hs Hm. unfold applyFit in *. cbn [FittedDataPoint.fittedPrice
    FittedDataPoint.band2SigmaLower FittedDataPoint.band1SigmaLower
    FittedDataPoint.band1SigmaUpper FittedDataPoint.band2SigmaUpper] in *.
  rewrite Hs, Hm. cbn. repeat split; reflexivity.
Qed.

Lemma exp_bands_nested (s m : R) :
  0 < s -> 0 < m ->
  m * exp (-2 * s) < m * exp (- s)
  /\ m * exp (- s) < m
  /\ m < m * exp s
  /\ m * exp s < m * exp (2 * s).
Proof.
  intros Hs Hm.
  assert (H1 : exp (-2 * s) < exp (- s)) by (apply exp_increasing; lra).
  assert (H2 : exp (- s) < 1) by (rewrite <- exp_0; apply exp_increasing; lra).
  assert (H3 : 1 < exp s) by (rewrite <- exp_0; apply exp_increasing; lra).
  assert (H4 : exp s < exp (2 * s)) by (apply exp_increasing; lra).
  repeat split; nra.
Qed.

(** The factors e^(k·sigma) of the four bands, for a sigma > 0 that may be
    infinite: below 1 for the lower bands, above 1 for the upper ones, in
    this order. *)
Lemma band_factors (sigma : number) (m : R) :
  gtb sigma (Fin 0) = true -> 0 < m ->
  exists l2 l1,
    mul (Fin m) (Math_exp (mul (Fin (-2)) sigma)) = Fin l2
    /\ mul (Fin m) (Math_exp (neg sigma)) = Fin l1
    /\ 0 <= l2 <= l1 /\ l1 <= m
    /\ ((exists u1 u2,
           mul (Fin m) (Math_exp sigma) = Fin u1
           /\ mul (Fin m) (Math_exp (mul (Fin 2) sigma)) = Fin u2
           /\ m <= u1 <= u2)
        \/ (sigma = PInf
            /\ mul (Fin m) (Math_exp sigma) = PInf
            /\ mul (Fin m) (Math_exp (mul (Fin 2) sigma)) = PInf)).
Proof.
  intros Hsigma Hm.
  destruct sigma as [s | | |]; cbn in Hsigma; try discriminate.
  - apply Rltb_spec in Hsigma.
    destruct (exp_bands_nested s m Hsigma Hm) as (L1 & L2 & L3 & L4).
    assert (Hpos : 0 < m * exp (-2 * s)).
    { apply Rmult_lt_0_compat; [assumption | apply exp_pos]. }
    exists (m * exp (-2 * s)), (m * exp (- s)).
    split; [reflexivity |]. split; [reflexivity |].
    split; [lra |]. split; [lra |].
    left. exists (m * exp s), (m * exp (2 * s)).
    split; [reflexivity |]. split; [reflexivity | lra].
  - exists (m * 0), (m * 0).
    assert (E2 : mul (Fin (-2)) PInf = NInf).
    { cbn. unfold inf_times. rewrite Reqb_false by lra.
      rewrite Rltb_false by lra. reflexivity. }
    assert (E3 : mul (Fin 2) PInf = PInf).
    { cbn. unfold inf_times. rewrite Reqb_false by lra.
      rewrite Rltb_true by lra. reflexivity. }
    assert (E4 : mul (Fin m) PInf = PInf).
    { cbn. unfold inf_times. rewrite Reqb_false by lra.
      rewrite Rltb_true by lra. reflexivity. }
    rewrite E2, E3. cbn [neg Math_exp]. rewrite E4.
    split; [reflexivity |]. split; [reflexivity |].
    split; [lra |]. split; [lra |].
    right. auto.
Qed.

(** The fields of an annotated point, as the code computes them. *)
Lemma applyFit_band_expressions (fit : PowerLawFit.t) (d : PriceDataPoint.t) :
  let p := applyFit fit d in
  FittedDataPoint.band2SigmaLower p
  = mul (FittedDataPoint.fittedPrice p) (Math_exp (mul (Fin (-2)) (PowerLawFit.sigma fit)))
  /\ FittedDataPoint.band1SigmaLower p
     = mul (FittedDataPoint.fittedPrice p) (Math_exp (neg (PowerLawFit.sigma fit)))
  /\ FittedDataPoint.band1SigmaUpper p
     = mul (FittedDataPoint.fittedPrice p) (Math_exp (PowerLawFit.sigma fit))
  /\ FittedDataPoint.band2SigmaUpper p
     = mul (FittedDataPoint.fittedPrice p) (Math_exp (mul (Fin 2) (PowerLawFit.sigma fit))).
Proof. repeat split. Qed.

(** C8, as the specification states it, fails: a fit with sigma = +Infinity
    has sigma > 0, the model price 10·100^2 of the point is positive, and
    both upper bands are +Infinity and both lower bands are 0, so the bands
    are not strictly nested. *)
Lemma infinite_sigma_bands_coincide :
  let fit := PowerLawFit.mk (Fin 10) (Fin 2) (Fin 1) PInf in
  let d := PriceDataPoint.mk 1735689600000%Z (Fin 1735689600000) (Fin 120000) (Fin 100) in
  let p := applyFit fit d in
  In p (applyFitToData [d] fit)
  /\ gtb (PowerLawFit.sigma fit) (Fin 0) = true
  /\ gtb (FittedDataPoint.fittedPrice p) (Fin 0) = true
  /\ FittedDataPoint.band1SigmaUpper p = PInf
  /\ FittedDataPoint.band2SigmaUpper p = PInf
  /\ ltb (FittedDataPoint.band1SigmaUpper p) (FittedDataPoint.band2SigmaUpper p) = false
  /\ ltb (FittedDataPoint.band2SigmaLower p) (FittedDataPoint.band1SigmaLower p) = false.
Proof.
  intros fit d p.
  assert (Hm : FittedDataPoint.fittedPrice p = Fin (10 * Rpower 100 2)).
  { apply powerLawPrice_positive_age. lra. }
  assert (Hpos : 0 < 10 * Rpower 100 2).
  { apply Rmult_lt_0_compat; [lra | apply exp_pos]. }
  destruct (applyFit_band_expressions fit d) as (E1 & E2 & E3 & E4).
  fold p in E1, E2, E3, E4. rewrite Hm in E1, E2, E3, E4.
  destruct (band_factors PInf (10 * Rpower 100 2) eq_refl Hpos)
    as (l2 & l1 & F1 & F2 & _ & _ & [(u1 & u2 & F3 & _) | (_ & F3 & F4)]).
  - cbn in F3. unfold inf_times in F3. rewrite Reqb_false, Rltb_true in F3 by lra.
    discriminate F3.
  - cbn [PowerLawFit.sigma fit] in E1, E2, E3, E4.
    rewrite F3 in E3. rewrite F4 in E4.
    assert (G1 : mul (Fin (-2)) PInf = NInf).
    { cbn. unfold inf_times. rewrite Reqb_false by lra.
      rewrite Rltb_false by lra. reflexivity. }
    rewrite G1 in E1. cbn [neg Math_exp mul] in E1, E2.
    split; [left; reflexivity |]. split; [reflexivity |].
    split; [rewrite Hm; cbn; apply Rltb_true; assumption |].
    split; [assumption |]. split; [assumption |].
    rewrite E1, E2, E3, E4. split; [reflexivity |].
    cbn. apply Rltb_false. lra.
Qed.

(** C8 (amended): for a fit with sigma > 0, finite or +Infinity, every
    annotated point whose model price is positive and finite has nested
    bands band-2σ <= band-1σ <= modelPrice <= band+1σ <= band+2σ, each band
    being computed as modelPrice × Math.exp(k·sigma) for k = -2, -1, +1, +2.
    The inequalities need not be strict. *)
Theorem applyFitToData_bands_nested
    (data : list PriceDataPoint.t) (fit : PowerLawFit.t)
    (p : FittedDataPoint.t) (m : R) :
  In p (applyFitToData data fit) ->
  gtb (PowerLawFit.sigma fit) (Fin 0) = true ->
  FittedDataPoint.fittedPrice p = Fin m -> 0 < m ->
  (FittedDataPoint.band2SigmaLower p
   = mul (FittedDataPoint.fittedPrice p) (Math_exp (mul (Fin (-2)) (PowerLawFit.sigma fit)))
   /\ FittedDataPoint.band1SigmaLower p
      = mul (FittedDataPoint.fittedPrice p) (Math_exp (neg (PowerLawFit.sigma fit)))
   /\ FittedDataPoint.band1SigmaUpper p
      = mul (FittedDataPoint.fittedPrice p) (Math_exp (PowerLawFit.sigma fit))
   /\ FittedDataPoint.band2SigmaUpper p
      = mul (FittedDataPoint.fittedPrice p) (Math_exp (mul (Fin 2) (PowerLawFit.sigma fit))))
  /\ leb (FittedDataPoint.band2SigmaLower p) (FittedDataPoint.band1SigmaLower p) = true
  /\ leb (FittedDataPoint.band1SigmaLower p) (FittedDataPoint.fittedPrice p) = true
  /\ leb (FittedDataPoint.fittedPrice p) (FittedDataPoint.band1SigmaUpper p) = true
  /\ leb (FittedDataPoint.band1SigmaUpper p) (FittedDataPoint.band2SigmaUpper p) = true.
Proof.
  intros Hin Hsigma Hm Hmpos.
  unfold applyFitToData in Hin. apply in_map_iff in Hin.
  destruct Hin as [d [<- _]].
  destruct (applyFit_band_expressions fit d) as (E1 & E2 & E3 & E4).
  split; [auto |].
  rewrite E1, E2, E3, E4, Hm.
  destruct (band_factors (PowerLawFit.sigma fit) m Hsigma Hmpos)
    as (l2 & l1 & -> & -> & Hl2 & Hl1 & [(u1 & u2 & -> & -> & Hu) | (_ & -> & ->)]);
    cbn [leb]; repeat split; try reflexivity; apply Rleb_true; lra.
Qed.

Lemma applyFitToData_bands_nested_witness :
  let fit := PowerLawFit.mk (Fin 10) (Fin 2) (Fin 1) (Fin (1/2)) in
  let d := PriceDataPoint.mk 1735689600000%Z (Fin 1735689600000) (Fin 120000) (Fin 100) in
  let p := applyFit fit d in
  leb (FittedDataPoint.band2SigmaLower p) (FittedDataPoint.band1SigmaLower p) = true
  /\ leb (FittedDataPoint.band1SigmaLower p) (FittedDataPoint.fittedPrice p) = true
  /\ leb (FittedDataPoint.fittedPrice p) (FittedDataPoint.band1SigmaUpper p) = true
  /\ leb (FittedDataPoint.band1SigmaUpper p) (FittedDataPoint.band2SigmaUpper p) = true.
Proof.
  intros fit d p.
  assert (Hm : FittedDataPoint.fittedPrice p = Fin (10 * Rpower 100 2)).
  { apply powerLawPrice_positive_age. lra. }
  assert (Hpos : 0 < 10 * Rpower 100 2).
  { apply Rmult_lt_0_compat; [lra | apply exp_pos]. }
  assert (Hsigma : gtb (PowerLawFit.sigma fit) (Fin 0) = true).
  { cbn. apply Rltb_true. lra. }
  apply (applyFitToData_bands_nested [d] fit p (10 * Rpower 100 2)).
  - left. reflexivity.
  - exact Hsigma.
  - exact Hm.
  - exact Hpos.
Defined.

(* ================================================================== *)
(** * The fit engine: regression *)
(* ================================================================== *)

Lemma is_valid_spec (d : PriceDataPoint.t) :
  is_valid d = true
  <-> ltb (Fin 0) (PriceDataPoint.price d) = true
      /\ ltb (Fin 0) (PriceDataPoint.daysSinceGenesis d) = true.
Proof. unfold is_valid, gtb. apply andb_true_iff. Qed.

(** The points the regression sees are exactly those with price > 0 and
    age > 0, in their original order. *)
Lemma valid_points_spec (data : list PriceDataPoint.t) (d : PriceDataPoint.t) :
  In d (List.filter is_valid data)
  <-> In d data
      /\ ltb (Fin 0) (PriceDataPoint.price d) = true
      /\ ltb (Fin 0) (PriceDataPoint.daysSinceGenesis d) = true.
Proof. rewrite filter_In, is_valid_spec. reflexivity. Qed.

(** Fewer than two valid points: the zero-valued fit. *)
Lemma fitPowerLaw_insufficient (data : list PriceDataPoint.t) :
  (length (List.filter is_valid data) < 2)%nat ->
  fitPowerLaw data = zero_fit.
Proof.
  intros H. unfold fitPowerLaw.
  apply Nat.ltb_lt in H. rewrite H. reflexivity.
Qed.

Lemma fitPowerLaw_sigma_cases (data : list PriceDataPoint.t) :
  PowerLawFit.sigma (fitPowerLaw data) = Fin 0
  \/ exists variance, PowerLawFit.sigma (fitPowerLaw data) = Math_sqrt variance.
Proof.
  unfold fitPowerLaw.
  destruct (length (List.filter is_valid data) <? 2)%nat.
  - left. reflexivity.
  - right. destruct (slope_sums _ _ _ _ _) as [numerator denominator].
    eexists. reflexivity.
Qed.

(** X1: whatever the input, the sigma [fitPowerLaw] returns is never a
    negative number: it is the 0 of the zero-valued fit or a [Math.sqrt],
    which is zero, positive or NaN. *)
Lemma fitPowerLaw_sigma_not_negative (data : list PriceDataPoint.t) :
  ltb (PowerLawFit.sigma (fitPowerLaw data)) (Fin 0) = false.
Proof.
  destruct (fitPowerLaw_sigma_cases data) as [-> | [v ->]].
  - cbn. apply Rltb_false. lra.
  - apply Math_sqrt_not_negative.
Qed.

(** ** The regression on finite data *)

Lemma sub_Fin (a b : R) : sub (Fin a) (Fin b) = Fin (a - b).
Proof. cbn. f_equal. Qed.

Lemma square_nonneg (d : R) : 0 <= d * d.
Proof. nra. Qed.

Lemma square_zero (d : R) : d * d = 0 -> d = 0.
Proof. intros H. nra. Qed.

Lemma sum_from_finite (l : list R) (a : R) :
  fold_left (fun x y => add x y) (map Fin l) (Fin a) = Fin (fold_left Rplus l a).
Proof.
  revert a. induction l as [| x l IH]; intros a; cbn; [reflexivity | apply IH].
Qed.

Lemma sum_finite (l : list R) : sum (map Fin l) = Fin (fold_left Rplus l 0).
Proof. apply sum_from_finite. Qed.

Lemma sum_sq_about_finite (c : R) (l : list R) :
  exists v, sum_sq_about (Fin c) (map Fin l) = Fin v /\ 0 <= v.
Proof.
  unfold sum_sq_about.
  assert (H : forall a, 0 <= a ->
            exists v, fold_left (fun s x => add s (Math_pow (sub x (Fin c)) (Fin 2)))
                        (map Fin l) (Fin a) = Fin v /\ 0 <= v).
  { induction l as [| x l IH]; intros a Ha; cbn [map fold_left].
    - exists a. auto.
    - rewrite sub_Fin, pow_2_Fin. cbn [add]. apply IH.
      pose proof (square_nonneg (x - c)). lra. }
  apply H. lra.
Qed.

Lemma at_index_finite (l : list R) (i : nat) :
  (i < length l)%nat -> at_index (map Fin l) i = Fin (nth i l 0).
Proof.
  intros Hi. unfold at_index.
  rewrite (nth_indep _ NaN (Fin 0)) by (rewrite length_map; assumption).
  apply map_nth.
Qed.

Lemma slope_sums_from_finite (xs ys : list R) (mx my : R) (idx : list nat) (a b : R) :
  Forall (fun i => (i < length xs)%nat /\ (i < length ys)%nat) idx ->
  exists num,
    fold_left
      (fun (acc : number * number) (i : nat) =>
         let (numerator, denominator) := acc in
         (add numerator
            (mul (sub (at_index (map Fin xs) i) (Fin mx))
                 (sub (at_index (map Fin ys) i) (Fin my))),
          add denominator (Math_pow (sub (at_index (map Fin xs) i) (Fin mx)) (Fin 2))))
      idx (Fin a, Fin b)
    = (Fin num, Fin (fold_left (sq_dev xs mx) idx b)).
Proof.
  revert a b. induction idx as [| i idx IH]; intros a b Hidx.
  - exists a. reflexivity.
  - inversion Hidx as [| ? ? [Hx Hy] Hrest]; subst.
    cbn [fold_left]. rewrite !at_index_finite by assumption.
    rewrite !sub_Fin, pow_2_Fin. cbn [mul add].
    apply IH. assumption.
Qed.

Lemma sq_dev_sum_zero (xs : list R) (c : R) (idx : list nat) (b : R) :
  0 <= b -> fold_left (sq_dev xs c) idx b = 0 ->
  b = 0 /\ Forall (fun i => nth i xs 0 = c) idx.
Proof.
  revert b. induction idx as [| i idx IH]; intros b Hb Hzero; cbn in Hzero.
  - auto.
  - pose proof (square_nonneg (nth i xs 0 - c)) as Hsq.
    destruct (IH (sq_dev xs c b i)) as [H0 Hall]; [unfold sq_dev; lra | assumption |].
    unfold sq_dev in H0. split; [lra |].
    constructor; [| assumption].
    assert (Hd : nth i xs 0 - c = 0) by (apply square_zero; lra). lra.
Qed.

Lemma imap_finite (f : nat -> number -> number) (l : list R) :
  (forall i y, (i < length l)%nat -> exists r, f i (Fin y) = Fin r) ->
  exists rs, imap f (map Fin l) = map Fin rs.
Proof.
  revert f. induction l as [| y l IH]; intros f Hf.
  - exists []. reflexivity.
  - cbn [map]. rewrite imap_cons.
    destruct (Hf 0%nat y) as [r Hr]; [cbn; lia |].
    destruct (IH (f ∘ S)) as [rs Hrs].
    { intros i z Hi. apply Hf. cbn. lia. }
    exists (r :: rs). cbn [map]. rewrite Hr, Hrs. reflexivity.
Qed.

Lemma mul_Fin (a b : R) : mul (Fin a) (Fin b) = Fin (a * b).
Proof. reflexivity. Qed.

Lemma add_Fin (a b : R) : add (Fin a) (Fin b) = Fin (a + b).
Proof. reflexivity. Qed.

Lemma div_Fin (a b : R) : b <> 0 -> div (Fin a) (Fin b) = Fin (a / b).
Proof. intros Hb. cbn. rewrite Reqb_false by assumption. reflexivity. Qed.

(** The regression on finite logarithms whose ages are not all equal. *)
Lemma regression_sigma (data : list PriceDataPoint.t) (xs ys : list R) :
  let validData := List.filter is_valid data in
  let n := length validData in
  (2 <= n)%nat ->
  map (fun d => Math_log (PriceDataPoint.daysSinceGenesis d)) validData = map Fin xs ->
  map (fun d => Math_log (PriceDataPoint.price d)) validData = map Fin ys ->
  fold_left (sq_dev xs (fold_left Rplus xs 0 / INR n)) (seq 0 n) 0 <> 0 ->
  exists s, PowerLawFit.sigma (fitPowerLaw data) = Fin s /\ 0 <= s.
Proof.
  intros validData n Hn Hxs Hys Hden.
  assert (Hlx : length xs = n).
  { apply (f_equal (@length _)) in Hxs. rewrite !length_map in Hxs. auto. }
  assert (Hly : length ys = n).
  { apply (f_equal (@length _)) in Hys. rewrite !length_map in Hys. auto. }
  assert (HnR : 2 <= INR n).
  { change 2 with (INR 2). apply le_INR. assumption. }
  unfold fitPowerLaw. fold validData. fold n.
  replace (n <? 2)%nat with false by (symmetry; apply Nat.ltb_ge; assumption).
  cbv zeta. rewrite Hxs, Hys. unfold of_nat. rewrite !sum_finite.
  rewrite !div_Fin by lra.
  unfold slope_sums.
  destruct (slope_sums_from_finite xs ys (fold_left Rplus xs 0 / INR n)
              (fold_left Rplus ys 0 / INR n) (seq 0 n) 0 0) as [num ->].
  { apply Forall_forall. intros i Hi. apply in_seq in Hi. lia. }
  rewrite div_Fin by assumption.
  set (B := num / _). set (mx := fold_left Rplus xs 0 / INR n).
  set (my := fold_left Rplus ys 0 / INR n).
  rewrite mul_Fin, sub_Fin.
  cbn [PowerLawFit.sigma].
  set (logA := my - B * mx).
  assert (Hpred : map (fun lt => add (Fin logA) (mul (Fin B) lt)) (map Fin xs)
                  = map Fin (map (fun x => logA + B * x) xs)).
  { rewrite !map_map. apply map_ext. intros x. rewrite mul_Fin, add_Fin. reflexivity. }
  rewrite Hpred.
  destruct (imap_finite
              (fun i lp => sub lp (at_index (map Fin (map (fun x => logA + B * x) xs)) i))
              ys) as [rs ->].
  { intros i y Hi. rewrite at_index_finite by (rewrite length_map; lia).
    rewrite sub_Fin. eexists. reflexivity. }
  rewrite sum_finite, div_Fin by lra.
  destruct (sum_sq_about_finite (fold_left Rplus rs 0 / INR n) rs) as (v & -> & Hv).
  rewrite sub_Fin, div_Fin by lra.
  assert (Hvar : 0 <= v / (INR n - 1)).
  { apply Rmult_le_pos; [assumption |]. apply Rlt_le, Rinv_0_lt_compat. lra. }
  cbn [Math_sqrt]. rewrite Rleb_true by assumption.
  eexists. split; [reflexivity | apply sqrt_pos].
Qed.

Lemma Math_log_positive (x : number) (a : R) :
  x = Fin a -> gtb x (Fin 0) = true -> Math_log x = Fin (ln a) /\ 0 < a.
Proof.
  intros -> H. cbn in H. apply Rltb_spec in H.
  cbn. rewrite Rltb_true by assumption. auto.
Qed.

(** Over exact real arithmetic: on at least two valid finite points whose
    logarithms of age are not all equal the sums of the regression are real
    numbers and the fitted sigma is a real number >= 0. *)
Lemma fitPowerLaw_sigma_nonnegative (data : list PriceDataPoint.t) :
  let validData := List.filter is_valid data in
  (2 <= length validData)%nat ->
  Forall (fun d => exists p t, PriceDataPoint.price d = Fin p
                               /\ PriceDataPoint.daysSinceGenesis d = Fin t)
         validData ->
  (exists d1 d2, In d1 validData /\ In d2 validData
                 /\ PriceDataPoint.daysSinceGenesis d1
                    <> PriceDataPoint.daysSinceGenesis d2) ->
  exists s, PowerLawFit.sigma (fitPowerLaw data) = Fin s /\ 0 <= s.
Proof.
  intros validData Hn Hfinite (d1 & d2 & Hd1 & Hd2 & Hneq).
  assert (Hvalid : Forall (fun d => is_valid d = true) validData).
  { apply Forall_forall. intros d Hd. apply filter_In in Hd. tauto. }
  set (xs := map (fun d => ln (finite_part (PriceDataPoint.daysSinceGenesis d))) validData).
  set (ys := map (fun d => ln (finite_part (PriceDataPoint.price d))) validData).
  assert (Hxs : map (fun d => Math_log (PriceDataPoint.daysSinceGenesis d)) validData
                = map Fin xs).
  { unfold xs. rewrite map_map. apply map_ext_in. intros d Hd.
    rewrite Forall_forall in Hfinite, Hvalid.
    destruct (Hfinite d Hd) as (p & t & Hp & Ht).
    pose proof (Hvalid d Hd) as Hv. apply andb_true_iff in Hv. destruct Hv as [_ Hv].
    rewrite Ht in *. cbn [finite_part].
    apply (Math_log_positive (Fin t) t eq_refl Hv). }
  assert (Hys : map (fun d => Math_log (PriceDataPoint.price d)) validData
                = map Fin ys).
  { unfold ys. rewrite map_map. apply map_ext_in. intros d Hd.
    rewrite Forall_forall in Hfinite, Hvalid.
    destruct (Hfinite d Hd) as (p & t & Hp & Ht).
    pose proof (Hvalid d Hd) as Hv. apply andb_true_iff in Hv. destruct Hv as [Hv _].
    rewrite Hp in *. cbn [finite_part].
    apply (Math_log_positive (Fin p) p eq_refl Hv). }
  apply (regression_sigma data xs ys Hn Hxs Hys).
  fold validData. set (n := length validData).
  set (mx := fold_left Rplus xs 0 / INR n).
  intros Hzero.
  destruct (sq_dev_sum_zero xs mx (seq 0 n) 0) as [_ Hall]; [lra | assumption |].
  rewrite Forall_forall in Hall.
  assert (Hage : forall d, In d validData ->
             exists t, PriceDataPoint.daysSinceGenesis d = Fin t /\ 0 < t /\ ln t = mx).
  { intros d Hd. rewrite Forall_forall in Hfinite, Hvalid.
    destruct (Hfinite d Hd) as (p & t & Hp & Ht).
    pose proof (Hvalid d Hd) as Hv. apply andb_true_iff in Hv. destruct Hv as [_ Hv].
    rewrite Ht in Hv. cbn in Hv. apply Rltb_spec in Hv.
    exists t. repeat split; try assumption.
    destruct (In_nth _ _ d Hd) as (i & Hi & Hnth).
    specialize (Hall i). rewrite <- Hall by (apply in_seq; fold n; lia).
    unfold xs.
    rewrite (nth_indep _ 0 (ln (finite_part (PriceDataPoint.daysSinceGenesis d))))
      by (rewrite length_map; assumption).
    rewrite (map_nth (fun d => ln (finite_part (PriceDataPoint.daysSinceGenesis d)))).
    rewrite Hnth, Ht. reflexivity. }
  destruct (Hage d1 Hd1) as (t1 & Ht1 & Hpos1 & Hln1).
  destruct (Hage d2 Hd2) as (t2 & Ht2 & Hpos2 & Hln2).
  apply Hneq. rewrite Ht1, Ht2. f_equal.
  apply ln_inv; congruence.
Qed.

Lemma of_nat_2 : of_nat 2 = Fin 2.
Proof. reflexivity. Qed.

(** C5: two valid points recorded on the same day.  Every deviation of
    ln(age) from its mean is zero, the slope is 0/0, and the fit that comes
    back has sigma = NaN, which is not >= 0. *)
Theorem fitPowerLaw_same_age_sigma_NaN :
  let data :=
    [PriceDataPoint.mk 1317427200000%Z (Fin 1317427200000) (Fin 100) (Fin 1000);
     PriceDataPoint.mk 1317463200000%Z (Fin 1317463200000) (Fin 200) (Fin 1000)] in
  length (List.filter is_valid data) = 2%nat
  /\ PowerLawFit.sigma (fitPowerLaw data) = NaN
  /\ geb (PowerLawFit.sigma (fitPowerLaw data)) (Fin 0) = false.
Proof.
  cbv zeta.
  assert (V : forall a b c e, 0 < c -> 0 < e ->
            is_valid (PriceDataPoint.mk a b (Fin c) (Fin e)) = true).
  { intros. unfold is_valid. cbn. rewrite !Rltb_true by assumption. reflexivity. }
  assert (E : PowerLawFit.sigma (fitPowerLaw
     [PriceDataPoint.mk 1317427200000%Z (Fin 1317427200000) (Fin 100) (Fin 1000);
      PriceDataPoint.mk 1317463200000%Z (Fin 1317463200000) (Fin 200) (Fin 1000)])
     = NaN).
  { unfold fitPowerLaw. cbn [List.filter]. rewrite !V by lra.
    cbn [length Nat.ltb Nat.leb map PriceDataPoint.daysSinceGenesis
         PriceDataPoint.price].
    rewrite of_nat_2.
    cbn [Math_log]. rewrite !Rltb_true by lra.
    unfold sum. cbn [fold_left add div].
    rewrite !(Reqb_false 2 0) by lra.
    unfold slope_sums. cbn [seq fold_left at_index nth sub neg add mul].
    rewrite !pow_2_Fin. cbn [add div].
    set (den := (0 + _ * _ + _ * _)%R).
    set (num := (0 + _ * _ + _ * _)%R).
    assert (Hden : den = 0) by (subst den; field).
    assert (Hnum : num = 0) by (subst num; field).
    rewrite (Reqb_true den 0) by assumption.
    rewrite (Reqb_true num 0) by assumption.
    cbn [PowerLawFit.sigma map imap fold_left sum_sq_about at_index nth
         mul neg add sub div Math_pow].
    rewrite !(Reqb_false 2 0) by lra.
    reflexivity. }
  split; [| split].
  - cbn [List.filter]. rewrite !V by lra. reflexivity.
  - exact E.
  - rewrite E. reflexivity.
Qed.

(* ================================================================== *)
(** * The simulation loop *)
(* ================================================================== *)

Local Open Scope Z_scope.

(** Case analysis on every test the loop body makes. *)
Ltac split_conditionals :=
  repeat match goal with
         | |- context [if ?c then _ else _] => destruct c eqn:?
         | |- context [match ?c with monthly => _ | yearly => _ end] => destruct c eqn:?
         | |- context [match ?c with capitalize => _ | pay_monthly => _ end] => destruct c eqn:?
         end.

Section Loop.

Variable config : BBDSimulatorConfig.t.
Variables monthlyInterestRate liquidationLtv : number.

Local Abbreviation body := (loop_body config monthlyInterestRate liquidationLtv).
Local Abbreviation loop := (sim_loop config monthlyInterestRate liquidationLtv).

(** What one iteration appends, field by field. *)
Lemma loop_body_appends (i : Z) (point : PathPoint.t) (st : SimState.t) :
  exists s,
    SimState.steps (body i point st) = SimState.steps st ++ [s]
    /\ BBDMonthlyStep.month s = i
    /\ BBDMonthlyStep.year s = i / 12
    /\ BBDMonthlyStep.date s = PathPoint.date point
    /\ BBDMonthlyStep.btcPrice s = PathPoint.price point
    /\ BBDMonthlyStep.isProjection s = PathPoint.isProjection point
    /\ BBDMonthlyStep.collateralValue s
       = mul (BBDSimulatorConfig.btcHeld config) (PathPoint.price point)
    /\ BBDMonthlyStep.loanBalance s = SimState.loanBalance (body i point st)
    /\ BBDMonthlyStep.ltv s
       = (if gtb (BBDMonthlyStep.collateralValue s) (Fin 0)
          then div (BBDMonthlyStep.loanBalance s) (BBDMonthlyStep.collateralValue s)
          else Fin 0)
    /\ BBDMonthlyStep.netEquity s
       = sub (BBDMonthlyStep.collateralValue s) (BBDMonthlyStep.loanBalance s)
    /\ BBDMonthlyStep.isLiquidated s = SimState.isLiquidated (body i point st).
Proof.
  unfold loop_body.
  split_conditionals; eexists; (split; [reflexivity |]);
    cbn [BBDMonthlyStep.month BBDMonthlyStep.year BBDMonthlyStep.date
         BBDMonthlyStep.btcPrice BBDMonthlyStep.isProjection
         BBDMonthlyStep.collateralValue BBDMonthlyStep.loanBalance
         BBDMonthlyStep.ltv BBDMonthlyStep.netEquity
         BBDMonthlyStep.isLiquidated SimState.loanBalance
         SimState.isLiquidated];
    repeat match goal with
           | H : ?c = _ |- context [?c] => rewrite H
           end;
    repeat split.
Qed.

(** The liquidation flag after one iteration entered without it. *)
Lemma loop_body_liquidation (i : Z) (point : PathPoint.t) (st : SimState.t) (s : BBDMonthlyStep.t) :
  SimState.isLiquidated st = false ->
  SimState.steps (body i point st) = SimState.steps st ++ [s] ->
  SimState.isLiquidated (body i point st) = geb (BBDMonthlyStep.ltv s) liquidationLtv
  /\ SimState.liquidationMonth (body i point st)
     = (if geb (BBDMonthlyStep.ltv s) liquidationLtv then Some i
        else SimState.liquidationMonth st).
Proof.
  intros Hnot. unfold loop_body. rewrite Hnot. cbn [negb].
  rewrite ?andb_true_r.
  split_conditionals; cbn [SimState.steps]; intros Happ;
    apply app_inv_head in Happ; injection Happ as <-;
    cbn [BBDMonthlyStep.ltv SimState.isLiquidated SimState.liquidationMonth] in *;
    rewrite ?andb_true_r in *; split; congruence.
Qed.

(** The balance after one iteration. *)
Lemma loop_body_loanBalance (i : Z) (point : PathPoint.t) (st : SimState.t) :
  SimState.loanBalance (body i point st)
  = let borrowed :=
      if BBDSimulatorConfig.borrowMonthly config && (0 <? i) then
        match BBDSimulatorConfig.borrowFrequency config with
        | monthly =>
            add (SimState.loanBalance st) (BBDSimulatorConfig.monthlySpendingUsd config)
        | yearly =>
            if i mod 12 =? 0
            then add (SimState.loanBalance st)
                     (mul (BBDSimulatorConfig.monthlySpendingUsd config) (Fin 12))
            else SimState.loanBalance st
        end
      else SimState.loanBalance st in
    if 0 <? i then
      match BBDSimulatorConfig.interestMode config with
      | capitalize => add borrowed (mul borrowed monthlyInterestRate)
      | pay_monthly => borrowed
      end
    else borrowed.
Proof.
  unfold loop_body. cbv zeta. split_conditionals; reflexivity.
Qed.

(** What one iteration records as borrowed and as interest paid. *)
Lemma loop_body_borrowed (i : Z) (point : PathPoint.t) (st : SimState.t) (s : BBDMonthlyStep.t) :
  SimState.steps (body i point st) = SimState.steps st ++ [s] ->
  BBDMonthlyStep.borrowedThisMonth s
  = if BBDSimulatorConfig.borrowMonthly config && (0 <? i) then
      match BBDSimulatorConfig.borrowFrequency config with
      | monthly => BBDSimulatorConfig.monthlySpendingUsd config
      | yearly =>
          if i mod 12 =? 0
          then mul (BBDSimulatorConfig.monthlySpendingUsd config) (Fin 12)
          else Fin 0
      end
    else Fin 0.
Proof.
  unfold loop_body. split_conditionals; cbn; intros Happ;
    apply app_inv_head in Happ; injection Happ as <-; reflexivity.
Qed.

End Loop.

Section LoopInvariants.

Variable config : BBDSimulatorConfig.t.
Variables monthlyInterestRate liquidationLtv : number.

Local Abbreviation body := (loop_body config monthlyInterestRate liquidationLtv).
Local Abbreviation loop := (sim_loop config monthlyInterestRate liquidationLtv).

Lemma sim_loop_cons (i : Z) (point : PathPoint.t) (rest : list PathPoint.t) (st : SimState.t) :
  loop i (point :: rest) st
  = if SimState.isLiquidated (body i point st) then body i point st
    else loop (i + 1) rest (body i point st).
Proof. reflexivity. Qed.

(** The loop only appends: the steps recorded so far stay where they are. *)
Lemma sim_loop_extends (rest : list PathPoint.t) (i : Z) (st : SimState.t) :
  exists new,
    SimState.steps (loop i rest st) = SimState.steps st ++ new
    /\ (length new <= length rest)%nat
    /\ (rest <> [] -> new <> []).
Proof.
  revert i st. induction rest as [| point rest IH]; intros i st.
  - exists []. cbn. rewrite app_nil_r. repeat split; auto.
  - rewrite sim_loop_cons.
    destruct (loop_body_appends config monthlyInterestRate liquidationLtv i point st)
      as (s & Hs & _).
    destruct (SimState.isLiquidated (body i point st)).
    + exists [s]. split; [assumption |]. split; [cbn; lia | discriminate].
    + destruct (IH (i + 1) (body i point st)) as (new & Hnew & Hlen & _).
      exists (s :: new). rewrite Hnew, Hs, <- app_assoc.
      split; [reflexivity |]. split; [cbn; lia | discriminate].
Qed.

(** A step recorded before the loop is still at its index afterwards. *)
Lemma sim_loop_keeps (rest : list PathPoint.t) (i : Z) (st : SimState.t)
    (k : nat) (s : BBDMonthlyStep.t) :
  nth_error (SimState.steps st) k = Some s ->
  nth_error (SimState.steps (loop i rest st)) k = Some s.
Proof.
  intros H. destruct (sim_loop_extends rest i st) as (new & -> & _).
  rewrite nth_error_app1; [assumption |].
  apply nth_error_Some. congruence.
Qed.

(** Loop rule.  [Inv i st] is an invariant of the state on entry to
    iteration [i]; [Q i s] is what it lets one say of the step recorded by
    iteration [i].  Then every step of the finished loop satisfies [Q] at
    its own index. *)
Lemma sim_loop_rule (Inv : Z -> SimState.t -> Prop) (Q : Z -> BBDMonthlyStep.t -> Prop) :
  (forall i point st s,
      0 <= i -> Inv i st -> SimState.isLiquidated st = false ->
      SimState.steps (body i point st) = SimState.steps st ++ [s] ->
      Q i s /\ Inv (i + 1) (body i point st)) ->
  forall rest i st,
    0 <= i -> Inv i st -> SimState.isLiquidated st = false ->
    length (SimState.steps st) = Z.to_nat i ->
    (forall k s, nth_error (SimState.steps st) k = Some s -> Q (Z.of_nat k) s) ->
    forall k s,
      nth_error (SimState.steps (loop i rest st)) k = Some s -> Q (Z.of_nat k) s.
Proof.
  intros Hbody rest. induction rest as [| point rest IH];
    intros i st Hi HInv Hnot Hlen Hold k s Hk.
  - cbn in Hk. eauto.
  - rewrite sim_loop_cons in Hk.
    destruct (loop_body_appends config monthlyInterestRate liquidationLtv i point st)
      as (s0 & Hs0 & _).
    destruct (Hbody i point st s0 Hi HInv Hnot Hs0) as [HQ HInv'].
    assert (Hold' : forall k s,
               nth_error (SimState.steps (body i point st)) k = Some s ->
               Q (Z.of_nat k) s).
    { intros k' s' Hk'. rewrite Hs0 in Hk'.
      destruct (Nat.lt_ge_cases k' (length (SimState.steps st))) as [Hlt | Hge].
      - rewrite nth_error_app1 in Hk' by assumption. eauto.
      - rewrite nth_error_app2 in Hk' by assumption.
        destruct (k' - length (SimState.steps st))%nat as [| j] eqn:Hj.
        + cbn in Hk'. injection Hk' as <-.
          replace (Z.of_nat k') with i by lia. assumption.
        + cbn in Hk'. destruct j; discriminate. }
    destruct (SimState.isLiquidated (body i point st)) eqn:Hliq.
    + eauto.
    + apply (IH (i + 1) (body i point st)); auto; try lia.
      rewrite Hs0, length_app. cbn. lia.
Qed.

(** How the loop ends.  Entered without a liquidation, it stops either
    because the path is exhausted, with no step flagged, or at the first
    flagged step, which is then the last one. *)
Lemma sim_loop_end (rest : list PathPoint.t) (i : Z) (st : SimState.t) :
  SimState.isLiquidated st = false ->
  SimState.liquidationMonth st = None ->
  Forall (fun s => BBDMonthlyStep.isLiquidated s = false) (SimState.steps st) ->
  (SimState.isLiquidated (loop i rest st) = false
   /\ SimState.liquidationMonth (loop i rest st) = None
   /\ Forall (fun s => BBDMonthlyStep.isLiquidated s = false)
             (SimState.steps (loop i rest st))
   /\ length (SimState.steps (loop i rest st))
      = (length (SimState.steps st) + length rest)%nat)
  \/ (SimState.isLiquidated (loop i rest st) = true
      /\ exists before final,
          SimState.steps (loop i rest st) = before ++ [final]
          /\ Forall (fun s => BBDMonthlyStep.isLiquidated s = false) before
          /\ BBDMonthlyStep.isLiquidated final = true
          /\ SimState.liquidationMonth (loop i rest st)
             = Some (BBDMonthlyStep.month final)).
Proof.
  revert i st. induction rest as [| point rest IH]; intros i st Hnot Hmonth Hall.
  - left. cbn. rewrite Nat.add_0_r. auto.
  - rewrite sim_loop_cons.
    destruct (loop_body_appends config monthlyInterestRate liquidationLtv i point st)
      as (s & Hs & Hm & _ & _ & _ & _ & _ & _ & _ & _ & Hflag).
    destruct (loop_body_liquidation config monthlyInterestRate liquidationLtv
                i point st s Hnot Hs) as [Hliq Hlm].
    destruct (SimState.isLiquidated (body i point st)) eqn:Hb.
    + right. split; [assumption |]. exists (SimState.steps st), s.
      repeat split; auto.
      rewrite Hlm, <- Hliq, Hm. reflexivity.
    + assert (Hall' : Forall (fun s => BBDMonthlyStep.isLiquidated s = false)
                        (SimState.steps (body i point st))).
      { rewrite Hs. apply Forall_app. split; [assumption |].
        constructor; [congruence | constructor]. }
      assert (Hmonth' : SimState.liquidationMonth (body i point st) = None).
      { rewrite Hlm, <- Hliq. assumption. }
      destruct (IH (i + 1) (body i point st) Hb Hmonth' Hall')
        as [(H1 & H2 & H3 & H4) | H]; [left | right; assumption].
      repeat split; auto.
      rewrite H4, Hs, length_app. cbn. lia.
Qed.

(** The loop runs over the whole path when an invariant rules liquidation
    out at every iteration below [bound]. *)
Lemma sim_loop_complete (P : PathPoint.t -> Prop) (Inv : Z -> SimState.t -> Prop)
    (bound : Z) :
  (forall i point st,
      0 <= i < bound -> P point -> Inv i st ->
      SimState.isLiquidated st = false ->
      SimState.isLiquidated (body i point st) = false
      /\ Inv (i + 1) (body i point st)) ->
  forall rest i st,
    0 <= i -> i + Z.of_nat (length rest) <= bound ->
    Forall P rest -> Inv i st -> SimState.isLiquidated st = false ->
    SimState.isLiquidated (loop i rest st) = false
    /\ length (SimState.steps (loop i rest st))
       = (length (SimState.steps st) + length rest)%nat.
Proof.
  intros Hbody rest. induction rest as [| point rest IH];
    intros i st Hi Hbound HP HInv Hnot.
  - cbn. rewrite Nat.add_0_r. auto.
  - rewrite sim_loop_cons. cbn [length] in Hbound.
    inversion HP as [| ? ? Hpoint Hrest]; subst.
    destruct (Hbody i point st) as [Hb HInv']; auto; try lia.
    rewrite Hb.
    destruct (IH (i + 1) (body i point st)) as [H1 H2]; auto; try lia.
    split; [assumption |].
    destruct (loop_body_appends config monthlyInterestRate liquidationLtv i point st)
      as (s & Hs & _).
    rewrite H2, Hs, length_app. cbn. lia.
Qed.

End LoopInvariants.

(* ================================================================== *)
(** * Price paths *)
(* ================================================================== *)

Lemma month_range_length (totalMonths : Z) :
  length (month_range totalMonths) = Z.to_nat (totalMonths + 1).
Proof. unfold month_range. rewrite length_map, length_seq. reflexivity. Qed.

Lemma month_range_nth (totalMonths : Z) (k : nat) :
  (k < Z.to_nat (totalMonths + 1))%nat ->
  nth_error (month_range totalMonths) k = Some (Z.of_nat k).
Proof.
  intros Hk. unfold month_range.
  rewrite nth_error_map, nth_error_seq.
  apply Nat.ltb_lt in Hk. rewrite Hk. reflexivity.
Qed.

Lemma generatePricePath_length (startDate : Date) (projectionYears : Z)
    (fit : PowerLawFit.t) (scenario : PriceScenario) :
  length (generatePricePath startDate projectionYears fit scenario)
  = Z.to_nat (projectionYears * 12 + 1).
Proof. unfold generatePricePath. rewrite length_map. apply month_range_length. Qed.

Lemma generatePricePath_nth (startDate : Date) (projectionYears : Z)
    (fit : PowerLawFit.t) (scenario : PriceScenario) (k : nat) :
  (k < Z.to_nat (projectionYears * 12 + 1))%nat ->
  nth_error (generatePricePath startDate projectionYears fit scenario) k
  = Some (PathPoint.mk
            (month_start startDate (Z.of_nat k))
            (getScenarioPrice (month_start startDate (Z.of_nat k)) fit scenario)
            true).
Proof.
  intros Hk. unfold generatePricePath.
  rewrite nth_error_map, month_range_nth by assumption. reflexivity.
Qed.

Lemma generateMixedPricePath_length (now startDate : Date) (projectionYears : Z)
    (fit : PowerLawFit.t) (scenario : PriceScenario)
    (historicalData : list HistoricalPricePoint.t) :
  length (generateMixedPricePath now startDate projectionYears fit scenario
            historicalData)
  = Z.to_nat (projectionYears * 12 + 1).
Proof. unfold generateMixedPricePath. rewrite length_map. apply month_range_length. Qed.

Lemma select_price_path_length (now : Date) (config : BBDSimulatorConfig.t)
    (fit : PowerLawFit.t) (startDate : Date)
    (historicalData : option (list HistoricalPricePoint.t)) :
  length (select_price_path now config fit startDate historicalData)
  = Z.to_nat (BBDSimulatorConfig.projectionYears config * 12 + 1).
Proof.
  unfold select_price_path. destruct historicalData as [[| h data] |].
  - apply generatePricePath_length.
  - apply generateMixedPricePath_length.
  - apply generatePricePath_length.
Qed.

(** The clock matters to the mixed path only through its UTC month. *)
Lemma generateMixedPricePath_clock (now1 now2 startDate : Date)
    (projectionYears : Z) (fit : PowerLawFit.t) (scenario : PriceScenario)
    (historicalData : list HistoricalPricePoint.t) :
  getUTCFullYear now1 = getUTCFullYear now2 ->
  getUTCMonth now1 = getUTCMonth now2 ->
  generateMixedPricePath now1 startDate projectionYears fit scenario historicalData
  = generateMixedPricePath now2 startDate projectionYears fit scenario historicalData.
Proof.
  intros Hy Hm. unfold generateMixedPricePath. rewrite Hy, Hm. reflexivity.
Qed.

(* ================================================================== *)
(** * Running the simulation *)
(* ================================================================== *)

Lemma initial_state_Return (config : BBDSimulatorConfig.t)
    (pricePath : list PathPoint.t) (st0 : SimState.t) :
  initial_state config pricePath = Return st0 ->
  SimState.isLiquidated st0 = false
  /\ SimState.liquidationMonth st0 = None
  /\ SimState.steps st0 = []
  /\ SimState.totalInterestPaid st0 = Fin 0
  /\ SimState.totalBorrowed st0 = SimState.loanBalance st0.
Proof.
  unfold initial_state.
  destruct (BBDSimulatorConfig.startingLtvPercent config) as [pct |];
    [destruct (BBDSimulatorConfig.borrowMonthly config); cbn;
       [| destruct pricePath as [| first rest]] |];
    intros H; try discriminate; injection H as <-; cbn; auto.
Qed.

Lemma initial_state_total (config : BBDSimulatorConfig.t)
    (pricePath : list PathPoint.t) :
  pricePath <> [] -> exists st0, initial_state config pricePath = Return st0.
Proof.
  intros Hne. unfold initial_state.
  destruct (BBDSimulatorConfig.startingLtvPercent config) as [pct |];
    [destruct (BBDSimulatorConfig.borrowMonthly config); cbn;
       [| destruct pricePath as [| first rest]; [contradiction |]] |];
    eexists; reflexivity.
Qed.

(** In borrow mode the balance starts at zero, whatever [startingLtvPercent]. *)
Lemma initial_state_borrow_mode (config : BBDSimulatorConfig.t)
    (pricePath : list PathPoint.t) :
  BBDSimulatorConfig.borrowMonthly config = true ->
  initial_state config pricePath
  = Return (SimState.mk (Fin 0) (Fin 0) (Fin 0) false None []).
Proof.
  intros Hb. unfold initial_state. rewrite Hb.
  destruct (BBDSimulatorConfig.startingLtvPercent config); reflexivity.
Qed.

Lemma summarize_Return (config : BBDSimulatorConfig.t) (st : SimState.t)
    (result : BBDSimulationResult.t) :
  summarize config st = Return result ->
  BBDSimulationResult.config result = config
  /\ BBDSimulationResult.steps result = SimState.steps st
  /\ BBDSimulationSummary.isLiquidated (BBDSimulationResult.summary result)
     = SimState.isLiquidated st
  /\ BBDSimulationSummary.liquidationMonth (BBDSimulationResult.summary result)
     = SimState.liquidationMonth st
  /\ BBDSimulationSummary.totalInterestPaid (BBDSimulationResult.summary result)
     = SimState.totalInterestPaid st
  /\ BBDSimulationSummary.totalBorrowed (BBDSimulationResult.summary result)
     = SimState.totalBorrowed st.
Proof.
  unfold summarize. destruct (SimState.steps st) as [| firstStep others] eqn:Hsteps;
    intros H; [discriminate |].
  injection H as <-. cbn. auto 10.
Qed.

(** A normal return, taken apart: the initial state, the loop, the summary. *)
Lemma runBBDSimulation_Return (now : Date) (config : BBDSimulatorConfig.t)
    (fit : PowerLawFit.t) (startDate : Date)
    (historicalData : option (list HistoricalPricePoint.t))
    (result : BBDSimulationResult.t) :
  runBBDSimulation now config fit startDate historicalData = Return result ->
  exists st0,
    initial_state config (select_price_path now config fit startDate historicalData)
    = Return st0
    /\ summarize config
         (sim_loop config
            (div (div (BBDSimulatorConfig.interestAprPercent config) (Fin 100)) (Fin 12))
            (div (BBDSimulatorConfig.liquidationLtvPercent config) (Fin 100))
            0 (select_price_path now config fit startDate historicalData) st0)
       = Return result.
Proof.
  unfold runBBDSimulation. cbv zeta.
  destruct (initial_state config _) as [st0 | e]; [| discriminate].
  intros H. exists st0. split; [reflexivity | exact H].
Qed.

(** The simulator accepts every configuration whose horizon is not
    negative: nothing in it inspects the mode fields or the sign of the
    holding. *)
Lemma runBBDSimulation_total (now : Date) (config : BBDSimulatorConfig.t)
    (fit : PowerLawFit.t) (startDate : Date)
    (historicalData : option (list HistoricalPricePoint.t)) :
  0 <= BBDSimulatorConfig.projectionYears config ->
  exists result,
    runBBDSimulation now config fit startDate historicalData = Return result.
Proof.
  intros Hyears. unfold runBBDSimulation. cbv zeta.
  set (path := select_price_path now config fit startDate historicalData).
  assert (Hne : path <> []).
  { intros E. apply (f_equal (@length _)) in E.
    subst path. rewrite select_price_path_length in E. cbn in E. lia. }
  destruct (initial_state_total config path Hne) as [st0 ->].
  set (rate := div (div _ _) _). set (liq := div _ _).
  destruct (sim_loop_extends config rate liq path 0 st0) as (new & Hnew & _ & Hnonempty).
  specialize (Hnonempty Hne).
  unfold summarize. rewrite Hnew.
  destruct (SimState.steps st0 ++ new) as [| firstStep others] eqn:E.
  - apply app_eq_nil in E. destruct E. contradiction.
  - eexists. reflexivity.
Qed.

(** With a negative horizon the price path is empty and the call throws. *)
Lemma runBBDSimulation_negative_horizon (now : Date) (config : BBDSimulatorConfig.t)
    (fit : PowerLawFit.t) (startDate : Date)
    (historicalData : option (list HistoricalPricePoint.t)) :
  BBDSimulatorConfig.projectionYears config < 0 ->
  runBBDSimulation now config fit startDate historicalData = Throw TypeError.
Proof.
  intros Hyears. unfold runBBDSimulation. cbv zeta.
  assert (Hnil : select_price_path now config fit startDate historicalData = []).
  { apply length_zero_iff_nil. rewrite select_price_path_length. lia. }
  rewrite Hnil. unfold initial_state.
  destruct (BBDSimulatorConfig.startingLtvPercent config) as [pct |];
    [destruct (BBDSimulatorConfig.borrowMonthly config) |]; reflexivity.
Qed.

Section StepFacts.

Variable config : BBDSimulatorConfig.t.
Variables monthlyInterestRate liquidationLtv : number.

Local Abbreviation body := (loop_body config monthlyInterestRate liquidationLtv).
Local Abbreviation loop := (sim_loop config monthlyInterestRate liquidationLtv).

(** The fields of the step an iteration records, given that step. *)
Lemma loop_body_step (i : Z) (point : PathPoint.t) (st : SimState.t) (s : BBDMonthlyStep.t) :
  SimState.steps (body i point st) = SimState.steps st ++ [s] ->
  BBDMonthlyStep.month s = i
  /\ BBDMonthlyStep.collateralValue s
     = mul (BBDSimulatorConfig.btcHeld config) (PathPoint.price point)
  /\ BBDMonthlyStep.loanBalance s = SimState.loanBalance (body i point st)
  /\ BBDMonthlyStep.ltv s
     = (if gtb (BBDMonthlyStep.collateralValue s) (Fin 0)
        then div (BBDMonthlyStep.loanBalance s) (BBDMonthlyStep.collateralValue s)
        else Fin 0)
  /\ BBDMonthlyStep.isLiquidated s = SimState.isLiquidated (body i point st)
  /\ BBDMonthlyStep.isProjection s = PathPoint.isProjection point.
Proof.
  intros Hs.
  destruct (loop_body_appends config monthlyInterestRate liquidationLtv i point st)
    as (s' & Hs' & Hm & _ & _ & _ & Hp & Hc & Hl & Hltv & _ & Hf).
  rewrite Hs in Hs'. apply app_inv_head in Hs'. injection Hs' as <-.
  auto 10.
Qed.

(** A zero balance is below every positive liquidation threshold. *)
Lemma zero_balance_not_liquidated (i : Z) (point : PathPoint.t) (st : SimState.t) :
  SimState.isLiquidated st = false ->
  SimState.loanBalance (body i point st) = Fin 0 ->
  geb (Fin 0) liquidationLtv = false ->
  SimState.isLiquidated (body i point st) = false.
Proof.
  intros Hnot Hloan Hliq.
  destruct (loop_body_appends config monthlyInterestRate liquidationLtv i point st)
    as (s & Hs & _).
  destruct (loop_body_step i point st s Hs) as (_ & _ & Hl & Hltv & _ & _).
  destruct (loop_body_liquidation config monthlyInterestRate liquidationLtv
              i point st s Hnot Hs) as [-> _].
  rewrite Hltv, Hl, Hloan.
  destruct (gtb (BBDMonthlyStep.collateralValue s) (Fin 0)) eqn:Hc; [| assumption].
  destruct (BBDMonthlyStep.collateralValue s) as [c | | |]; cbn in Hc; try discriminate.
  - apply Rltb_spec in Hc. cbn [div].
    rewrite (Reqb_false c 0) by lra.
    replace (0 / c)%R with 0%R by (field; lra). assumption.
  - cbn. assumption.
Qed.

(** The first two steps exist as soon as the path has two points and the
    first iteration does not liquidate. *)
Lemma sim_loop_two_steps (p0 p1 : PathPoint.t) (rest : list PathPoint.t) (st : SimState.t) :
  SimState.steps st = [] ->
  SimState.isLiquidated (body 0 p0 st) = false ->
  exists s0 s1,
    nth_error (SimState.steps (loop 0 (p0 :: p1 :: rest) st)) 0 = Some s0
    /\ nth_error (SimState.steps (loop 0 (p0 :: p1 :: rest) st)) 1 = Some s1.
Proof.
  intros Hnil Hfirst.
  destruct (loop_body_appends config monthlyInterestRate liquidationLtv 0 p0 st)
    as (s0 & Hs0 & _).
  destruct (loop_body_appends config monthlyInterestRate liquidationLtv 1 p1 (body 0 p0 st))
    as (s1 & Hs1 & _).
  rewrite Hs0, Hnil in Hs1. cbn in Hs1.
  exists s0, s1.
  rewrite sim_loop_cons, Hfirst, sim_loop_cons. change (0 + 1) with 1.
  destruct (SimState.isLiquidated (body 1 p1 (body 0 p0 st))).
  - rewrite Hs1. split; reflexivity.
  - split; apply sim_loop_keeps; rewrite Hs1; reflexivity.
Qed.

End StepFacts.

(* ================================================================== *)
(** * C1: the first months of the reference configuration *)
(* ================================================================== *)

Lemma reference_rate : div (div (Fin 10) (Fin 100)) (Fin 12) = Fin (10 / 100 / 12).
Proof.
  cbn [div]. rewrite (Reqb_false 100 0) by lra.
  cbn [div]. rewrite (Reqb_false 12 0) by lra. reflexivity.
Qed.

Lemma reference_threshold : div (Fin 80) (Fin 100) = Fin (80 / 100).
Proof. cbn. rewrite !Reqb_false by lra. reflexivity. Qed.

Lemma reference_balances (c : BBDSimulatorConfig.t) (liq : number)
    (rest : list PathPoint.t) (st0 : SimState.t) :
  BBDSimulatorConfig.borrowMonthly c = true ->
  BBDSimulatorConfig.borrowFrequency c = monthly ->
  BBDSimulatorConfig.interestMode c = capitalize ->
  BBDSimulatorConfig.monthlySpendingUsd c = Fin 5000 ->
  SimState.loanBalance st0 = Fin 0 ->
  SimState.isLiquidated st0 = false ->
  SimState.steps st0 = [] ->
  forall k s,
    nth_error (SimState.steps (sim_loop c (Fin (10 / 100 / 12)) liq 0 rest st0)) k
    = Some s ->
    (k = 0%nat -> BBDMonthlyStep.loanBalance s = Fin 0)
    /\ (k = 1%nat ->
        BBDMonthlyStep.loanBalance s = Fin (5000 + 5000 * (10 / 100 / 12)))
    /\ (k = 2%nat ->
        exists v, BBDMonthlyStep.loanBalance s = Fin v /\ (10000 < v)%R).
Proof.
  intros Hb Hf Hm Hspend Hloan Hnot Hnil k s Hk.
  pose (v1 := (5000 + 5000 * (10 / 100 / 12))%R).
  pose (Inv := fun (i : Z) (st : SimState.t) =>
                 (i = 0 -> SimState.loanBalance st = Fin 0)
                 /\ (i = 1 -> SimState.loanBalance st = Fin 0)
                 /\ (i = 2 -> SimState.loanBalance st = Fin v1)).
  pose (Q := fun (i : Z) (s : BBDMonthlyStep.t) =>
               (i = 0 -> BBDMonthlyStep.loanBalance s = Fin 0)
               /\ (i = 1 -> BBDMonthlyStep.loanBalance s = Fin v1)
               /\ (i = 2 -> exists v, BBDMonthlyStep.loanBalance s = Fin v
                                      /\ (10000 < v)%R)).
  assert (HQ : Q (Z.of_nat k) s).
  { apply (sim_loop_rule c (Fin (10 / 100 / 12)) liq Inv Q) with (rest := rest)
      (i := 0) (st := st0); auto; try lia.
    - clear k s Hk. intros i point st s Hi (I0 & I1 & I2) _ Hs.
      destruct (loop_body_step c _ _ i point st s Hs) as (_ & _ & Hl & _).
      unfold Q, Inv.
      rewrite Hl. rewrite loop_body_loanBalance, Hb, Hf, Hm, Hspend. cbv zeta.
      repeat split; intros Hi'; try lia.
      + subst i. cbn. auto.
      + subst i. cbn. rewrite I1 by reflexivity. cbn. f_equal. unfold v1. lra.
      + subst i. cbn. rewrite I2 by reflexivity. cbn. eexists.
        split; [reflexivity |]. unfold v1. lra.
      + assert (i = 0) by lia. subst i. cbn. auto.
      + assert (i = 1) by lia. subst i. cbn. rewrite I1 by reflexivity. cbn.
        f_equal. unfold v1. lra.
    - unfold Inv. repeat split; intros; try lia; assumption.
    - rewrite Hnil. reflexivity.
    - rewrite Hnil. intros k' s' H'. destruct k'; discriminate. }
  destruct HQ as (Q0 & Q1 & Q2).
  repeat split; intros ->; [apply Q0 | apply Q1 | apply Q2]; reflexivity.
Qed.

Lemma sim_loop_three_steps (c : BBDSimulatorConfig.t) (rate liq : number)
    (p0 p1 p2 : PathPoint.t) (rest : list PathPoint.t) (st : SimState.t) :
  SimState.steps st = [] ->
  SimState.isLiquidated (loop_body c rate liq 0 p0 st) = false ->
  SimState.isLiquidated (loop_body c rate liq 1 p1 (loop_body c rate liq 0 p0 st)) = false ->
  exists s2,
    nth_error (SimState.steps (sim_loop c rate liq 0 (p0 :: p1 :: p2 :: rest) st)) 2
    = Some s2.
Proof.
  intros Hnil H0 H1.
  set (st1 := loop_body c rate liq 0 p0 st) in *.
  set (st2 := loop_body c rate liq 1 p1 st1) in *.
  destruct (loop_body_appends c rate liq 0 p0 st) as (s0 & Hs0 & _).
  destruct (loop_body_appends c rate liq 1 p1 st1) as (s1 & Hs1 & _).
  destruct (loop_body_appends c rate liq 2 p2 st2) as (s2 & Hs2 & _).
  fold st1 in Hs0. fold st2 in Hs1.
  rewrite Hs1, Hs0, Hnil in Hs2. cbn in Hs2.
  exists s2.
  rewrite sim_loop_cons. fold st1. rewrite H0.
  rewrite sim_loop_cons. change (0 + 1) with 1. fold st2. rewrite H1.
  rewrite sim_loop_cons. change (1 + 1) with 2.
  destruct (SimState.isLiquidated (loop_body c rate liq 2 p2 st2)).
  - rewrite Hs2. reflexivity.
  - apply sim_loop_keeps. rewrite Hs2. reflexivity.
Qed.

(** The loop of the reference configuration over a path of at least three
    points, entered with a zero balance. *)
Lemma reference_loop (startingLtvPercent : option number) (projectionYears : Z)
    (scenario : PriceScenario) (startDateText : string)
    (spendingSteps : list SpendingStep.t)
    (p0 p1 p2 : PathPoint.t) (rest : list PathPoint.t) :
  let config := reference_config startingLtvPercent projectionYears scenario
                  startDateText spendingSteps in
  let final :=
    sim_loop config (Fin (10 / 100 / 12)) (Fin (80 / 100)) 0
      (p0 :: p1 :: p2 :: rest)
      (SimState.mk (Fin 0) (Fin 0) (Fin 0) false None []) in
  exists s0 s1,
    nth_error (SimState.steps final) 0 = Some s0
    /\ BBDMonthlyStep.loanBalance s0 = Fin 0
    /\ nth_error (SimState.steps final) 1 = Some s1
    /\ BBDMonthlyStep.loanBalance s1 = Fin (5000 + 5000 * (10 / 100 / 12))
    /\ (forall s2,
          nth_error (SimState.steps final) 2 = Some s2 ->
          exists v, BBDMonthlyStep.loanBalance s2 = Fin v /\ (10000 < v)%R)
    /\ (forall x,
          PathPoint.price p1 = Fin x -> (6400 < x)%R ->
          exists s2, nth_error (SimState.steps final) 2 = Some s2).
Proof.
  intros config final. subst final.
  set (st0 := SimState.mk (Fin 0) (Fin 0) (Fin 0) false None []).
  pose proof (reference_balances config (Fin (80 / 100)) (p0 :: p1 :: p2 :: rest) st0
                eq_refl eq_refl eq_refl eq_refl eq_refl eq_refl eq_refl) as Hbal.
  assert (Hthreshold : geb (Fin 0) (Fin (80 / 100)) = false).
  { cbn. apply Rleb_false. lra. }
  assert (H0 : SimState.isLiquidated
                 (loop_body config (Fin (10 / 100 / 12)) (Fin (80 / 100)) 0 p0 st0)
               = false).
  { apply zero_balance_not_liquidated; auto.
    rewrite loop_body_loanBalance. reflexivity. }
  destruct (sim_loop_two_steps config (Fin (10 / 100 / 12)) (Fin (80 / 100))
              p0 p1 (p2 :: rest) st0 eq_refl H0) as (s0 & s1 & Hs0 & Hs1).
  exists s0, s1.
  split; [exact Hs0 |].
  split; [apply (Hbal 0%nat s0 Hs0); reflexivity |].
  split; [exact Hs1 |].
  split; [apply (Hbal 1%nat s1 Hs1); reflexivity |].
  split.
  - intros s2 Hs2. apply (Hbal 2%nat s2 Hs2). reflexivity.
  - intros x Hx Hbig.
    apply sim_loop_three_steps; [reflexivity | exact H0 |].
    set (st1 := loop_body config (Fin (10 / 100 / 12)) (Fin (80 / 100)) 0 p0 st0) in *.
    destruct (loop_body_appends config (Fin (10 / 100 / 12)) (Fin (80 / 100)) 1 p1 st1)
      as (t & Ht & _).
    destruct (loop_body_step _ _ _ _ _ _ _ Ht) as (_ & Hc & Hl & Hltv & _ & _).
    destruct (loop_body_liquidation _ _ _ _ _ _ _ H0 Ht) as [-> _].
    assert (Hloan1 : SimState.loanBalance st1 = Fin 0).
    { unfold st1. rewrite loop_body_loanBalance. reflexivity. }
    rewrite loop_body_loanBalance, Hloan1 in Hl. cbn in Hl.
    rewrite Hx in Hc. cbn in Hc.
    rewrite Hltv, Hc, Hl. cbn.
    rewrite Rltb_true by lra. cbn. rewrite Reqb_false by lra.
    apply Rleb_false.
    assert (Hinv : (0 < / (1 * x))%R) by (apply Rinv_0_lt_compat; lra).
    assert (Hone : ((1 * x) * / (1 * x) = 1)%R) by (apply Rinv_r; lra).
    unfold Rdiv at 1. nra.
Qed.

(** A run of the reference configuration over at least one year: it
    returns, and its steps are those of the loop over a path of at least
    three points. *)
Lemma reference_run_steps (now : Date) (fit : PowerLawFit.t) (startDate : Date)
    (historicalData : option (list HistoricalPricePoint.t))
    (startingLtvPercent : option number) (projectionYears : Z)
    (scenario : PriceScenario) (startDateText : string)
    (spendingSteps : list SpendingStep.t) :
  1 <= projectionYears ->
  let config := reference_config startingLtvPercent projectionYears scenario
                  startDateText spendingSteps in
  exists result p0 p1 p2 rest,
    runBBDSimulation now config fit startDate historicalData = Return result
    /\ select_price_path now config fit startDate historicalData
       = p0 :: p1 :: p2 :: rest
    /\ BBDSimulationResult.steps result
       = SimState.steps
           (sim_loop config (Fin (10 / 100 / 12)) (Fin (80 / 100)) 0
              (p0 :: p1 :: p2 :: rest)
              (SimState.mk (Fin 0) (Fin 0) (Fin 0) false None [])).
Proof.
  intros Hyears config.
  destruct (runBBDSimulation_total now config fit startDate historicalData)
    as [result Hrun]; [cbn; lia |].
  destruct (runBBDSimulation_Return _ _ _ _ _ _ Hrun) as (st0 & Hinit & Hsum).
  rewrite initial_state_borrow_mode in Hinit by reflexivity.
  injection Hinit as <-.
  destruct (summarize_Return _ _ _ Hsum) as (_ & Hsteps & _).
  cbn [config reference_config BBDSimulatorConfig.interestAprPercent
       BBDSimulatorConfig.liquidationLtvPercent] in Hsteps.
  rewrite reference_rate, reference_threshold in Hsteps.
  fold config in Hsteps.
  assert (Hlen : (13 <= length (select_price_path now config fit startDate
                                  historicalData))%nat).
  { rewrite select_price_path_length. cbn. lia. }
  destruct (select_price_path now config fit startDate historicalData)
    as [| p0 [| p1 [| p2 rest]]]; cbn in Hlen; try lia.
  exists result, p0, p1, p2, rest. auto.
Qed.

(** C1, as the specification states it, fails at month 1: in the test
    suite's own run the balance recorded for month 1 is the 5000 borrowed
    plus the interest capitalized on it in the same iteration, not 5000. *)
Lemma month_1_balance_is_not_5000 :
  exists result s1,
    runBBDSimulation testDate baseConfig mockFit testDate None = Return result
    /\ nth_error (BBDSimulationResult.steps result) 1 = Some s1
    /\ BBDMonthlyStep.loanBalance s1 = Fin (5000 + 5000 * (10 / 100 / 12))
    /\ strict_eq (BBDMonthlyStep.loanBalance s1) (Fin 5000) = false.
Proof.
  destruct (reference_run_steps testDate mockFit testDate None None 5 fair "2025-01" [])
    as (result & p0 & p1 & p2 & rest & Hrun & _ & Hsteps); [lia |].
  destruct (reference_loop None 5 fair "2025-01" [] p0 p1 p2 rest)
    as (s0 & s1 & _ & _ & Hs1 & Hl1 & _).
  exists result, s1. rewrite Hsteps.
  repeat split; try assumption.
  rewrite Hl1. cbn. apply Reqb_false. lra.
Qed.

(** C1 (amended): for the configuration {btcHeld = 1, monthlySpendingUsd =
    5000, interestAprPercent = 10, liquidationLtvPercent = 80, borrow
    monthly, capitalize} and a horizon of at least one year, the run returns
    steps whose month-0 loanBalance is 0 and whose month-1 loanBalance is
    5000 + 5000·(10/100/12); the month-2 loanBalance, whenever month 2 is
    reached, is strictly greater than 10000, and month 2 is reached as soon
    as the month-1 price is above 6400. *)
Theorem reference_config_first_months (now : Date) (fit : PowerLawFit.t)
    (startDate : Date) (historicalData : option (list HistoricalPricePoint.t))
    (startingLtvPercent : option number) (projectionYears : Z)
    (scenario : PriceScenario) (startDateText : string)
    (spendingSteps : list SpendingStep.t) :
  1 <= projectionYears ->
  let config := reference_config startingLtvPercent projectionYears scenario
                  startDateText spendingSteps in
  exists result s0 s1,
    runBBDSimulation now config fit startDate historicalData = Return result
    /\ nth_error (BBDSimulationResult.steps result) 0 = Some s0
    /\ BBDMonthlyStep.loanBalance s0 = Fin 0
    /\ nth_error (BBDSimulationResult.steps result) 1 = Some s1
    /\ BBDMonthlyStep.loanBalance s1 = Fin (5000 + 5000 * (10 / 100 / 12))
    /\ (forall s2,
          nth_error (BBDSimulationResult.steps result) 2 = Some s2 ->
          exists v, BBDMonthlyStep.loanBalance s2 = Fin v /\ (10000 < v)%R)
    /\ (forall p1 x,
          nth_error (select_price_path now config fit startDate historicalData) 1
          = Some p1 ->
          PathPoint.price p1 = Fin x -> (6400 < x)%R ->
          exists s2, nth_error (BBDSimulationResult.steps result) 2 = Some s2).
Proof.
  intros Hyears config.
  destruct (reference_run_steps now fit startDate historicalData startingLtvPercent
              projectionYears scenario startDateText spendingSteps Hyears)
    as (result & p0 & p1 & p2 & rest & Hrun & Hpath & Hsteps).
  destruct (reference_loop startingLtvPercent projectionYears scenario
              startDateText spendingSteps p0 p1 p2 rest)
    as (s0 & s1 & Hs0 & Hl0 & Hs1 & Hl1 & Hmonth2 & Hreached).
  fold config in Hrun, Hpath, Hsteps, Hs0, Hs1, Hmonth2, Hreached.
  rewrite <- Hsteps in Hs0, Hs1, Hmonth2, Hreached.
  exists result, s0, s1.
  repeat (split; [assumption |]).
  intros q x Hq Hx Hbig.
  rewrite Hpath in Hq. cbn in Hq. injection Hq as <-.
  exact (Hreached x Hx Hbig).
Qed.

Lemma reference_config_first_months_witness :
  exists result s0 s1,
    runBBDSimulation testDate baseConfig mockFit testDate None = Return result
    /\ nth_error (BBDSimulationResult.steps result) 0 = Some s0
    /\ BBDMonthlyStep.loanBalance s0 = Fin 0
    /\ nth_error (BBDSimulationResult.steps result) 1 = Some s1
    /\ BBDMonthlyStep.loanBalance s1 = Fin (5000 + 5000 * (10 / 100 / 12))
    /\ (forall s2,
          nth_error (BBDSimulationResult.steps result) 2 = Some s2 ->
          exists v, BBDMonthlyStep.loanBalance s2 = Fin v /\ (10000 < v)%R)
    /\ (forall p1 x,
          nth_error (select_price_path testDate baseConfig mockFit testDate None) 1
          = Some p1 ->
          PathPoint.price p1 = Fin x -> (6400 < x)%R ->
          exists s2, nth_error (BBDSimulationResult.steps result) 2 = Some s2).
Proof.
  apply (reference_config_first_months testDate mockFit testDate None None 5
           fair "2025-01" []).
  lia.
Defined.

(* ================================================================== *)
(** * C2: what is borrowed each month *)
(* ================================================================== *)

(** The amount the loop records as borrowed, read off the loop body: the
    base spending [monthlySpendingUsd], by cadence.  It is the only
    spending figure the simulator reads. *)
Lemma borrowed_each_month (now : Date) (config : BBDSimulatorConfig.t)
    (fit : PowerLawFit.t) (startDate : Date)
    (historicalData : option (list HistoricalPricePoint.t))
    (result : BBDSimulationResult.t) :
  runBBDSimulation now config fit startDate historicalData = Return result ->
  forall (k : nat) (s : BBDMonthlyStep.t),
    nth_error (BBDSimulationResult.steps result) k = Some s ->
    BBDMonthlyStep.borrowedThisMonth s
    = if BBDSimulatorConfig.borrowMonthly config && (0 <? Z.of_nat k) then
        match BBDSimulatorConfig.borrowFrequency config with
        | monthly => BBDSimulatorConfig.monthlySpendingUsd config
        | yearly =>
            if Z.of_nat k mod 12 =? 0
            then mul (BBDSimulatorConfig.monthlySpendingUsd config) (Fin 12)
            else Fin 0
        end
      else Fin 0.
Proof.
  intros Hrun k s Hk.
  destruct (runBBDSimulation_Return _ _ _ _ _ _ Hrun) as (st0 & Hinit & Hsum).
  destruct (initial_state_Return _ _ _ Hinit) as (Hnot & _ & Hnil & _).
  destruct (summarize_Return _ _ _ Hsum) as (_ & Hsteps & _).
  rewrite Hsteps in Hk. revert k s Hk.
  apply (sim_loop_rule config _ _ (fun _ _ => True)
           (fun i s =>
              BBDMonthlyStep.borrowedThisMonth s
              = if BBDSimulatorConfig.borrowMonthly config && (0 <? i) then
                  match BBDSimulatorConfig.borrowFrequency config with
                  | monthly => BBDSimulatorConfig.monthlySpendingUsd config
                  | yearly =>
                      if i mod 12 =? 0
                      then mul (BBDSimulatorConfig.monthlySpendingUsd config) (Fin 12)
                      else Fin 0
                  end
                else Fin 0)); auto; try lia.
  - intros i point st s _ _ _ Hs. split; [| exact I].
    exact (loop_body_borrowed _ _ _ _ _ _ _ Hs).
  - rewrite Hnil. reflexivity.
  - rewrite Hnil. intros k s H. destruct k; discriminate.
Qed.

(** The flat-price run of [step_up_config] is never liquidated: the
    balance stays below 10000 per elapsed month, far under 80 % of a million. *)
Lemma flat_million_price (date : Date) :
  getScenarioPrice date flat_million_fit fair = Fin (1000000 * 1).
Proof.
  unfold getScenarioPrice, powerLawPrice, flat_million_fit, Math_pow.
  cbn [PowerLawFit.A PowerLawFit.B]. rewrite Reqb_true by reflexivity.
  reflexivity.
Qed.

Lemma step_up_run_complete (st0 : SimState.t) :
  st0 = SimState.mk (Fin 0) (Fin 0) (Fin 0) false None [] ->
  length (SimState.steps
            (sim_loop step_up_config (Fin (10 / 100 / 12)) (Fin (80 / 100)) 0
               (generatePricePath testDate 2 flat_million_fit fair) st0))
  = 25%nat.
Proof.
  intros ->.
  pose (P := fun p : PathPoint.t => PathPoint.price p = Fin (1000000 * 1)).
  pose (Inv := fun (i : Z) (st : SimState.t) =>
                 exists v, SimState.loanBalance st = Fin v
                           /\ (0 <= v <= 10000 * IZR i)%R).
  destruct (sim_loop_complete step_up_config (Fin (10 / 100 / 12)) (Fin (80 / 100))
              P Inv 59) with
    (rest := generatePricePath testDate 2 flat_million_fit fair) (i := 0)
    (st := SimState.mk (Fin 0) (Fin 0) (Fin 0) false None []) as [_ Hlen].
  - intros i point st Hi HP (v & Hv & Hrange) Hnot.
    assert (Hi' : (0 <= IZR i <= 58)%R).
    { split; apply IZR_le; lia. }
    assert (Hloan : exists w,
               SimState.loanBalance
                 (loop_body step_up_config (Fin (10 / 100 / 12)) (Fin (80 / 100))
                    i point st) = Fin w
               /\ (0 <= w <= 10000 * IZR (i + 1))%R).
    { rewrite loop_body_loanBalance, Hv. cbn. rewrite plus_IZR.
      destruct (0 <? i) eqn:Hpos.
      - cbn. eexists. split; [reflexivity |]. lra.
      - cbn. exists v. split; [reflexivity |].
        apply Z.ltb_ge in Hpos. assert (i = 0) by lia. subst i. lra. }
    destruct Hloan as (w & Hw & Hwrange). split; [| exists w; auto].
    destruct (loop_body_appends step_up_config (Fin (10 / 100 / 12)) (Fin (80 / 100))
                i point st) as (s & Hs & _).
    destruct (loop_body_step _ _ _ _ _ _ _ Hs) as (_ & Hc & Hl & Hltv & _ & _).
    destruct (loop_body_liquidation _ _ _ _ _ _ _ Hnot Hs) as [-> _].
    rewrite Hw in Hl. unfold P in HP. rewrite HP in Hc. cbn in Hc.
    rewrite Hltv, Hc, Hl. cbn.
    rewrite Rltb_true by lra. cbn. rewrite Reqb_false by lra.
    apply Rleb_false. rewrite plus_IZR in Hwrange.
    apply Rle_lt_trans with (r2 := (600000 / (1 * (1000000 * 1)))%R); [| lra].
    unfold Rdiv. apply Rmult_le_compat_r; [| lra].
    apply Rlt_le. apply Rinv_0_lt_compat. lra.
  - lia.
  - rewrite generatePricePath_length. cbn. lia.
  - unfold generatePricePath. apply Forall_map. apply Forall_forall.
    intros month _. unfold P. cbn. apply flat_million_price.
  - exists 0%R. split; [reflexivity |]. cbn. lra.
  - reflexivity.
  - rewrite Hlen, generatePricePath_length. reflexivity.
Qed.

(** Every recorded step carries its own index as [month], the index
    divided by 12 as [year], and a flag that says whether its LTV reached
    the threshold. *)
Lemma steps_indexed (now : Date) (config : BBDSimulatorConfig.t)
    (fit : PowerLawFit.t) (startDate : Date)
    (historicalData : option (list HistoricalPricePoint.t))
    (result : BBDSimulationResult.t) :
  runBBDSimulation now config fit startDate historicalData = Return result ->
  forall (k : nat) (s : BBDMonthlyStep.t),
    nth_error (BBDSimulationResult.steps result) k = Some s ->
    BBDMonthlyStep.month s = Z.of_nat k
    /\ BBDMonthlyStep.year s = Z.of_nat k / 12
    /\ BBDMonthlyStep.isLiquidated s
       = geb (BBDMonthlyStep.ltv s)
             (div (BBDSimulatorConfig.liquidationLtvPercent config) (Fin 100)).
Proof.
  intros Hrun k s Hk.
  destruct (runBBDSimulation_Return _ _ _ _ _ _ Hrun) as (st0 & Hinit & Hsum).
  destruct (initial_state_Return _ _ _ Hinit) as (Hnot & _ & Hnil & _).
  destruct (summarize_Return _ _ _ Hsum) as (_ & Hsteps & _).
  rewrite Hsteps in Hk. revert k s Hk.
  apply (sim_loop_rule config _ _ (fun _ _ => True)
           (fun i s =>
              BBDMonthlyStep.month s = i
              /\ BBDMonthlyStep.year s = i / 12
              /\ BBDMonthlyStep.isLiquidated s
                 = geb (BBDMonthlyStep.ltv s)
                       (div (BBDSimulatorConfig.liquidationLtvPercent config) (Fin 100))));
    auto; try lia.
  - intros i point st s _ _ Hnot' Hs. split; [| exact I].
    destruct (loop_body_appends config
                (div (div (BBDSimulatorConfig.interestAprPercent config) (Fin 100)) (Fin 12))
                (div (BBDSimulatorConfig.liquidationLtvPercent config) (Fin 100))
                i point st)
      as (s' & Hs' & Hm & Hy & _ & _ & _ & _ & _ & _ & _ & Hf).
    assert (s' = s) as ->.
    { rewrite Hs in Hs'. apply app_inv_head in Hs'. congruence. }
    destruct (loop_body_liquidation _ _ _ _ _ _ _ Hnot' Hs) as [Hliq _].
    repeat split; congruence.
  - rewrite Hnil. reflexivity.
  - rewrite Hnil. intros k s H. destruct k; discriminate.
Qed.

Lemma step_up_run_exists :
  exists result s,
    runBBDSimulation testDate step_up_config flat_million_fit testDate None
    = Return result
    /\ nth_error (BBDSimulationResult.steps result) 24 = Some s.
Proof.
  destruct (runBBDSimulation_total testDate step_up_config flat_million_fit testDate None)
    as [result Hrun]; [cbn; lia |].
  destruct (runBBDSimulation_Return _ _ _ _ _ _ Hrun) as (st0 & Hinit & Hsum).
  rewrite initial_state_borrow_mode in Hinit by reflexivity.
  destruct (summarize_Return _ _ _ Hsum) as (_ & Hsteps & _).
  cbn [step_up_config BBDSimulatorConfig.interestAprPercent
       BBDSimulatorConfig.liquidationLtvPercent] in Hsteps.
  rewrite reference_rate, reference_threshold in Hsteps.
  assert (Hlen : length (BBDSimulationResult.steps result) = 25%nat).
  { rewrite Hsteps. apply step_up_run_complete. congruence. }
  destruct (nth_error (BBDSimulationResult.steps result) 24) as [s |] eqn:Hs.
  - exists result, s. auto.
  - apply nth_error_None in Hs. lia.
Qed.


(** What the simulator borrows in borrow-enabled mode, for every month
    i > 0: the base monthly spending [monthlySpendingUsd] in monthly
    cadence; in yearly cadence 12 times the base monthly spending when i is
    a multiple of 12 and 0 otherwise. *)
Lemma borrowed_amount_is_base_spending (now : Date)
    (config : BBDSimulatorConfig.t) (fit : PowerLawFit.t) (startDate : Date)
    (historicalData : option (list HistoricalPricePoint.t))
    (result : BBDSimulationResult.t) :
  runBBDSimulation now config fit startDate historicalData = Return result ->
  BBDSimulatorConfig.borrowMonthly config = true ->
  forall (k : nat) (s : BBDMonthlyStep.t),
    nth_error (BBDSimulationResult.steps result) k = Some s ->
    (0 < k)%nat ->
    BBDMonthlyStep.borrowedThisMonth s
    = match BBDSimulatorConfig.borrowFrequency config with
      | monthly => BBDSimulatorConfig.monthlySpendingUsd config
      | yearly =>
          if Z.of_nat k mod 12 =? 0
          then mul (BBDSimulatorConfig.monthlySpendingUsd config) (Fin 12)
          else Fin 0
      end.
Proof.
  intros Hrun Hborrow k s Hk Hpos.
  rewrite (borrowed_each_month _ _ _ _ _ _ Hrun k s Hk), Hborrow.
  replace (0 <? Z.of_nat k) with true by (symmetry; apply Z.ltb_lt; lia).
  reflexivity.
Qed.

Lemma borrowed_amount_is_base_spending_witness :
  exists result s,
    runBBDSimulation testDate step_up_config flat_million_fit testDate None
    = Return result
    /\ nth_error (BBDSimulationResult.steps result) 24 = Some s
    /\ BBDMonthlyStep.borrowedThisMonth s = Fin 5000.
Proof.
  destruct step_up_run_exists as (result & s & Hrun & Hs).
  exists result, s. split; [exact Hrun |]. split; [exact Hs |].
  apply (borrowed_amount_is_base_spending testDate step_up_config flat_million_fit
           testDate None result Hrun eq_refl 24%nat s Hs).
  lia.
Defined.

(* ================================================================== *)
(** * C4: the step sequence ends at the first liquidated step *)
(* ================================================================== *)

(** C4: in every simulation result each step sits at its month index, a
    step is flagged liquidated exactly when its LTV is >= the liquidation
    threshold, and a flagged step is the last step of the sequence.  When
    the run was liquidated the sequence is a run of unflagged steps followed
    by the single flagged one, whose month index is [liquidationMonth]; when
    it was not, no step is flagged, [liquidationMonth] is null and every
    month of the horizon has its step. *)
Theorem steps_end_at_first_liquidation (now : Date)
    (config : BBDSimulatorConfig.t) (fit : PowerLawFit.t) (startDate : Date)
    (historicalData : option (list HistoricalPricePoint.t))
    (result : BBDSimulationResult.t) :
  runBBDSimulation now config fit startDate historicalData = Return result ->
  let steps := BBDSimulationResult.steps result in
  let summary := BBDSimulationResult.summary result in
  let liquidationLtv :=
    div (BBDSimulatorConfig.liquidationLtvPercent config) (Fin 100) in
  (forall (k : nat) (s : BBDMonthlyStep.t),
      nth_error steps k = Some s ->
      BBDMonthlyStep.month s = Z.of_nat k
      /\ BBDMonthlyStep.isLiquidated s = geb (BBDMonthlyStep.ltv s) liquidationLtv
      /\ (BBDMonthlyStep.isLiquidated s = true -> S k = length steps))
  /\ (BBDSimulationSummary.isLiquidated summary = true ->
      exists before final,
        steps = before ++ [final]
        /\ Forall (fun s => BBDMonthlyStep.isLiquidated s = false) before
        /\ BBDMonthlyStep.isLiquidated final = true
        /\ BBDMonthlyStep.month final = Z.of_nat (length before)
        /\ BBDSimulationSummary.liquidationMonth summary
           = Some (BBDMonthlyStep.month final))
  /\ (BBDSimulationSummary.isLiquidated summary = false ->
      Forall (fun s => BBDMonthlyStep.isLiquidated s = false) steps
      /\ BBDSimulationSummary.liquidationMonth summary = None
      /\ length steps
         = Z.to_nat (BBDSimulatorConfig.projectionYears config * 12 + 1)).
Proof.
  intros Hrun steps summary liquidationLtv. subst steps summary liquidationLtv.
  pose proof (steps_indexed _ _ _ _ _ _ Hrun) as Hindexed.
  destruct (runBBDSimulation_Return _ _ _ _ _ _ Hrun) as (st0 & Hinit & Hsum).
  destruct (initial_state_Return _ _ _ Hinit) as (Hnot & Hmonth & Hnil & _).
  destruct (summarize_Return _ _ _ Hsum) as (_ & Hsteps & Hflag & Hlm & _).
  destruct (sim_loop_end config
              (div (div (BBDSimulatorConfig.interestAprPercent config) (Fin 100)) (Fin 12))
              (div (BBDSimulatorConfig.liquidationLtvPercent config) (Fin 100))
              (select_price_path now config fit startDate historicalData)
              0 st0 Hnot Hmonth)
    as [(E1 & E2 & E3 & E4) | (E1 & before & final & E2 & E3 & E4 & E5)].
  { rewrite Hnil. constructor. }
  - (* the path was exhausted *)
    rewrite <- Hsteps in E3, E4. rewrite <- Hflag in E1. rewrite <- Hlm in E2.
    split; [| split].
    + intros k s Hk. destruct (Hindexed k s Hk) as (Hm & _ & Hf).
      repeat split; try assumption.
      intros Htrue. apply nth_error_In in Hk.
      rewrite Forall_forall in E3. rewrite (E3 s Hk) in Htrue. discriminate.
    + intros Htrue. congruence.
    + intros _. repeat split; try assumption.
      rewrite E4, Hnil. rewrite select_price_path_length. reflexivity.
  - (* the loop stopped at a flagged step *)
    rewrite <- Hsteps in E2. rewrite <- Hflag in E1. rewrite <- Hlm in E5.
    assert (Hfinal : nth_error (BBDSimulationResult.steps result) (length before)
                     = Some final).
    { rewrite E2, nth_error_app2, Nat.sub_diag by lia. reflexivity. }
    split; [| split].
    + intros k s Hk. destruct (Hindexed k s Hk) as (Hm & _ & Hf).
      repeat split; try assumption.
      intros Htrue. rewrite E2, length_app. cbn.
      destruct (Nat.lt_ge_cases k (length before)) as [Hlt | Hge].
      * rewrite E2, nth_error_app1 in Hk by assumption.
        apply nth_error_In in Hk. rewrite Forall_forall in E3.
        rewrite (E3 s Hk) in Htrue. discriminate.
      * assert (Hk' : (k < length (BBDSimulationResult.steps result))%nat).
        { apply nth_error_Some. congruence. }
        rewrite E2, length_app in Hk'. cbn in Hk'. lia.
    + intros _. exists before, final. repeat split; try assumption.
      apply (Hindexed _ _ Hfinal).
    + intros Hfalse. congruence.
Qed.

(** A run that is liquidated: a lump sum taken at 90 % LTV against an 80 %
    threshold is liquidated in month 0, and month 0 is its only step. *)
Lemma lump_sum_over_threshold_liquidated :
  exists result s0,
    runBBDSimulation testDate (lump_sum_config (Fin 90)) flat_million_fit testDate None
    = Return result
    /\ BBDSimulationResult.steps result = [s0]
    /\ BBDMonthlyStep.isLiquidated s0 = true
    /\ BBDSimulationSummary.isLiquidated (BBDSimulationResult.summary result) = true.
Proof.
  destruct (runBBDSimulation_total testDate (lump_sum_config (Fin 90))
              flat_million_fit testDate None) as [result Hrun]; [cbn; lia |].
  destruct (runBBDSimulation_Return _ _ _ _ _ _ Hrun) as (st0 & Hinit & Hsum).
  destruct (summarize_Return _ _ _ Hsum) as (_ & Hsteps & Hflag & _).
  cbn [lump_sum_config BBDSimulatorConfig.interestAprPercent
       BBDSimulatorConfig.liquidationLtvPercent] in Hsteps, Hflag.
  rewrite reference_rate, reference_threshold in Hsteps, Hflag.
  cbn [select_price_path lump_sum_config BBDSimulatorConfig.projectionYears
       BBDSimulatorConfig.scenario] in Hinit, Hsteps, Hflag.
  pose proof (generatePricePath_nth testDate 5 flat_million_fit fair 0) as Hhead.
  rewrite flat_million_price in Hhead.
  destruct (generatePricePath testDate 5 flat_million_fit fair) as [| p0 rest];
    [cbn in Hhead; discriminate (Hhead ltac:(lia)) |].
  cbn in Hhead. specialize (Hhead ltac:(lia)). injection Hhead as ->.
  cbn in Hinit. rewrite (Reqb_false 100 0) in Hinit by lra. injection Hinit as <-.
  fold (lump_sum_config (Fin 90)) in *.
  set (st0 := SimState.mk _ _ _ _ _ _) in *.
  set (p0 := PathPoint.mk _ _ _) in *.
  destruct (loop_body_appends (lump_sum_config (Fin 90)) (Fin (10 / 100 / 12))
              (Fin (80 / 100)) 0 p0 st0) as (s0 & Hs0 & _).
  destruct (loop_body_step _ _ _ _ _ _ _ Hs0) as (_ & Hc & Hl & Hltv & Hf & _).
  destruct (loop_body_liquidation (lump_sum_config (Fin 90)) (Fin (10 / 100 / 12))
              (Fin (80 / 100)) 0 p0 st0 s0 eq_refl Hs0) as [Hliq _].
  rewrite loop_body_loanBalance in Hl. cbn in Hl, Hc.
  assert (Htrue : SimState.isLiquidated
                    (loop_body (lump_sum_config (Fin 90)) (Fin (10 / 100 / 12))
                       (Fin (80 / 100)) 0 p0 st0) = true).
  { rewrite Hliq, Hltv, Hc, Hl. cbn.
    rewrite Rltb_true by lra. cbn. rewrite Reqb_false by lra.
    apply Rleb_true.
    replace (1 * (1000000 * 1) * (90 / 100) / (1 * (1000000 * 1)))%R
      with (90 / 100)%R by field.
    lra. }
  rewrite sim_loop_cons, Htrue in Hsteps, Hflag.
  exists result, s0. rewrite Hsteps, Hflag, Hs0, Hf. auto.
Qed.

Lemma steps_end_at_first_liquidation_witness :
  exists result,
    runBBDSimulation testDate (lump_sum_config (Fin 90)) flat_million_fit testDate None
    = Return result
    /\ (forall (k : nat) (s : BBDMonthlyStep.t),
           nth_error (BBDSimulationResult.steps result) k = Some s ->
           BBDMonthlyStep.month s = Z.of_nat k
           /\ BBDMonthlyStep.isLiquidated s
              = geb (BBDMonthlyStep.ltv s) (div (Fin 80) (Fin 100))
           /\ (BBDMonthlyStep.isLiquidated s = true ->
               S k = length (BBDSimulationResult.steps result)))
    /\ exists before final,
        BBDSimulationResult.steps result = before ++ [final]
        /\ Forall (fun s => BBDMonthlyStep.isLiquidated s = false) before
        /\ BBDMonthlyStep.isLiquidated final = true
        /\ BBDMonthlyStep.month final = Z.of_nat (length before)
        /\ BBDSimulationSummary.liquidationMonth (BBDSimulationResult.summary result)
           = Some (BBDMonthlyStep.month final).
Proof.
  destruct lump_sum_over_threshold_liquidated as (result & s0 & Hrun & _ & _ & Hflag).
  exists result. split; [exact Hrun |].
  destruct (steps_end_at_first_liquidation testDate (lump_sum_config (Fin 90))
              flat_million_fit testDate None result Hrun) as (Hall & Hliq & _).
  split; [exact Hall | exact (Hliq Hflag)].
Defined.

(* ================================================================== *)
(** * C10: the lump-sum balance under monthly interest payments *)
(* ================================================================== *)

Lemma add_0_r (x : number) : add x (Fin 0) = x.
Proof. destruct x; cbn; try reflexivity. f_equal. lra. Qed.

Section LumpSum.

Variable config : BBDSimulatorConfig.t.
Variables monthlyInterestRate liquidationLtv : number.

Local Abbreviation body := (loop_body config monthlyInterestRate liquidationLtv).
Local Abbreviation loop := (sim_loop config monthlyInterestRate liquidationLtv).

(** [totalInterestPaid] grows by exactly what the step records as paid. *)
Lemma loop_body_total_interest (i : Z) (point : PathPoint.t) (st : SimState.t)
    (s : BBDMonthlyStep.t) :
  SimState.steps (body i point st) = SimState.steps st ++ [s] ->
  SimState.totalInterestPaid (body i point st)
  = add (SimState.totalInterestPaid st) (BBDMonthlyStep.interestPaidThisMonth s).
Proof.
  unfold loop_body. split_conditionals; cbn; intros Happ;
    apply app_inv_head in Happ; injection Happ as <-; cbn;
    rewrite ?add_0_r; reflexivity.
Qed.

(** One iteration without recurring borrowing and with interest paid out. *)
Lemma loop_body_lump_sum (i : Z) (point : PathPoint.t) (st : SimState.t)
    (s : BBDMonthlyStep.t) :
  BBDSimulatorConfig.borrowMonthly config = false ->
  BBDSimulatorConfig.interestMode config = pay_monthly ->
  SimState.steps (body i point st) = SimState.steps st ++ [s] ->
  SimState.loanBalance (body i point st) = SimState.loanBalance st
  /\ SimState.totalBorrowed (body i point st) = SimState.totalBorrowed st
  /\ BBDMonthlyStep.loanBalance s = SimState.loanBalance st
  /\ BBDMonthlyStep.borrowedThisMonth s = Fin 0
  /\ BBDMonthlyStep.interestPaidThisMonth s
     = (if 0 <? i then mul (SimState.loanBalance st) monthlyInterestRate
        else Fin 0).
Proof.
  intros Hb Hm. unfold loop_body. rewrite Hb, Hm. cbn [andb].
  split_conditionals; cbn; intros Happ;
    apply app_inv_head in Happ; injection Happ as <-; cbn; auto.
Qed.

(** A property of the state that every iteration keeps holds at the end. *)
Lemma sim_loop_state_rule (J : SimState.t -> Prop) :
  (forall i point st, J st -> J (body i point st)) ->
  forall rest i st, J st -> J (loop i rest st).
Proof.
  intros Hbody rest. induction rest as [| point rest IH]; intros i st HJ.
  - exact HJ.
  - rewrite sim_loop_cons.
    destruct (SimState.isLiquidated (body i point st)); auto.
Qed.

Lemma sim_loop_first_step (p0 : PathPoint.t) (rest : list PathPoint.t)
    (st : SimState.t) (s : BBDMonthlyStep.t) :
  SimState.steps st = [] ->
  SimState.steps (body 0 p0 st) = SimState.steps st ++ [s] ->
  nth_error (SimState.steps (loop 0 (p0 :: rest) st)) 0 = Some s.
Proof.
  intros Hnil Hs. rewrite Hnil in Hs. cbn in Hs.
  rewrite sim_loop_cons.
  destruct (SimState.isLiquidated (body 0 p0 st)).
  - rewrite Hs. reflexivity.
  - apply sim_loop_keeps. rewrite Hs. reflexivity.
Qed.

End LumpSum.

(** The interest total of the summary is the sum of the monthly payments. *)
Lemma total_interest_is_sum (now : Date) (config : BBDSimulatorConfig.t)
    (fit : PowerLawFit.t) (startDate : Date)
    (historicalData : option (list HistoricalPricePoint.t))
    (result : BBDSimulationResult.t) :
  runBBDSimulation now config fit startDate historicalData = Return result ->
  BBDSimulationSummary.totalInterestPaid (BBDSimulationResult.summary result)
  = sum (map BBDMonthlyStep.interestPaidThisMonth (BBDSimulationResult.steps result)).
Proof.
  intros Hrun.
  destruct (runBBDSimulation_Return _ _ _ _ _ _ Hrun) as (st0 & Hinit & Hsum).
  destruct (initial_state_Return _ _ _ Hinit) as (_ & _ & Hnil & Hti & _).
  destruct (summarize_Return _ _ _ Hsum) as (_ & -> & _ & _ & -> & _).
  apply (sim_loop_state_rule config _ _
           (fun st => SimState.totalInterestPaid st
                      = sum (map BBDMonthlyStep.interestPaidThisMonth (SimState.steps st)))).
  - intros i point st HJ.
    destruct (loop_body_appends config
                (div (div (BBDSimulatorConfig.interestAprPercent config) (Fin 100)) (Fin 12))
                (div (BBDSimulatorConfig.liquidationLtvPercent config) (Fin 100))
                i point st) as (s & Hs & _).
    rewrite (loop_body_total_interest _ _ _ _ _ _ _ Hs), Hs, HJ.
    unfold sum. rewrite map_app, fold_left_app. reflexivity.
  - rewrite Hnil, Hti. reflexivity.
Qed.

(** C10: in starting-LTV mode with interest paid monthly (borrowMonthly =
    false, startingLtvPercent non-null, interestMode = pay_monthly) the
    loanBalance of every step equals the initial loan, the month-0
    collateral value times startingLtvPercent/100.  Nothing is borrowed in any
    month, [totalBorrowed] stays at the initial loan, and only the interest
    moves: each month after the first pays the initial loan times the
    monthly rate, and [totalInterestPaid] is the sum of those payments. *)
Theorem lump_sum_balance_is_constant (now : Date)
    (config : BBDSimulatorConfig.t) (fit : PowerLawFit.t) (startDate : Date)
    (historicalData : option (list HistoricalPricePoint.t))
    (result : BBDSimulationResult.t) (startingLtvPercent : number) :
  runBBDSimulation now config fit startDate historicalData = Return result ->
  BBDSimulatorConfig.borrowMonthly config = false ->
  BBDSimulatorConfig.startingLtvPercent config = Some startingLtvPercent ->
  BBDSimulatorConfig.interestMode config = pay_monthly ->
  exists s0,
    nth_error (BBDSimulationResult.steps result) 0 = Some s0
    /\ let initialLoan :=
         mul (BBDMonthlyStep.collateralValue s0) (div startingLtvPercent (Fin 100)) in
       let monthlyInterestRate :=
         div (div (BBDSimulatorConfig.interestAprPercent config) (Fin 100)) (Fin 12) in
       (forall (k : nat) (s : BBDMonthlyStep.t),
           nth_error (BBDSimulationResult.steps result) k = Some s ->
           BBDMonthlyStep.loanBalance s = initialLoan
           /\ BBDMonthlyStep.borrowedThisMonth s = Fin 0
           /\ BBDMonthlyStep.interestPaidThisMonth s
              = (if 0 <? Z.of_nat k then mul initialLoan monthlyInterestRate
                 else Fin 0))
       /\ BBDSimulationSummary.totalBorrowed (BBDSimulationResult.summary result)
          = initialLoan
       /\ BBDSimulationSummary.totalInterestPaid (BBDSimulationResult.summary result)
          = sum (map BBDMonthlyStep.interestPaidThisMonth
                   (BBDSimulationResult.steps result)).
Proof.
  intros Hrun Hb Hpct Hm.
  pose proof (total_interest_is_sum _ _ _ _ _ _ Hrun) as Htotal.
  destruct (runBBDSimulation_Return _ _ _ _ _ _ Hrun) as (st0 & Hinit & Hsum).
  destruct (initial_state_Return _ _ _ Hinit) as (Hnot & _ & Hnil & _ & Htb).
  destruct (summarize_Return _ _ _ Hsum) as (_ & Hsteps & _ & _ & _ & Hsumtb).
  set (rate := div (div (BBDSimulatorConfig.interestAprPercent config) (Fin 100)) (Fin 12)) in *.
  set (liq := div (BBDSimulatorConfig.liquidationLtvPercent config) (Fin 100)) in *.
  unfold initial_state in Hinit. rewrite Hpct, Hb in Hinit. cbn [negb] in Hinit.
  destruct (select_price_path now config fit startDate historicalData)
    as [| p0 rest] eqn:Hpath; [discriminate |].
  destruct (loop_body_appends config rate liq 0 p0 st0) as (s0 & Hs0 & _).
  destruct (loop_body_step _ _ _ _ _ _ _ Hs0) as (_ & Hc & _).
  assert (Hloan0 : SimState.loanBalance st0
                   = mul (BBDMonthlyStep.collateralValue s0)
                         (div startingLtvPercent (Fin 100))).
  { rewrite Hc. injection Hinit as <-. reflexivity. }
  exists s0. split.
  { rewrite Hsteps. apply sim_loop_first_step; assumption. }
  cbv zeta. fold rate.
  set (initialLoan := mul (BBDMonthlyStep.collateralValue s0)
                          (div startingLtvPercent (Fin 100))) in *.
  split; [| split].
  - rewrite Hsteps.
    apply (sim_loop_rule config rate liq
             (fun _ st => SimState.loanBalance st = initialLoan)
             (fun i s =>
                BBDMonthlyStep.loanBalance s = initialLoan
                /\ BBDMonthlyStep.borrowedThisMonth s = Fin 0
                /\ BBDMonthlyStep.interestPaidThisMonth s
                   = (if 0 <? i then mul initialLoan rate else Fin 0)));
      auto; try lia.
    + intros i point st s _ HInv _ Hs.
      destruct (loop_body_lump_sum config rate liq i point st s Hb Hm Hs)
        as (H1 & _ & H3 & H4 & H5).
      rewrite HInv in *. auto.
    + rewrite Hnil. reflexivity.
    + rewrite Hnil. intros k s H. destruct k; discriminate.
  - rewrite Hsumtb.
    apply (sim_loop_state_rule config rate liq
             (fun st => SimState.totalBorrowed st = initialLoan)).
    + intros i point st HJ.
      destruct (loop_body_appends config rate liq i point st) as (s & Hs & _).
      destruct (loop_body_lump_sum config rate liq i point st s Hb Hm Hs)
        as (_ & H2 & _).
      congruence.
    + congruence.
  - exact Htotal.
Qed.

Lemma lump_sum_balance_is_constant_witness :
  exists result s0,
    runBBDSimulation testDate (lump_sum_config (Fin 20)) mockFit testDate None
    = Return result
    /\ nth_error (BBDSimulationResult.steps result) 0 = Some s0
    /\ forall (k : nat) (s : BBDMonthlyStep.t),
        nth_error (BBDSimulationResult.steps result) k = Some s ->
        BBDMonthlyStep.loanBalance s
        = mul (BBDMonthlyStep.collateralValue s0) (div (Fin 20) (Fin 100)).
Proof.
  destruct (runBBDSimulation_total testDate (lump_sum_config (Fin 20)) mockFit
              testDate None) as [result Hrun]; [cbn; lia |].
  destruct (lump_sum_balance_is_constant testDate (lump_sum_config (Fin 20)) mockFit
              testDate None result (Fin 20) Hrun eq_refl eq_refl eq_refl)
    as (s0 & Hs0 & Hall & _).
  exists result, s0. split; [exact Hrun |]. split; [exact Hs0 |].
  intros k s Hk. exact (proj1 (Hall k s Hk)).
Defined.

(* ================================================================== *)
(** * C3: what the simulator rejects *)
(* ================================================================== *)

(** In borrow mode the month-0 balance is zero, whatever else is configured. *)
Lemma borrow_mode_starts_at_zero (now : Date) (config : BBDSimulatorConfig.t)
    (fit : PowerLawFit.t) (startDate : Date)
    (historicalData : option (list HistoricalPricePoint.t))
    (result : BBDSimulationResult.t) :
  runBBDSimulation now config fit startDate historicalData = Return result ->
  BBDSimulatorConfig.borrowMonthly config = true ->
  exists s0,
    nth_error (BBDSimulationResult.steps result) 0 = Some s0
    /\ BBDMonthlyStep.loanBalance s0 = Fin 0.
Proof.
  intros Hrun Hb.
  destruct (runBBDSimulation_Return _ _ _ _ _ _ Hrun) as (st0 & Hinit & Hsum).
  rewrite initial_state_borrow_mode in Hinit by assumption. injection Hinit as <-.
  destruct (summarize_Return _ _ _ Hsum) as (_ & Hsteps & _).
  destruct (select_price_path now config fit startDate historicalData) as [| p0 rest].
  { cbn in Hsum. discriminate. }
  set (st0 := SimState.mk (Fin 0) (Fin 0) (Fin 0) false None []) in *.
  set (rate := div (div (BBDSimulatorConfig.interestAprPercent config) (Fin 100)) (Fin 12)) in *.
  set (liq := div (BBDSimulatorConfig.liquidationLtvPercent config) (Fin 100)) in *.
  destruct (loop_body_appends config rate liq 0 p0 st0) as (s0 & Hs0 & _).
  destruct (loop_body_step _ _ _ _ _ _ _ Hs0) as (_ & _ & Hl & _).
  exists s0. split.
  - rewrite Hsteps. apply sim_loop_first_step; [reflexivity | assumption].
  - rewrite Hl, loop_body_loanBalance. cbn. rewrite andb_false_r. reflexivity.
Qed.

(** C3, as the specification states it, fails: the call returns a result
    both when a starting LTV and recurring borrowing are requested together
    and when the holding is negative. *)
Lemma conflicting_modes_and_negative_holding_accepted :
  (exists result,
      runBBDSimulation testDate conflicting_config mockFit testDate None
      = Return result)
  /\ (exists result,
         runBBDSimulation testDate negative_holding_config mockFit testDate None
         = Return result).
Proof.
  split; apply runBBDSimulation_total; cbn; lia.
Qed.

(** C3 (amended): [runBBDSimulation] validates nothing in its
    configuration.  For every configuration whose horizon is not negative it
    returns a result carrying that configuration; when [borrowMonthly] is set
    it runs from a zero balance whether or not a starting LTV is also given,
    and a negative [btcHeld] is taken as it is. *)
Theorem runBBDSimulation_validates_nothing (now : Date)
    (config : BBDSimulatorConfig.t) (fit : PowerLawFit.t) (startDate : Date)
    (historicalData : option (list HistoricalPricePoint.t)) :
  0 <= BBDSimulatorConfig.projectionYears config ->
  exists result,
    runBBDSimulation now config fit startDate historicalData = Return result
    /\ BBDSimulationResult.config result = config
    /\ (BBDSimulatorConfig.borrowMonthly config = true ->
        exists s0,
          nth_error (BBDSimulationResult.steps result) 0 = Some s0
          /\ BBDMonthlyStep.loanBalance s0 = Fin 0).
Proof.
  intros Hyears.
  destruct (runBBDSimulation_total now config fit startDate historicalData Hyears)
    as [result Hrun].
  exists result. split; [exact Hrun |]. split.
  - destruct (runBBDSimulation_Return _ _ _ _ _ _ Hrun) as (st0 & _ & Hsum).
    exact (proj1 (summarize_Return _ _ _ Hsum)).
  - intros Hb. exact (borrow_mode_starts_at_zero _ _ _ _ _ _ Hrun Hb).
Qed.

Lemma runBBDSimulation_validates_nothing_witness :
  exists result,
    runBBDSimulation testDate conflicting_config mockFit testDate None = Return result
    /\ BBDSimulationResult.config result = conflicting_config
    /\ (BBDSimulatorConfig.borrowMonthly conflicting_config = true ->
        exists s0,
          nth_error (BBDSimulationResult.steps result) 0 = Some s0
          /\ BBDMonthlyStep.loanBalance s0 = Fin 0).
Proof.
  apply (runBBDSimulation_validates_nothing testDate conflicting_config mockFit
           testDate None).
  cbn. lia.
Defined.

(* ================================================================== *)
(** * C7: what a run depends on *)
(* ================================================================== *)

Lemma month_start_testDate : month_start testDate 0 = testDate.
Proof. vm_compute. reflexivity. Qed.

Lemma month_key_testDate : month_key testDate = "2025-01".
Proof. vm_compute. reflexivity. Qed.

Lemma january_history_map :
  historical_map january_history !! "2025-01" = Some (Fin 50000).
Proof.
  unfold historical_map, january_history. cbn [fold_left HistoricalPricePoint.date
    HistoricalPricePoint.price].
  replace (month_key 1736899200000) with "2025-01" by (vm_compute; reflexivity).
  apply lookup_insert_eq.
Qed.

(** The first point of the mixed path under the two clock readings. *)
Lemma mixed_path_head_2024 (projectionYears : Z) :
  0 <= projectionYears ->
  nth_error (generateMixedPricePath clock_2024_06 testDate projectionYears
               mockFit fair january_history) 0
  = Some (PathPoint.mk testDate (getScenarioPrice testDate mockFit fair) true).
Proof.
  intros Hy. unfold generateMixedPricePath.
  rewrite nth_error_map, month_range_nth by lia. cbn [option_map].
  change (Z.of_nat 0) with 0.
  rewrite month_start_testDate, month_key_testDate, january_history_map.
  replace (testDate <=? _) with false by (vm_compute; reflexivity).
  reflexivity.
Qed.

Lemma mixed_path_head_2025 (projectionYears : Z) :
  0 <= projectionYears ->
  nth_error (generateMixedPricePath clock_2025_06 testDate projectionYears
               mockFit fair january_history) 0
  = Some (PathPoint.mk testDate (Fin 50000) false).
Proof.
  intros Hy. unfold generateMixedPricePath.
  rewrite nth_error_map, month_range_nth by lia. cbn [option_map].
  change (Z.of_nat 0) with 0.
  rewrite month_start_testDate, month_key_testDate, january_history_map.
  replace (testDate <=? _) with true by (vm_compute; reflexivity).
  reflexivity.
Qed.

(** The first step of a run is made from the first point of its path. *)
Lemma first_step_of_run (now : Date) (config : BBDSimulatorConfig.t)
    (fit : PowerLawFit.t) (startDate : Date)
    (historicalData : option (list HistoricalPricePoint.t))
    (result : BBDSimulationResult.t) (p0 : PathPoint.t) :
  runBBDSimulation now config fit startDate historicalData = Return result ->
  nth_error (select_price_path now config fit startDate historicalData) 0 = Some p0 ->
  exists s0,
    nth_error (BBDSimulationResult.steps result) 0 = Some s0
    /\ BBDMonthlyStep.isProjection s0 = PathPoint.isProjection p0
    /\ BBDMonthlyStep.collateralValue s0
       = mul (BBDSimulatorConfig.btcHeld config) (PathPoint.price p0).
Proof.
  intros Hrun Hp0.
  destruct (runBBDSimulation_Return _ _ _ _ _ _ Hrun) as (st0 & Hinit & Hsum).
  destruct (initial_state_Return _ _ _ Hinit) as (_ & _ & Hnil & _).
  destruct (summarize_Return _ _ _ Hsum) as (_ & Hsteps & _).
  destruct (select_price_path now config fit startDate historicalData) as [| q rest];
    [discriminate |].
  cbn in Hp0. injection Hp0 as ->.
  destruct (loop_body_appends config
              (div (div (BBDSimulatorConfig.interestAprPercent config) (Fin 100)) (Fin 12))
              (div (BBDSimulatorConfig.liquidationLtvPercent config) (Fin 100))
              0 p0 st0) as (s0 & Hs0 & _).
  destruct (loop_body_step _ _ _ _ _ _ _ Hs0) as (_ & Hc & _ & _ & _ & Hp).
  exists s0. split; [| auto].
  rewrite Hsteps. apply sim_loop_first_step; assumption.
Qed.

(** C7, as the specification states it, fails: the same configuration,
    fit, start date and historical prices give two different results under
    two readings of the clock; so does the mixed path generator. *)
Lemma same_arguments_different_results :
  generateMixedPricePath clock_2024_06 testDate 5 mockFit fair january_history
  <> generateMixedPricePath clock_2025_06 testDate 5 mockFit fair january_history
  /\ runBBDSimulation clock_2024_06 baseConfig mockFit testDate (Some january_history)
     <> runBBDSimulation clock_2025_06 baseConfig mockFit testDate (Some january_history).
Proof.
  split.
  - intros E. apply (f_equal (fun l => nth_error l 0)) in E.
    rewrite mixed_path_head_2024, mixed_path_head_2025 in E by lia.
    discriminate.
  - intros E.
    destruct (runBBDSimulation_total clock_2024_06 baseConfig mockFit testDate
                (Some january_history)) as [result Hrun]; [cbn; lia |].
    pose proof Hrun as Hrun'. rewrite E in Hrun'.
    assert (Hpath : forall now,
               select_price_path now baseConfig mockFit testDate (Some january_history)
               = generateMixedPricePath now testDate 5 mockFit fair january_history)
      by reflexivity.
    pose proof (mixed_path_head_2024 5 ltac:(lia)) as H2024.
    pose proof (mixed_path_head_2025 5 ltac:(lia)) as H2025.
    rewrite <- Hpath in H2024, H2025.
    destruct (first_step_of_run _ _ _ _ _ _ _ Hrun H2024) as (s & Hs & Hproj & _).
    destruct (first_step_of_run _ _ _ _ _ _ _ Hrun' H2025) as (s' & Hs' & Hproj' & _).
    rewrite Hs in Hs'. injection Hs' as <-.
    rewrite Hproj in Hproj'. discriminate.
Qed.

(** C7 (amended): [runBBDSimulation] and [generateMixedPricePath] are
    functions of their arguments and of the UTC calendar month of the clock:
    two clock readings in the same month give the same mixed path and the
    same result, and a run without historical prices (none passed, or an
    empty list, which takes the clock-free [generatePricePath]) gives the
    same result under any two clock readings. *)
Theorem results_depend_on_arguments_and_clock_month (now1 now2 : Date)
    (config : BBDSimulatorConfig.t) (fit : PowerLawFit.t) (startDate : Date) :
  (forall historicalData,
      historicalData = None \/ historicalData = Some [] ->
      runBBDSimulation now1 config fit startDate historicalData
      = runBBDSimulation now2 config fit startDate historicalData)
  /\ (getUTCFullYear now1 = getUTCFullYear now2 ->
      getUTCMonth now1 = getUTCMonth now2 ->
      (forall projectionYears scenario data,
          generateMixedPricePath now1 startDate projectionYears fit scenario data
          = generateMixedPricePath now2 startDate projectionYears fit scenario data)
      /\ (forall historicalData,
             runBBDSimulation now1 config fit startDate historicalData
             = runBBDSimulation now2 config fit startDate historicalData)).
Proof.
  split.
  - intros historicalData [-> | ->]; reflexivity.
  - intros Hy Hm. split.
    + intros. apply generateMixedPricePath_clock; assumption.
    + intros historicalData. unfold runBBDSimulation, select_price_path.
      destruct historicalData as [[| h data] |]; [reflexivity | | reflexivity].
      rewrite (generateMixedPricePath_clock now1 now2) by assumption.
      reflexivity.
Qed.

Lemma results_depend_on_arguments_and_clock_month_witness :
  runBBDSimulation clock_2024_06 baseConfig mockFit testDate None
  = runBBDSimulation clock_2025_06 baseConfig mockFit testDate None
  /\ runBBDSimulation clock_2025_06 baseConfig mockFit testDate (Some january_history)
     = runBBDSimulation (clock_2025_06 + 5 * msPerDay) baseConfig mockFit testDate
         (Some january_history).
Proof.
  split.
  - apply (proj1 (results_depend_on_arguments_and_clock_month
                    clock_2024_06 clock_2025_06 baseConfig mockFit testDate)).
    left. reflexivity.
  - apply (proj2 (results_depend_on_arguments_and_clock_month
                    clock_2025_06 (clock_2025_06 + 5 * msPerDay) baseConfig mockFit
                    testDate)).
    + vm_compute. reflexivity.
    + vm_compute. reflexivity.
Defined.

(* ================================================================== *)
(** * Calendar facts *)
(* ================================================================== *)

Lemma era_split (era doe : Z) :
  0 <= doe < 146097 ->
  (era * 146097 + doe) / 146097 = era.
Proof. intros H. Z.div_mod_to_equations. lia. Qed.

Lemma yoe_recovered (yoe doy : Z) :
  0 <= yoe < 400 -> 0 <= doy <= 364 ->
  let doe := yoe * 365 + yoe / 4 - yoe / 100 + doy in
  (doe - doe / 1460 + doe / 36524 - doe / 146096) / 365 = yoe.
Proof.
  intros Hy Hd doe. subst doe.
  Z.div_mod_to_equations. lia.
Qed.

Lemma month_recovered (mp : Z) :
  0 <= mp <= 11 ->
  let doy := (153 * mp + 2) / 5 in
  (5 * doy + 2) / 153 = mp /\ doy - (153 * mp + 2) / 5 + 1 = 1 /\ 0 <= doy <= 364.
Proof.
  intros H doy. subst doy. Z.div_mod_to_equations. lia.
Qed.

Lemma civil_from_days_of_civil (y m : Z) :
  1 <= m <= 12 ->
  civil_from_days (days_from_civil y m 1) = (y, m - 1, 1).
Proof.
  intros Hm. unfold civil_from_days, days_from_civil.
  set (y' := if m <=? 2 then y - 1 else y).
  set (mp := if m >? 2 then m - 3 else m + 9).
  set (era := y' / 400).
  set (yoe := y' - era * 400).
  set (doy := (153 * mp + 2) / 5 + 1 - 1).
  set (doe := yoe * 365 + yoe / 4 - yoe / 100 + doy).
  assert (Hyoe : 0 <= yoe < 400).
  { subst yoe era. Z.div_mod_to_equations. lia. }
  assert (Hmp : 0 <= mp <= 11).
  { subst mp. destruct (m >? 2) eqn:E; lia. }
  destruct (month_recovered mp Hmp) as (Hm1 & Hm2 & Hdoy).
  assert (Edoy : doy = (153 * mp + 2) / 5) by (subst doy; lia).
  rewrite <- Edoy in Hm1, Hm2, Hdoy.
  assert (Hdoe : 0 <= doe < 146097).
  { subst doe. Z.div_mod_to_equations. lia. }
  replace (era * 146097 + doe - 719468 + 719468) with (era * 146097 + doe) by lia.
  rewrite era_split by assumption.
  replace (era * 146097 + doe - era * 146097) with doe by lia.
  pose proof (yoe_recovered yoe doy Hyoe Hdoy) as Hy. cbv zeta in Hy. fold doe in Hy.
  rewrite Hy.
  replace (doe - (365 * yoe + yoe / 4 - yoe / 100)) with doy by (subst doe; lia).
  rewrite Hm1. rewrite <- Edoy, Hm2.
  subst mp y' yoe era.
  destruct (m >? 2) eqn:E1; destruct (m <=? 2) eqn:E2; try lia.
  - replace (m - 3 <? 10) with true by (symmetry; apply Z.ltb_lt; lia).
    replace (m - 3 + 3 <=? 2) with false by (symmetry; apply Z.leb_gt; lia).
    apply pair_equal_spec; split; [apply pair_equal_spec; split |]; lia.
  - replace (m + 9 <? 10) with false by (symmetry; apply Z.ltb_ge; lia).
    replace (m + 9 - 9 <=? 2) with true by (symmetry; apply Z.leb_le; lia).
    apply pair_equal_spec; split; [apply pair_equal_spec; split |]; lia.
Qed.

Lemma Day_of_midnight (days : Z) : Day (days * msPerDay) = days.
Proof. unfold Day, msPerDay. apply Z.div_mul. lia. Qed.

(** [Date.UTC(y, m, 1)] read back, for a year outside 0..99. *)
Lemma Date_UTC_read_back (year month : Z) :
  let yr := if (0 <=? year) && (year <=? 99) then 1900 + year else year in
  getUTCFullYear (Date_UTC year month 1) = yr + month / 12
  /\ getUTCMonth (Date_UTC year month 1) = month mod 12
  /\ getUTCDate (Date_UTC year month 1) = 1.
Proof.
  cbv zeta. unfold getUTCFullYear, getUTCMonth, getUTCDate, Date_UTC.
  replace (days_from_civil _ (month mod 12 + 1) 1 + 1 - 1)
    with (days_from_civil
            ((if (0 <=? year) && (year <=? 99) then 1900 + year else year) + month / 12)
            (month mod 12 + 1) 1) by lia.
  rewrite Day_of_midnight, civil_from_days_of_civil.
  - cbn. repeat split; lia.
  - pose proof (Z.mod_pos_bound month 12). lia.
Qed.

(** The dates the test suite relies on. *)
Example genesis_is_2009_01_03 : BITCOIN_GENESIS_DATE = Date_UTC 2009 0 3.
Proof. reflexivity. Qed.

Example testDate_is_2025_01_01 : testDate = Date_UTC 2025 0 1.
Proof. reflexivity. Qed.

Example days_at_genesis : daysSinceGenesis BITCOIN_GENESIS_DATE = of_Z 0.
Proof. reflexivity. Qed.

Example days_one_year_later : daysSinceGenesis (Date_UTC 2010 0 3) = of_Z 365.
Proof. reflexivity. Qed.

Example days_2013_01_01 : daysSinceGenesis (Date_UTC 2013 0 1) = of_Z 1459.
Proof. reflexivity. Qed.

Example month_overflow : Date_UTC 2024 13 29 = Date_UTC 2025 1 29.
Proof. reflexivity. Qed.

(* ================================================================== *)
(** * C9: the monthly path *)
(* ================================================================== *)

Lemma generatePricePath_points (startDate : Date) (projectionYears : Z)
    (fit : PowerLawFit.t) (scenario : PriceScenario) (k : nat) (p : PathPoint.t) :
  nth_error (generatePricePath startDate projectionYears fit scenario) k = Some p ->
  PathPoint.date p
  = Date_UTC (getUTCFullYear startDate) (getUTCMonth startDate + Z.of_nat k) 1
  /\ PathPoint.price p = getScenarioPrice (PathPoint.date p) fit scenario
  /\ PathPoint.isProjection p = true.
Proof.
  intros Hk.
  assert (Hlt : (k < Z.to_nat (projectionYears * 12 + 1))%nat).
  { rewrite <- (generatePricePath_length startDate projectionYears fit scenario).
    apply nth_error_Some. congruence. }
  rewrite generatePricePath_nth in Hk by assumption.
  injection Hk as <-. cbn. auto.
Qed.

(** C9, as the specification states it, fails: started on 2025-01-15 the
    path opens on 2025-01-01, not on the start date. *)
Lemma first_point_is_not_the_start_date :
  exists p,
    nth_error (generatePricePath mid_january 1 mockFit fair) 0 = Some p
    /\ PathPoint.date p = testDate
    /\ PathPoint.date p <> mid_january.
Proof.
  eexists. split; [apply generatePricePath_nth; cbn; lia |].
  cbn [PathPoint.date]. split.
  - vm_compute. reflexivity.
  - vm_compute. discriminate.
Qed.

(** C9 (amended): for every start date, non-negative integer number of
    years, fit and scenario, the monthly path contains exactly years·12+1
    points, and its first point is dated
    Date.UTC(start's UTC year, start's UTC month, 1), midnight UTC on the
    first day of a month; it is the start date itself when the start date
    is such an instant (of a year outside 0..99).  The k-th point is dated
    k months later, on the first of its month, is priced by the scenario and
    is marked as a projection. *)
Theorem generatePricePath_shape (startDate : Date) (projectionYears : Z)
    (fit : PowerLawFit.t) (scenario : PriceScenario) :
  0 <= projectionYears ->
  Z.of_nat (length (generatePricePath startDate projectionYears fit scenario))
  = projectionYears * 12 + 1
  /\ (exists first,
         nth_error (generatePricePath startDate projectionYears fit scenario) 0
         = Some first
         /\ PathPoint.date first
            = Date_UTC (getUTCFullYear startDate) (getUTCMonth startDate) 1
         /\ (forall year month,
                0 <= month < 12 -> ~ 0 <= year <= 99 ->
                startDate = Date_UTC year month 1 ->
                PathPoint.date first = startDate))
  /\ (forall k p,
         nth_error (generatePricePath startDate projectionYears fit scenario) k
         = Some p ->
         PathPoint.date p
         = Date_UTC (getUTCFullYear startDate) (getUTCMonth startDate + Z.of_nat k) 1
         /\ getUTCDate (PathPoint.date p) = 1
         /\ PathPoint.price p = getScenarioPrice (PathPoint.date p) fit scenario
         /\ PathPoint.isProjection p = true).
Proof.
  intros Hyears. split; [| split].
  - rewrite generatePricePath_length. lia.
  - eexists. split; [apply generatePricePath_nth; lia |].
    cbn [PathPoint.date]. unfold month_start. rewrite Z.add_0_r.
    split; [reflexivity |].
    intros year month Hmonth Hyear ->.
    destruct (Date_UTC_read_back year month) as (Hy & Hm & _).
    rewrite Hy, Hm.
    replace ((0 <=? year) && (year <=? 99)) with false
      by (symmetry; apply andb_false_iff; lia).
    rewrite Z.div_small, Z.mod_small by lia.
    rewrite Z.add_0_r. reflexivity.
  - intros k p Hk.
    destruct (generatePricePath_points _ _ _ _ _ _ Hk) as (Hd & Hp & Hproj).
    repeat split; try assumption.
    rewrite Hd. apply Date_UTC_read_back.
Qed.

Lemma generatePricePath_shape_witness :
  Z.of_nat (length (generatePricePath testDate 5 mockFit fair)) = 5 * 12 + 1
  /\ exists first,
      nth_error (generatePricePath testDate 5 mockFit fair) 0 = Some first
      /\ PathPoint.date first = testDate.
Proof.
  destruct (generatePricePath_shape testDate 5 mockFit fair)
    as (Hlen & (first & Hfirst & _ & Hsame) & _).
  - lia.
  - split; [exact Hlen |]. exists first. split; [exact Hfirst |].
    apply (Hsame 2025 0); [lia | lia | vm_compute; reflexivity].
Defined.

(* ================================================================== *)
(** * Further properties of the code *)
(* ================================================================== *)

Example halving_dates_are_their_labels :
  map (fun h => month_key (Halving.date h) +:+ "-" +:+ padStart2 (pretty (getUTCDate (Halving.date h))))
      HALVING_DATES
  = getHalvingDateStrings.
Proof. vm_compute. reflexivity. Qed.

Example genesis_constants_agree : BITCOIN_GENESIS = BITCOIN_GENESIS_DATE.
Proof. reflexivity. Qed.

(** ** The fit engine *)

Local Open Scope R_scope.

Lemma filter_idempotent {T : Type} (f : T -> bool) (l : list T) :
  List.filter f (List.filter f l) = List.filter f l.
Proof.
  induction l as [| x l IH]; cbn; [reflexivity |].
  destruct (f x) eqn:E; cbn; rewrite ?E, IH; reflexivity.
Qed.

(** X2: the regression sees only the valid points (price > 0 and age > 0):
    fitting the data and fitting its valid points give the same result, and
    invalid points added in front of or behind the data change nothing. *)
Theorem fitPowerLaw_ignores_invalid_points (data : list PriceDataPoint.t) :
  fitPowerLaw data = fitPowerLaw (List.filter is_valid data)
  /\ forall invalid,
       Forall (fun d => is_valid d = false) invalid ->
       fitPowerLaw (invalid ++ data) = fitPowerLaw data
       /\ fitPowerLaw (data ++ invalid) = fitPowerLaw data.
Proof.
  assert (Hsame : forall l1 l2,
             List.filter is_valid l1 = List.filter is_valid l2 ->
             fitPowerLaw l1 = fitPowerLaw l2).
  { intros l1 l2 H. unfold fitPowerLaw. rewrite H. reflexivity. }
  split.
  - apply Hsame. symmetry. apply filter_idempotent.
  - intros invalid Hinv.
    assert (Hnil : List.filter is_valid invalid = []).
    { induction Hinv as [| d l Hd _ IH]; cbn; [reflexivity |]. rewrite Hd. exact IH. }
    split; apply Hsame; rewrite filter_app, Hnil; [reflexivity | apply app_nil_r].
Qed.

Lemma fitPowerLaw_ignores_invalid_points_witness :
  fitPowerLaw ([zero_price_point] ++ power_law_points) = fitPowerLaw power_law_points.
Proof.
  apply (proj2 (fitPowerLaw_ignores_invalid_points power_law_points) [zero_price_point]).
  constructor; [| constructor].
  unfold is_valid, zero_price_point. cbn. rewrite Rltb_false by lra. reflexivity.
Defined.


(* ================================================================== *)
(** * Valuation zones *)
(* ================================================================== *)

Local Open Scope R_scope.

(** The zone of a finite deviation, by the interval it falls in. *)
Lemma zone_rank_interval (a : R) :
  let r := zone_rank (getValuationZone (Fin a)) in
  (r = 0%Z /\ a <= -2) \/ (r = 1%Z /\ -2 < a <= -1) \/ (r = 2%Z /\ -1 < a <= 1)
  \/ (r = 3%Z /\ 1 < a <= 2) \/ (r = 4%Z /\ 2 < a).
Proof.
  unfold getValuationZone. cbn [leb]. unfold Rleb.
  destruct (Rle_dec a (-2)); [left; split; [reflexivity | lra] | right].
  destruct (Rle_dec a (-1)); [left; split; [reflexivity | lra] | right].
  destruct (Rle_dec a 1); [left; split; [reflexivity | lra] | right].
  destruct (Rle_dec a 2); [left; split; [reflexivity | lra] | right].
  split; [reflexivity | lra].
Qed.

Lemma getValuationZone_monotone (d1 d2 : number) :
  leb d1 d2 = true ->
  (zone_rank (getValuationZone d1) <= zone_rank (getValuationZone d2))%Z.
Proof.
  intros Hle.
  destruct d1 as [a | | |], d2 as [b | | |]; cbn in Hle; try discriminate;
    try (cbn; lia).
  - unfold Rleb in Hle. destruct (Rle_dec a b) as [Hab |]; [| discriminate].
    pose proof (zone_rank_interval a) as Ha. pose proof (zone_rank_interval b) as Hb.
    cbv zeta in Ha, Hb.
    destruct Ha as [[-> Ha] | [[-> Ha] | [[-> Ha] | [[-> Ha] | [-> Ha]]]]];
      destruct Hb as [[-> Hb] | [[-> Hb] | [[-> Hb] | [[-> Hb] | [-> Hb]]]]];
      first [lia | exfalso; lra].
  - pose proof (zone_rank_interval a) as Ha. cbv zeta in Ha.
    change (zone_rank (getValuationZone PInf)) with 4%Z.
    destruct Ha as [[-> _] | [[-> _] | [[-> _] | [[-> _] | [-> _]]]]]; lia.
  - pose proof (zone_rank_interval b) as Hb. cbv zeta in Hb.
    change (zone_rank (getValuationZone NInf)) with 0%Z.
    destruct Hb as [[-> _] | [[-> _] | [[-> _] | [[-> _] | [-> _]]]]]; lia.
Qed.

(** A value that compares with nothing (NaN) passes every test of
    [getValuationZone] and is classified as a bubble. *)
Example getValuationZone_NaN : getValuationZone NaN = ValuationZone.bubble.
Proof. reflexivity. Qed.

(** X6: [getValuationZone] cuts the number line at -2, -1, 1 and 2, the
    upper end of each interval included: deep value up to -2, undervalued
    above -2 up to -1, fair above -1 up to 1, overvalued above 1 up to 2,
    bubble above 2.  It is monotone: of two deviations d1 <= d2 the zone of
    d1 is never the higher one. *)
Theorem getValuationZone_thresholds (d1 d2 : number) :
  leb d1 d2 = true ->
  (zone_rank (getValuationZone d1) <= zone_rank (getValuationZone d2))%Z
  /\ (getValuationZone d1 = ValuationZone.deep_value <-> leb d1 (Fin (-2)) = true)
  /\ (getValuationZone d1 = ValuationZone.undervalued
      <-> gtb d1 (Fin (-2)) = true /\ leb d1 (Fin (-1)) = true)
  /\ (getValuationZone d1 = ValuationZone.fair
      <-> gtb d1 (Fin (-1)) = true /\ leb d1 (Fin 1) = true)
  /\ (getValuationZone d1 = ValuationZone.overvalued
      <-> gtb d1 (Fin 1) = true /\ leb d1 (Fin 2) = true)
  /\ (getValuationZone d1 = ValuationZone.bubble <-> gtb d1 (Fin 2) = true).
Proof.
  intros Hle. split; [apply getValuationZone_monotone; assumption |].
  destruct d1 as [a | | |].
  - unfold getValuationZone, gtb. cbn [leb ltb]. unfold Rleb, Rltb.
    destruct (Rle_dec a (-2)), (Rle_dec a (-1)), (Rle_dec a 1), (Rle_dec a 2);
      try (exfalso; lra);
      destruct (Rlt_dec (-2) a), (Rlt_dec (-1) a), (Rlt_dec 1 a), (Rlt_dec 2 a);
      try (exfalso; lra);
      repeat split; intros; try discriminate; try reflexivity;
      match goal with
      | H : _ /\ _ |- _ => destruct H; discriminate
      end.
  - cbn. repeat split; intros; try discriminate; try reflexivity;
      match goal with
      | H : _ /\ _ |- _ => destruct H; discriminate
      end.
  - cbn. repeat split; intros; try discriminate; try reflexivity;
      match goal with
      | H : _ /\ _ |- _ => destruct H; discriminate
      end.
  - destruct d2; discriminate Hle.
Qed.

Lemma getValuationZone_thresholds_witness :
  (zone_rank (getValuationZone (Fin (-1))) <= zone_rank (getValuationZone (Fin (3 / 2))))%Z
  /\ (getValuationZone (Fin (-1)) = ValuationZone.undervalued
      <-> gtb (Fin (-1)) (Fin (-2)) = true /\ leb (Fin (-1)) (Fin (-1)) = true).
Proof.
  assert (Hle : leb (Fin (-1)) (Fin (3 / 2)) = true).
  { cbn. apply Rleb_true. lra. }
  destruct (getValuationZone_thresholds (Fin (-1)) (Fin (3 / 2)) Hle)
    as (Hrank & _ & Hunder & _).
  split; assumption.
Defined.

(* ================================================================== *)
(** * Rolling volatility *)
(* ================================================================== *)

Local Open Scope Z_scope.

Lemma nth_error_imap {A B : Type} (f : nat -> A -> B) (l : list A) (i : nat) :
  nth_error (imap f l) i = option_map (f i) (nth_error l i).
Proof.
  revert f i. induction l as [| x l IH]; intros f i.
  - destruct i; reflexivity.
  - rewrite imap_cons. destruct i as [| i]; cbn; [reflexivity |].
    rewrite IH. reflexivity.
Qed.

(** The window cut by [slice] at index [i]: the last
    [min (i + 1) windowSize] elements up to and including index [i]. *)
Lemma slice_window {T : Type} (xs : list T) (windowSize : Z) (i : nat) :
  (i < length xs)%nat ->
  let n := Z.to_nat (Z.min (Z.of_nat i + 1) (Z.max windowSize 0)) in
  slice xs (Z.max 0 (Z.of_nat i - windowSize + 1)) (Z.of_nat i + 1)
  = firstn n (skipn (S i - n) xs)
  /\ length (firstn n (skipn (S i - n) xs)) = n.
Proof.
  intros Hi n. split.
  - unfold slice.
    replace (Z.max 0 (Z.of_nat i - windowSize + 1) <? 0) with false
      by (symmetry; apply Z.ltb_ge; lia).
    replace (Z.of_nat i + 1 <? 0) with false by (symmetry; apply Z.ltb_ge; lia).
    destruct (Z.le_gt_cases windowSize 0) as [Hw | Hw].
    + replace n with 0%nat by (subst n; lia).
      replace (Z.to_nat _) with 0%nat by lia. reflexivity.
    + f_equal; [subst n; lia |]. f_equal. subst n. lia.
  - rewrite length_firstn, length_skipn. subst n. lia.
Qed.

Lemma In_window {T : Type} (xs : list T) (n k : nat) (x : T) :
  In x (firstn n (skipn k xs)) -> In x xs.
Proof.
  intros H.
  rewrite <- (firstn_skipn k xs). apply in_or_app. right.
  rewrite <- (firstn_skipn n (skipn k xs)). apply in_or_app. left. exact H.
Qed.

(** X7: the rolling volatility has one point per input point.  The point
    at index i carries the date of input point i and the sample standard
    deviation of the window of the last min(i + 1, windowSize) points up to
    and including i; the value is [null] exactly at index 0 or when the
    window size is below 2. *)
Theorem rolling_volatility_windows (data : list FittedDataPoint.t) (windowSize : Z) :
  length (calculateRollingVolatility data windowSize) = length data
  /\ forall (i : nat) (d : FittedDataPoint.t),
       nth_error data i = Some d ->
       let n := Z.to_nat (Z.min (Z.of_nat i + 1) (Z.max windowSize 0)) in
       let window := firstn n (skipn (S i - n) data) in
       exists v,
         nth_error (calculateRollingVolatility data windowSize) i = Some v
         /\ VolatilityDataPoint.date v = PriceDataPoint.date (FittedDataPoint.point d)
         /\ length window = n
         /\ VolatilityDataPoint.rollingStdDev v = window_std_dev window
         /\ (VolatilityDataPoint.rollingStdDev v = None <-> i = 0%nat \/ windowSize <= 1).
Proof.
  split.
  - unfold calculateRollingVolatility. apply length_imap.
  - intros i d Hd n window.
    assert (Hi : (i < length data)%nat) by (apply nth_error_Some; congruence).
    destruct (slice_window data windowSize i Hi) as [Hslice Hlen].
    fold n in Hslice, Hlen. fold window in Hslice, Hlen.
    eexists. split.
    { unfold calculateRollingVolatility. rewrite nth_error_imap, Hd. reflexivity. }
    cbn [VolatilityDataPoint.date VolatilityDataPoint.rollingStdDev].
    rewrite Hslice. repeat split; try assumption.
    + unfold window_std_dev. rewrite Hlen.
      destruct (2 <=? n)%nat eqn:E; [discriminate |].
      intros _. apply Nat.leb_gt in E. subst n. lia.
    + intros H. unfold window_std_dev. rewrite Hlen.
      replace (2 <=? n)%nat with false; [reflexivity |].
      symmetry. apply Nat.leb_gt. subst n. lia.
Qed.

Lemma rolling_volatility_windows_witness :
  exists v,
    nth_error (calculateRollingVolatility constant_residual_points ROLLING_WINDOW_DAYS) 1
    = Some v
    /\ VolatilityDataPoint.rollingStdDev v <> None.
Proof.
  destruct (nth_error constant_residual_points 1) as [d |] eqn:Hd; [| discriminate Hd].
  destruct (proj2 (rolling_volatility_windows constant_residual_points ROLLING_WINDOW_DAYS)
              1%nat d Hd) as (v & Hv & _ & _ & _ & Hnull).
  exists v. split; [exact Hv |].
  intros E. apply Hnull in E. destruct E as [E | E]; [discriminate E |].
  unfold ROLLING_WINDOW_DAYS in E. lia.
Defined.

Local Open Scope R_scope.

Lemma rolling_volatility_value (data : list FittedDataPoint.t) (windowSize : Z)
    (v : VolatilityDataPoint.t) :
  In v (calculateRollingVolatility data windowSize) ->
  exists window,
    VolatilityDataPoint.rollingStdDev v = window_std_dev window
    /\ forall d, In d window -> In d data.
Proof.
  intros Hin. apply In_nth_error in Hin. destruct Hin as [i Hi].
  unfold calculateRollingVolatility in Hi. rewrite nth_error_imap in Hi.
  destruct (nth_error data i) as [d |] eqn:Hd; [| discriminate].
  cbn in Hi. injection Hi as <-.
  eexists. split; [reflexivity |].
  intros d' Hd'. unfold slice in Hd'. eapply In_window. exact Hd'.
Qed.

(** X8: whatever the log residuals, a rolling deviation is [null] or a
    number that is not negative: it comes out of [Math.sqrt], which gives
    zero, a positive number or NaN. *)
Theorem rolling_volatility_never_negative (data : list FittedDataPoint.t)
    (windowSize : Z) (v : VolatilityDataPoint.t) :
  In v (calculateRollingVolatility data windowSize) ->
  VolatilityDataPoint.rollingStdDev v = None
  \/ exists x, VolatilityDataPoint.rollingStdDev v = Some x /\ ltb x (Fin 0) = false.
Proof.
  intros Hin.
  destruct (rolling_volatility_value data windowSize v Hin) as (window & -> & _).
  unfold window_std_dev.
  destruct (2 <=? length window)%nat; [right | left; reflexivity].
  eexists. split; [reflexivity | apply Math_sqrt_not_negative].
Qed.

Lemma rolling_volatility_never_negative_witness :
  exists v x,
    nth_error (calculateRollingVolatility constant_residual_points ROLLING_WINDOW_DAYS) 1
    = Some v
    /\ VolatilityDataPoint.rollingStdDev v = Some x
    /\ ltb x (Fin 0) = false.
Proof.
  assert (Hnth : exists v,
             nth_error (calculateRollingVolatility constant_residual_points
                          ROLLING_WINDOW_DAYS) 1 = Some v
             /\ VolatilityDataPoint.rollingStdDev v <> None).
  { unfold calculateRollingVolatility. rewrite nth_error_imap. eexists.
    split; [reflexivity |]. cbn. discriminate. }
  destruct Hnth as (v & Hv & Hsome).
  destruct (rolling_volatility_never_negative constant_residual_points
              ROLLING_WINDOW_DAYS v (nth_error_In _ _ Hv)) as [Hnone | (x & Hx & Hneg)].
  - contradiction.
  - exists v, x. auto.
Defined.


(* ================================================================== *)
(** * Portfolio values and scenario prices *)
(* ================================================================== *)

Local Open Scope R_scope.

Lemma mul_Fin_inv (x y : number) (v : R) :
  mul x y = Fin v -> exists a b, x = Fin a /\ y = Fin b /\ v = a * b.
Proof.
  destruct x as [a | | |], y as [b | | |]; cbn; unfold inf_times;
    try discriminate;
    try (destruct (Reqb _ 0); [discriminate |];
         destruct (Bool.eqb _ (Rltb 0 _)); discriminate).
  intros H. injection H as <-. eauto.
Qed.

(** X10: a portfolio point is the annotated point scaled by the holding,
    field by field.  For a positive holding, a sigma > 0 and a positive
    finite fair value its bands are nested around the fair value:
    band-2σ <= band-1σ <= fair value <= band+1σ <= band+2σ. *)
Theorem portfolio_bands_nested
    (data : list PriceDataPoint.t) (fit : PowerLawFit.t)
    (q : PortfolioDataPoint.t) (btcHeld : number) (v : R) :
  In q (calculatePortfolioData (applyFitToData data fit) btcHeld) ->
  gtb btcHeld (Fin 0) = true ->
  gtb (PowerLawFit.sigma fit) (Fin 0) = true ->
  PortfolioDataPoint.portfolioFairValue q = Fin v -> 0 < v ->
  (exists p,
      In p (applyFitToData data fit)
      /\ PortfolioDataPoint.portfolioFairValue q
         = mul btcHeld (FittedDataPoint.fittedPrice p)
      /\ PortfolioDataPoint.portfolioBand2SigmaLower q
         = mul btcHeld (FittedDataPoint.band2SigmaLower p)
      /\ PortfolioDataPoint.portfolioBand1SigmaLower q
         = mul btcHeld (FittedDataPoint.band1SigmaLower p)
      /\ PortfolioDataPoint.portfolioBand1SigmaUpper q
         = mul btcHeld (FittedDataPoint.band1SigmaUpper p)
      /\ PortfolioDataPoint.portfolioBand2SigmaUpper q
         = mul btcHeld (FittedDataPoint.band2SigmaUpper p))
  /\ leb (PortfolioDataPoint.portfolioBand2SigmaLower q)
         (PortfolioDataPoint.portfolioBand1SigmaLower q) = true
  /\ leb (PortfolioDataPoint.portfolioBand1SigmaLower q)
         (PortfolioDataPoint.portfolioFairValue q) = true
  /\ leb (PortfolioDataPoint.portfolioFairValue q)
         (PortfolioDataPoint.portfolioBand1SigmaUpper q) = true
  /\ leb (PortfolioDataPoint.portfolioBand1SigmaUpper q)
         (PortfolioDataPoint.portfolioBand2SigmaUpper q) = true.
Proof.
  intros Hin Hheld Hsigma Hv Hvpos.
  unfold calculatePortfolioData in Hin. apply in_map_iff in Hin.
  destruct Hin as (p & <- & Hp).
  split; [exists p; repeat split; assumption |].
  cbn [PortfolioDataPoint.portfolioFairValue
       PortfolioDataPoint.portfolioBand1SigmaUpper
       PortfolioDataPoint.portfolioBand1SigmaLower
       PortfolioDataPoint.portfolioBand2SigmaUpper
       PortfolioDataPoint.portfolioBand2SigmaLower] in *.
  unfold applyFitToData in Hp. apply in_map_iff in Hp. destruct Hp as (d & <- & _).
  destruct (mul_Fin_inv _ _ _ Hv) as (h & m & -> & Hm & ->).
  cbn in Hheld. apply Rltb_spec in Hheld.
  assert (Hmpos : 0 < m) by nra.
  destruct (applyFit_band_expressions fit d) as (E1 & E2 & E3 & E4).
  rewrite E1, E2, E3, E4, Hm.
  assert (Hinf : mul (Fin h) PInf = PInf).
  { cbn. unfold inf_times. rewrite Reqb_false by lra.
    rewrite Rltb_true by lra. reflexivity. }
  destruct (band_factors (PowerLawFit.sigma fit) m Hsigma Hmpos)
    as (l2 & l1 & -> & -> & Hl2 & Hl1 & [(u1 & u2 & -> & -> & Hu) | (_ & -> & ->)]);
    rewrite ?Hinf, ?mul_Fin; cbn [leb];
    repeat split; try reflexivity; apply Rleb_true; nra.
Qed.

Lemma portfolio_bands_nested_witness :
  let d := PriceDataPoint.mk testDate (Fin 1735689600000) (Fin 120000) (Fin 100) in
  exists q,
    In q (calculatePortfolioData (applyFitToData [d] simple_fit) (Fin 2))
    /\ leb (PortfolioDataPoint.portfolioBand2SigmaLower q)
           (PortfolioDataPoint.portfolioBand1SigmaLower q) = true
    /\ leb (PortfolioDataPoint.portfolioBand1SigmaUpper q)
           (PortfolioDataPoint.portfolioBand2SigmaUpper q) = true.
Proof.
  intros d.
  assert (Hin : exists q,
             In q (calculatePortfolioData (applyFitToData [d] simple_fit) (Fin 2))
             /\ PortfolioDataPoint.portfolioFairValue q
                = mul (Fin 2) (powerLawPrice (Fin 100) simple_fit)).
  { eexists. split; [left; reflexivity | reflexivity]. }
  destruct Hin as (q & Hq & Hfair).
  unfold simple_fit in Hfair. rewrite powerLawPrice_positive_age in Hfair by lra.
  rewrite mul_Fin in Hfair.
  assert (Hpos : 0 < 2 * (10 * Rpower 100 2)).
  { repeat apply Rmult_lt_0_compat; try lra. apply exp_pos. }
  assert (Hheld : gtb (Fin 2) (Fin 0) = true).
  { cbn. apply Rltb_true. lra. }
  assert (Hsigma : gtb (PowerLawFit.sigma simple_fit) (Fin 0) = true).
  { cbn. apply Rltb_true. lra. }
  destruct (portfolio_bands_nested [d] simple_fit q (Fin 2) (2 * (10 * Rpower 100 2))
              Hq Hheld Hsigma Hfair Hpos)
    as (_ & H1 & _ & _ & H4).
  exists q. auto.
Defined.

(** X11: the summary of the last point carries the values of the last
    portfolio point. *)
Theorem portfolio_summary_is_last_point
    (data : list FittedDataPoint.t) (lastDataPoint : FittedDataPoint.t)
    (btcHeld : number) :
  List.last (map Some data) None = Some lastDataPoint ->
  exists q,
    List.last (map Some (calculatePortfolioData data btcHeld)) None = Some q
    /\ PortfolioSummary.btcHeld (calculatePortfolioSummary lastDataPoint btcHeld) = btcHeld
    /\ PortfolioSummary.currentValue (calculatePortfolioSummary lastDataPoint btcHeld)
       = PortfolioDataPoint.portfolioValue q
    /\ PortfolioSummary.fairValue (calculatePortfolioSummary lastDataPoint btcHeld)
       = PortfolioDataPoint.portfolioFairValue q
    /\ PortfolioSummary.band1SigmaUpper (calculatePortfolioSummary lastDataPoint btcHeld)
       = PortfolioDataPoint.portfolioBand1SigmaUpper q
    /\ PortfolioSummary.band1SigmaLower (calculatePortfolioSummary lastDataPoint btcHeld)
       = PortfolioDataPoint.portfolioBand1SigmaLower q
    /\ PortfolioSummary.band2SigmaUpper (calculatePortfolioSummary lastDataPoint btcHeld)
       = PortfolioDataPoint.portfolioBand2SigmaUpper q
    /\ PortfolioSummary.band2SigmaLower (calculatePortfolioSummary lastDataPoint btcHeld)
       = PortfolioDataPoint.portfolioBand2SigmaLower q.
Proof.
  intros Hlast.
  induction data as [| d data _] using rev_ind; [discriminate |].
  rewrite map_app in Hlast. cbn [map] in Hlast.
  rewrite last_last in Hlast. injection Hlast as ->.
  eexists. split.
  - unfold calculatePortfolioData. rewrite !map_app. cbn [map].
    rewrite last_last. reflexivity.
  - cbn. repeat split.
Qed.

Lemma portfolio_summary_is_last_point_witness :
  let p := applyFit simple_fit zero_price_point in
  exists q,
    List.last (map Some (calculatePortfolioData [p] (Fin 2))) None = Some q
    /\ PortfolioSummary.fairValue (calculatePortfolioSummary p (Fin 2))
       = PortfolioDataPoint.portfolioFairValue q.
Proof.
  intros p.
  destruct (portfolio_summary_is_last_point [p] p (Fin 2) eq_refl)
    as (q & Hq & _ & _ & Hfair & _).
  exists q. auto.
Defined.

(** X12: the five scenario prices of a date are the model price and the
    four bands [applyFitToData] gives a point of the same age.  For a
    sigma > 0 and a positive finite fair price they are ordered:
    -2σ <= -1σ <= fair <= +1σ <= +2σ. *)
Theorem scenario_prices_ordered (date : Date) (fit : PowerLawFit.t) (m : R) :
  gtb (PowerLawFit.sigma fit) (Fin 0) = true ->
  getScenarioPrice date fit fair = Fin m -> 0 < m ->
  (forall d : PriceDataPoint.t,
      PriceDataPoint.daysSinceGenesis d = daysSinceGenesis date ->
      getScenarioPrice date fit minus2sigma
      = FittedDataPoint.band2SigmaLower (applyFit fit d)
      /\ getScenarioPrice date fit minus1sigma
         = FittedDataPoint.band1SigmaLower (applyFit fit d)
      /\ getScenarioPrice date fit fair
         = FittedDataPoint.fittedPrice (applyFit fit d)
      /\ getScenarioPrice date fit plus1sigma
         = FittedDataPoint.band1SigmaUpper (applyFit fit d)
      /\ getScenarioPrice date fit plus2sigma
         = FittedDataPoint.band2SigmaUpper (applyFit fit d))
  /\ leb (getScenarioPrice date fit minus2sigma)
         (getScenarioPrice date fit minus1sigma) = true
  /\ leb (getScenarioPrice date fit minus1sigma)
         (getScenarioPrice date fit fair) = true
  /\ leb (getScenarioPrice date fit fair)
         (getScenarioPrice date fit plus1sigma) = true
  /\ leb (getScenarioPrice date fit plus1sigma)
         (getScenarioPrice date fit plus2sigma) = true.
Proof.
  intros Hsigma Hm Hmpos. split.
  - intros d Hd. unfold getScenarioPrice, applyFit.
    cbn [FittedDataPoint.fittedPrice FittedDataPoint.band1SigmaUpper
         FittedDataPoint.band1SigmaLower FittedDataPoint.band2SigmaUpper
         FittedDataPoint.band2SigmaLower].
    rewrite Hd. repeat split.
  - unfold getScenarioPrice in *. rewrite Hm.
    destruct (band_factors (PowerLawFit.sigma fit) m Hsigma Hmpos)
      as (l2 & l1 & -> & -> & Hl2 & Hl1 & [(u1 & u2 & -> & -> & Hu) | (_ & -> & ->)]);
      cbn [leb]; repeat split; try reflexivity; apply Rleb_true; lra.
Qed.

Lemma scenario_prices_ordered_witness :
  leb (getScenarioPrice testDate simple_fit minus2sigma)
      (getScenarioPrice testDate simple_fit minus1sigma) = true
  /\ leb (getScenarioPrice testDate simple_fit plus1sigma)
         (getScenarioPrice testDate simple_fit plus2sigma) = true.
Proof.
  assert (Hdays : daysSinceGenesis testDate = Fin 5842) by reflexivity.
  assert (Hm : getScenarioPrice testDate simple_fit fair = Fin (10 * Rpower 5842 2)).
  { unfold getScenarioPrice. rewrite Hdays. apply powerLawPrice_positive_age. lra. }
  assert (Hpos : 0 < 10 * Rpower 5842 2).
  { apply Rmult_lt_0_compat; [lra | apply exp_pos]. }
  assert (Hsigma : gtb (PowerLawFit.sigma simple_fit) (Fin 0) = true).
  { cbn. apply Rltb_true. lra. }
  destruct (scenario_prices_ordered testDate simple_fit (10 * Rpower 5842 2)
              Hsigma Hm Hpos) as (_ & H1 & _ & _ & H4).
  auto.
Defined.

(* ================================================================== *)
(** * The calendar: day numbers and months *)
(* ================================================================== *)

Local Open Scope Z_scope.

Lemma yoe_range (doe : Z) :
  0 <= doe < 146097 ->
  let yoe := (doe - doe / 1460 + doe / 36524 - doe / 146096) / 365 in
  0 <= yoe < 400 /\ 0 <= doe - (365 * yoe + yoe / 4 - yoe / 100) <= 365.
Proof.
  intros H yoe. subst yoe. Z.div_mod_to_equations. lia.
Qed.

Lemma mp_range (doy : Z) :
  0 <= doy <= 365 ->
  0 <= (5 * doy + 2) / 153 <= 11.
Proof. intros H. Z.div_mod_to_equations. lia. Qed.

(** The civil date of a day number names that day: the calendar functions
    are inverse to each other in this direction too. *)
Lemma days_from_civil_of_days (z : Z) :
  let '(y, m, d) := civil_from_days z in
  days_from_civil y (m + 1) 1 + d - 1 = z /\ 0 <= m <= 11 /\ 1 <= d <= 31
  /\ (0 <= z -> 1970 <= y).
Proof.
  unfold civil_from_days.
  set (z' := z + 719468).
  set (era := z' / 146097).
  set (doe := z' - era * 146097).
  assert (Hdoe : 0 <= doe < 146097).
  { subst doe era. Z.div_mod_to_equations. lia. }
  destruct (yoe_range doe Hdoe) as [Hyoe Hdoy]. cbv zeta in Hyoe, Hdoy.
  set (yoe := (doe - doe / 1460 + doe / 36524 - doe / 146096) / 365) in *.
  set (doy := doe - (365 * yoe + yoe / 4 - yoe / 100)) in *.
  pose proof (mp_range doy Hdoy) as Hmp.
  set (mp := (5 * doy + 2) / 153) in *.
  set (m := if mp <? 10 then mp + 3 else mp - 9).
  assert (Hm : 1 <= m <= 12) by (subst m; destruct (mp <? 10) eqn:E; lia).
  assert (Hd : 1 <= doy - (153 * mp + 2) / 5 + 1 <= 31).
  { subst mp. clearbody doy. clear - Hdoy. Z.div_mod_to_equations. lia. }
  unfold days_from_civil.
  replace (m - 1 + 1) with m by lia.
  set (y' := if m <=? 2 then _ - 1 else _).
  assert (Hy' : y' = yoe + era * 400).
  { subst y'. destruct (m <=? 2); lia. }
  assert (Hmp' : (if m >? 2 then m - 3 else m + 9) = mp).
  { subst m. destruct (mp <? 10) eqn:E.
    - replace (mp + 3 >? 2) with true by (symmetry; apply Z.gtb_lt; lia). lia.
    - replace (mp - 9 >? 2) with false; [lia |].
      symmetry. rewrite Z.gtb_ltb. apply Z.ltb_ge. lia. }
  rewrite Hmp', Hy'.
  assert (Hera : (yoe + era * 400) / 400 = era).
  { clearbody yoe era. clear - Hyoe. Z.div_mod_to_equations. lia. }
  rewrite Hera.
  replace (yoe + era * 400 - era * 400) with yoe by lia.
  split; [subst doy doe z'; lia |].
  split; [lia |]. split; [lia |].
  intros Hz.
  assert (Hera4 : 4 <= era).
  { subst era z'. Z.div_mod_to_equations. lia. }
  assert (Hlate : era = 4 -> 369 <= yoe /\ (yoe = 369 -> 10 <= mp)).
  { intros E. assert (Hdoe' : 135080 <= doe) by (subst doe z'; lia).
    subst mp doy yoe. clearbody doe. clear - Hdoe' Hdoe.
    Z.div_mod_to_equations. lia. }
  subst m. destruct (mp <? 10) eqn:E1.
  - apply Z.ltb_lt in E1.
    replace (mp + 3 <=? 2) with false by (symmetry; apply Z.leb_gt; lia). lia.
  - apply Z.ltb_ge in E1.
    replace (mp - 9 <=? 2) with true by (symmetry; apply Z.leb_le; lia). lia.
Qed.

(** The day number of the first of a month, counted in years that begin
    on the first of March. *)
Lemma days_from_civil_march_based (y m : Z) :
  1 <= m <= 12 ->
  let y' := if m <=? 2 then y - 1 else y in
  let mp := if m >? 2 then m - 3 else m + 9 in
  days_from_civil y m 1
  = y' * 365 + y' / 4 - y' / 100 + y' / 400 + (153 * mp + 2) / 5 - 719468.
Proof.
  intros Hm y' mp. unfold days_from_civil. fold y'. fold mp.
  clearbody y' mp. Z.div_mod_to_equations. lia.
Qed.

(** The extra day of a leap year. *)
Lemma leap_term (y : Z) :
  0 <= y / 4 - (y - 1) / 4 - (y / 100 - (y - 1) / 100) + (y / 400 - (y - 1) / 400) <= 1.
Proof.
  assert (H4 : y / 4 - (y - 1) / 4 = if y mod 4 =? 0 then 1 else 0).
  { destruct (y mod 4 =? 0) eqn:E; [apply Z.eqb_eq in E | apply Z.eqb_neq in E];
      Z.div_mod_to_equations; lia. }
  assert (H100 : y / 100 - (y - 1) / 100 = if y mod 100 =? 0 then 1 else 0).
  { destruct (y mod 100 =? 0) eqn:E; [apply Z.eqb_eq in E | apply Z.eqb_neq in E];
      Z.div_mod_to_equations; lia. }
  assert (H400 : y / 400 - (y - 1) / 400 = if y mod 400 =? 0 then 1 else 0).
  { destruct (y mod 400 =? 0) eqn:E; [apply Z.eqb_eq in E | apply Z.eqb_neq in E];
      Z.div_mod_to_equations; lia. }
  rewrite H4, H100, H400.
  destruct (y mod 4 =? 0) eqn:E4; destruct (y mod 100 =? 0) eqn:E100;
    destruct (y mod 400 =? 0) eqn:E400; try lia;
    repeat match goal with
           | H : (_ =? _) = true |- _ => apply Z.eqb_eq in H
           | H : (_ =? _) = false |- _ => apply Z.eqb_neq in H
           end; Z.div_mod_to_equations; lia.
Qed.

(** Evaluates the comparisons and sums of numerals left in the goal. *)
Ltac eval_numerals :=
  repeat match goal with
         | |- context [Z.leb (Zpos ?a) (Zpos ?b)] =>
             let v := eval cbv in (Z.leb (Zpos a) (Zpos b)) in
             change (Z.leb (Zpos a) (Zpos b)) with v
         | |- context [Z.gtb (Zpos ?a) (Zpos ?b)] =>
             let v := eval cbv in (Z.gtb (Zpos a) (Zpos b)) in
             change (Z.gtb (Zpos a) (Zpos b)) with v
         | |- context [Z.add (Zpos ?a) (Zpos ?b)] =>
             let v := eval cbv in (Z.add (Zpos a) (Zpos b)) in
             change (Z.add (Zpos a) (Zpos b)) with v
         | |- context [Z.sub (Zpos ?a) (Zpos ?b)] =>
             let v := eval cbv in (Z.sub (Zpos a) (Zpos b)) in
             change (Z.sub (Zpos a) (Zpos b)) with v
         end;
  cbv iota.

Lemma next_month_same_year (y m : Z) :
  1 <= m <= 11 ->
  28 <= days_from_civil y (m + 1) 1 - days_from_civil y m 1 <= 31.
Proof.
  intros Hm. rewrite !days_from_civil_march_based by lia. cbv zeta.
  pose proof (leap_term y) as Hleap.
  assert (Hcases : m = 1 \/ m = 2 \/ m = 3 \/ m = 4 \/ m = 5 \/ m = 6 \/ m = 7
                   \/ m = 8 \/ m = 9 \/ m = 10 \/ m = 11) by lia.
  repeat (destruct Hcases as [-> | Hcases]); try subst m; eval_numerals;
    Z.div_mod_to_equations; lia.
Qed.

Lemma january_after_december (y : Z) :
  days_from_civil (y + 1) 1 1 - days_from_civil y 12 1 = 31.
Proof.
  rewrite !days_from_civil_march_based by lia. cbv zeta. eval_numerals.
  replace (y + 1 - 1) with y by lia.
  Z.div_mod_to_equations. lia.
Qed.

(* ================================================================== *)
(** * Midnight timestamps and ages *)
(* ================================================================== *)

Local Open Scope Z_scope.

Lemma normalizeToMidnight_Day (timestamp : Z) :
  0 <= timestamp -> normalizeToMidnight timestamp = Day timestamp * msPerDay.
Proof.
  intros Ht. unfold normalizeToMidnight, Date_UTC.
  unfold getUTCFullYear, getUTCMonth, getUTCDate.
  pose proof (days_from_civil_of_days (Day timestamp)) as H.
  destruct (civil_from_days (Day timestamp)) as [[y m] d].
  destruct H as (Hdays & Hm & Hd & Hy).
  cbn [fst snd].
  assert (Hday : 0 <= Day timestamp).
  { unfold Day, msPerDay. apply Z.div_pos; lia. }
  specialize (Hy Hday).
  replace ((0 <=? y) && (y <=? 99)) with false
    by (symmetry; apply andb_false_iff; right; apply Z.leb_gt; lia).
  rewrite Z.div_small, Z.mod_small by lia.
  replace (y + 0) with y by lia. rewrite Hdays. reflexivity.
Qed.

Lemma genesis_is_midnight : BITCOIN_GENESIS_DATE = 14247 * msPerDay.
Proof. reflexivity. Qed.

Lemma daysSinceGenesis_Day (date : Date) :
  daysSinceGenesis date = of_Z (Day date - 14247).
Proof.
  unfold daysSinceGenesis, getTime, Day. rewrite genesis_is_midnight.
  change (1000 * 60 * 60 * 24) with msPerDay. f_equal.
  unfold msPerDay. Z.div_mod_to_equations. lia.
Qed.

(** X13: from 1970 on, normalising a timestamp floors it to the start of its UTC
    day; it is idempotent and leaves the age in days unchanged. *)
Theorem normalizeToMidnight_floors_to_day (timestamp : Z) :
  0 <= timestamp ->
  normalizeToMidnight timestamp = timestamp / msPerDay * msPerDay
  /\ normalizeToMidnight timestamp <= timestamp < normalizeToMidnight timestamp + msPerDay
  /\ normalizeToMidnight (normalizeToMidnight timestamp) = normalizeToMidnight timestamp
  /\ daysSinceGenesis (normalizeToMidnight timestamp) = daysSinceGenesis timestamp.
Proof.
  intros Ht.
  assert (Hn : normalizeToMidnight timestamp = Day timestamp * msPerDay)
    by (apply normalizeToMidnight_Day; assumption).
  assert (Hday : 0 <= Day timestamp).
  { unfold Day, msPerDay. apply Z.div_pos; lia. }
  split; [exact Hn |]. split; [| split].
  - rewrite Hn. unfold Day, msPerDay. Z.div_mod_to_equations. lia.
  - rewrite Hn at 1. rewrite normalizeToMidnight_Day by (unfold msPerDay; lia).
    rewrite Day_of_midnight. symmetry. exact Hn.
  - rewrite !daysSinceGenesis_Day, Hn, Day_of_midnight. reflexivity.
Qed.

Lemma normalizeToMidnight_floors_to_day_witness :
  normalizeToMidnight 1736902800000 = 1736902800000 / msPerDay * msPerDay.
Proof.
  apply (proj1 (normalizeToMidnight_floors_to_day 1736902800000 ltac:(lia))).
Defined.

(** X14: the age counts whole UTC days from the genesis day, rounding down
    also before it; later dates never have a smaller age. *)
Theorem daysSinceGenesis_counts_days (k r : Z) :
  0 <= r < msPerDay ->
  daysSinceGenesis (BITCOIN_GENESIS_DATE + k * msPerDay + r) = of_Z k
  /\ forall date1 date2,
       date1 <= date2 ->
       leb (daysSinceGenesis date1) (daysSinceGenesis date2) = true.
Proof.
  intros Hr. split.
  - rewrite daysSinceGenesis_Day. f_equal. unfold Day.
    rewrite genesis_is_midnight. unfold msPerDay in *.
    Z.div_mod_to_equations. lia.
  - intros date1 date2 Hle. rewrite !daysSinceGenesis_Day. unfold of_Z. cbn [leb].
    apply Rleb_true. apply IZR_le. unfold Day, msPerDay.
    Z.div_mod_to_equations. lia.
Qed.

Lemma daysSinceGenesis_counts_days_witness :
  daysSinceGenesis (BITCOIN_GENESIS_DATE + 365 * msPerDay + 3600000) = of_Z 365.
Proof.
  apply (proj1 (daysSinceGenesis_counts_days 365 3600000 ltac:(unfold msPerDay; lia))).
Defined.

(** X15: the rows built from midnight timestamps keep the order of the input
    and carry the timestamp both as date and as number. *)
Theorem convertToDataPoints_rows (prices : list (Z * number)) :
  length (convertToDataPoints prices) = length prices
  /\ forall i timestamp price,
       nth_error prices i = Some (timestamp, price) ->
       exists d,
         nth_error (convertToDataPoints prices) i = Some d
         /\ PriceDataPoint.date d = timestamp
         /\ PriceDataPoint.timestamp d = of_Z timestamp
         /\ PriceDataPoint.price d = price
         /\ PriceDataPoint.daysSinceGenesis d = of_Z (timestamp / msPerDay - 14247)
         /\ (is_valid d = true
             <-> gtb price (Fin 0) = true
                 /\ BITCOIN_GENESIS_DATE + msPerDay <= timestamp).
Proof.
  split; [apply length_map |].
  intros i timestamp price Hi. unfold convertToDataPoints.
  exists (PriceDataPoint.mk timestamp (of_Z timestamp) price (daysSinceGenesis timestamp)).
  split; [rewrite (map_nth_error _ _ _ Hi); reflexivity |].
  unfold is_valid.
  cbn [PriceDataPoint.date PriceDataPoint.timestamp PriceDataPoint.price
       PriceDataPoint.daysSinceGenesis].
  rewrite daysSinceGenesis_Day. unfold Day.
  do 4 (split; [reflexivity |]).
  rewrite andb_true_iff.
  assert (Hage : gtb (of_Z (timestamp / msPerDay - 14247)) (Fin 0) = true
                 <-> BITCOIN_GENESIS_DATE + msPerDay <= timestamp).
  { unfold gtb, of_Z. cbn [ltb]. rewrite genesis_is_midnight. split; intros H.
    - apply Rltb_spec in H. apply lt_IZR in H. unfold msPerDay in *.
      Z.div_mod_to_equations. lia.
    - apply Rltb_true. apply IZR_lt. unfold msPerDay in *.
      Z.div_mod_to_equations. lia. }
  rewrite Hage. reflexivity.
Qed.

Lemma convertToDataPoints_rows_witness :
  exists d,
    nth_error (convertToDataPoints [(testDate, Fin 100000)]) 0 = Some d
    /\ PriceDataPoint.price d = Fin 100000.
Proof.
  destruct (proj2 (convertToDataPoints_rows [(testDate, Fin 100000)])
              0%nat testDate (Fin 100000) eq_refl)
    as (d & Hd & _ & _ & Hp & _).
  exists d. auto.
Defined.

(* ================================================================== *)
(** * Price paths: spacing and historical months *)
(* ================================================================== *)

Local Open Scope Z_scope.

(** Consecutive month starts are 28 to 31 days apart. *)
Lemma month_start_step (startDate : Date) (month : Z) :
  28 * msPerDay <= month_start startDate (month + 1) - month_start startDate month
  <= 31 * msPerDay.
Proof.
  unfold month_start, Date_UTC.
  set (yr := if (0 <=? getUTCFullYear startDate) && (getUTCFullYear startDate <=? 99)
             then 1900 + getUTCFullYear startDate else getUTCFullYear startDate).
  set (n := getUTCMonth startDate + month).
  replace (getUTCMonth startDate + (month + 1)) with (n + 1) by (subst n; lia).
  assert (Hstep : 28 <= days_from_civil (yr + (n + 1) / 12) ((n + 1) mod 12 + 1) 1
                        - days_from_civil (yr + n / 12) (n mod 12 + 1) 1 <= 31).
  { destruct (Z.eq_dec (n mod 12) 11) as [E | E].
    - replace ((n + 1) / 12) with (n / 12 + 1) by (Z.div_mod_to_equations; lia).
      replace ((n + 1) mod 12) with 0 by (Z.div_mod_to_equations; lia).
      rewrite E. replace (yr + (n / 12 + 1)) with (yr + n / 12 + 1) by lia.
      change (0 + 1) with 1. change (11 + 1) with 12.
      rewrite january_after_december. lia.
    - replace ((n + 1) / 12) with (n / 12) by (Z.div_mod_to_equations; lia).
      replace ((n + 1) mod 12) with (n mod 12 + 1) by (Z.div_mod_to_equations; lia).
      apply next_month_same_year.
      pose proof (Z.mod_pos_bound n 12). lia. }
  unfold msPerDay. lia.
Qed.

Lemma month_start_monotone (startDate : Date) (k : nat) :
  month_start startDate 0 + 28 * msPerDay * Z.of_nat k
  <= month_start startDate (Z.of_nat k).
Proof.
  induction k as [| k IH].
  - change (Z.of_nat 0) with 0. lia.
  - pose proof (month_start_step startDate (Z.of_nat k)) as H.
    replace (Z.of_nat (S k)) with (Z.of_nat k + 1) by lia.
    unfold msPerDay in *. lia.
Qed.

Lemma Some_eq {T : Type} (x y : T) : Some x = Some y -> x = y.
Proof. intros H. injection H as ->. reflexivity. Qed.

Lemma generateMixedPricePath_nth (now startDate : Date) (projectionYears : Z)
    (fit : PowerLawFit.t) (scenario : PriceScenario)
    (historicalData : list HistoricalPricePoint.t) (k : nat) :
  (k < Z.to_nat (projectionYears * 12 + 1))%nat ->
  nth_error (generateMixedPricePath now startDate projectionYears fit scenario
               historicalData) k
  = Some (let date := month_start startDate (Z.of_nat k) in
          match historical_map historicalData !! month_key date with
          | Some historicalPrice =>
              if date <=? Date_UTC (getUTCFullYear now) (getUTCMonth now) 1
              then PathPoint.mk date historicalPrice false
              else PathPoint.mk date (getScenarioPrice date fit scenario) true
          | None => PathPoint.mk date (getScenarioPrice date fit scenario) true
          end).
Proof.
  intros Hk. unfold generateMixedPricePath.
  rewrite nth_error_map, month_range_nth by assumption. reflexivity.
Qed.

Lemma select_price_path_date (now : Date) (config : BBDSimulatorConfig.t)
    (fit : PowerLawFit.t) (startDate : Date)
    (historicalData : option (list HistoricalPricePoint.t))
    (k : nat) (p : PathPoint.t) :
  nth_error (select_price_path now config fit startDate historicalData) k = Some p ->
  PathPoint.date p = month_start startDate (Z.of_nat k).
Proof.
  intros Hk.
  assert (Hlt : (k < Z.to_nat (BBDSimulatorConfig.projectionYears config * 12 + 1))%nat).
  { rewrite <- (select_price_path_length now config fit startDate historicalData).
    apply nth_error_Some. congruence. }
  unfold select_price_path in Hk.
  destruct historicalData as [[| h data] |].
  - rewrite generatePricePath_nth in Hk by assumption. injection Hk as <-. reflexivity.
  - rewrite generateMixedPricePath_nth in Hk by assumption.
    apply Some_eq in Hk. subst p. cbv zeta.
    destruct (historical_map _ !! _) as [price |]; [destruct (_ <=? _) |]; reflexivity.
  - rewrite generatePricePath_nth in Hk by assumption. injection Hk as <-. reflexivity.
Qed.

(** X16: whichever path the simulation runs on, consecutive points are dated
    on the first of consecutive months, 28 to 31 days apart. *)
Theorem price_path_monthly_spacing (now : Date) (config : BBDSimulatorConfig.t)
    (fit : PowerLawFit.t) (startDate : Date)
    (historicalData : option (list HistoricalPricePoint.t))
    (k : nat) (p q : PathPoint.t) :
  nth_error (select_price_path now config fit startDate historicalData) k = Some p ->
  nth_error (select_price_path now config fit startDate historicalData) (S k) = Some q ->
  28 * msPerDay <= PathPoint.date q - PathPoint.date p <= 31 * msPerDay
  /\ getUTCDate (PathPoint.date p) = 1
  /\ getUTCDate (PathPoint.date q) = 1
  /\ getUTCMonth (PathPoint.date q) = (getUTCMonth (PathPoint.date p) + 1) mod 12.
Proof.
  intros Hp Hq.
  apply select_price_path_date in Hp. apply select_price_path_date in Hq.
  rewrite Hp, Hq.
  replace (Z.of_nat (S k)) with (Z.of_nat k + 1) by lia.
  split; [apply month_start_step |].
  unfold month_start.
  destruct (Date_UTC_read_back (getUTCFullYear startDate)
              (getUTCMonth startDate + Z.of_nat k)) as (_ & Hm1 & Hd1).
  destruct (Date_UTC_read_back (getUTCFullYear startDate)
              (getUTCMonth startDate + (Z.of_nat k + 1))) as (_ & Hm2 & Hd2).
  rewrite Hm1, Hm2, Hd1, Hd2. repeat split.
  rewrite Z.add_assoc. rewrite <- Zplus_mod_idemp_l. reflexivity.
Qed.

Lemma price_path_monthly_spacing_witness :
  exists p q,
    nth_error (select_price_path testDate baseConfig mockFit testDate None) 0 = Some p
    /\ nth_error (select_price_path testDate baseConfig mockFit testDate None) 1 = Some q
    /\ 28 * msPerDay <= PathPoint.date q - PathPoint.date p <= 31 * msPerDay.
Proof.
  assert (Hpath : select_price_path testDate baseConfig mockFit testDate None
                  = generatePricePath testDate 5 mockFit fair) by reflexivity.
  pose proof (generatePricePath_nth testDate 5 mockFit fair 0 ltac:(cbn; lia)) as Hp.
  pose proof (generatePricePath_nth testDate 5 mockFit fair 1 ltac:(cbn; lia)) as Hq.
  rewrite <- Hpath in Hp, Hq.
  eexists. eexists. split; [exact Hp |]. split; [exact Hq |].
  exact (proj1 (price_path_monthly_spacing _ _ _ _ _ _ _ _ Hp Hq)).
Defined.


(** ** The historical months of the mixed path *)

Local Open Scope Z_scope.

Lemma historical_map_snoc (l : list HistoricalPricePoint.t) (h : HistoricalPricePoint.t) :
  historical_map (l ++ [h])
  = <[month_key (HistoricalPricePoint.date h) := HistoricalPricePoint.price h]>
      (historical_map l).
Proof. unfold historical_map. rewrite fold_left_app. reflexivity. Qed.

(** The price stored for a month is that of the last historical point
    falling in that month. *)
Lemma historical_map_lookup (historicalData : list HistoricalPricePoint.t)
    (key : string) (price : number) :
  historical_map historicalData !! key = Some price
  <-> exists before h after,
        historicalData = before ++ h :: after
        /\ month_key (HistoricalPricePoint.date h) = key
        /\ HistoricalPricePoint.price h = price
        /\ Forall (fun h' => month_key (HistoricalPricePoint.date h') <> key) after.
Proof.
  revert price. induction historicalData as [| h l IH] using rev_ind; intros price.
  - split.
    + unfold historical_map. cbn. rewrite lookup_empty. discriminate.
    + intros (before & h & after & H & _). destruct before; discriminate.
  - rewrite historical_map_snoc.
    destruct (String.eqb_spec (month_key (HistoricalPricePoint.date h)) key) as [E | E].
    + rewrite E, lookup_insert_eq. split.
      * intros H. injection H as <-. exists l, h, []. auto.
      * intros (before & h' & after & Hl & Hk & Hp & Hafter).
        destruct after as [| a after] using rev_ind.
        -- apply app_inj_tail in Hl. destruct Hl as [_ ->]. congruence.
        -- rewrite app_comm_cons, app_assoc in Hl.
           apply app_inj_tail in Hl. destruct Hl as [_ ->].
           apply Forall_app in Hafter. destruct Hafter as [_ Ha].
           inversion Ha; subst. contradiction.
    + rewrite lookup_insert_ne by assumption. rewrite IH. split.
      * intros (before & h' & after & -> & Hk & Hp & Hafter).
        exists before, h', (after ++ [h]). rewrite <- app_assoc.
        repeat split; try assumption.
        apply Forall_app. split; [assumption |]. constructor; [assumption | constructor].
      * intros (before & h' & after & Hl & Hk & Hp & Hafter).
        destruct after as [| a after _] using rev_ind.
        -- apply app_inj_tail in Hl. destruct Hl as [_ ->]. contradiction.
        -- rewrite app_comm_cons, app_assoc in Hl.
           apply app_inj_tail in Hl. destruct Hl as [-> ->].
           apply Forall_app in Hafter. destruct Hafter as [Hafter _].
           exists before, h', after. auto.
Qed.

(** X18: every point of the mixed path is either a projection priced by the
    scenario, or a month not after the clock's month that carries the price
    of the last historical point in it. *)
Theorem mixed_path_points (now startDate : Date) (projectionYears : Z)
    (fit : PowerLawFit.t) (scenario : PriceScenario)
    (historicalData : list HistoricalPricePoint.t) (k : nat) (p : PathPoint.t) :
  nth_error (generateMixedPricePath now startDate projectionYears fit scenario
               historicalData) k = Some p ->
  PathPoint.date p = month_start startDate (Z.of_nat k)
  /\ (PathPoint.isProjection p = true ->
      PathPoint.price p = getScenarioPrice (PathPoint.date p) fit scenario)
  /\ (PathPoint.isProjection p = false <->
      PathPoint.date p <= Date_UTC (getUTCFullYear now) (getUTCMonth now) 1
      /\ exists h, In h historicalData
                   /\ month_key (HistoricalPricePoint.date h) = month_key (PathPoint.date p))
  /\ (PathPoint.isProjection p = false ->
      exists before h after,
        historicalData = before ++ h :: after
        /\ month_key (HistoricalPricePoint.date h) = month_key (PathPoint.date p)
        /\ Forall (fun h' => month_key (HistoricalPricePoint.date h')
                             <> month_key (PathPoint.date p)) after
        /\ PathPoint.price p = HistoricalPricePoint.price h).
Proof.
  intros Hk.
  assert (Hlt : (k < Z.to_nat (projectionYears * 12 + 1))%nat).
  { rewrite <- (generateMixedPricePath_length now startDate projectionYears fit
                  scenario historicalData).
    apply nth_error_Some. congruence. }
  rewrite generateMixedPricePath_nth in Hk by assumption.
  apply Some_eq in Hk. subst p. cbv zeta.
  set (date := month_start startDate (Z.of_nat k)).
  set (todayMonth := Date_UTC (getUTCFullYear now) (getUTCMonth now) 1).
  destruct (historical_map historicalData !! month_key date) as [price |] eqn:Hlook.
  - pose proof (proj1 (historical_map_lookup _ _ _) Hlook)
      as (before & h & after & Hdata & Hkey & Hprice & Hafter).
    destruct (date <=? todayMonth) eqn:Hle; cbn [PathPoint.date PathPoint.price
      PathPoint.isProjection].
    + apply Z.leb_le in Hle. split; [reflexivity |]. split; [discriminate |]. split.
      * split; [| reflexivity]. intros _. split; [assumption |].
        exists h. split; [| assumption]. rewrite Hdata. apply in_elt.
      * intros _. exists before, h, after. auto.
    + apply Z.leb_gt in Hle. split; [reflexivity |]. split; [reflexivity |]. split.
      * split; [discriminate |]. intros [H _]. lia.
      * discriminate.
  - cbn [PathPoint.date PathPoint.price PathPoint.isProjection].
    split; [reflexivity |]. split; [reflexivity |]. split.
    + split; [discriminate |]. intros (_ & h & Hin & Hkey). exfalso.
      assert (Hex : exists price, historical_map historicalData !! month_key date = Some price).
      { clear Hlook. induction historicalData as [| h' l IH] using rev_ind; [contradiction |].
        rewrite historical_map_snoc.
        destruct (String.eqb_spec (month_key (HistoricalPricePoint.date h')) (month_key date))
          as [E | E].
        - rewrite E, lookup_insert_eq. eauto.
        - rewrite lookup_insert_ne by assumption. apply IH.
          apply in_app_or in Hin. destruct Hin as [Hin | [-> | []]]; [assumption | contradiction]. }
      destruct Hex as [price Hex]. congruence.
    + discriminate.
Qed.

Lemma mixed_path_points_witness :
  exists p,
    nth_error (generateMixedPricePath clock_2025_06 testDate 5 mockFit fair
                 january_history) 0 = Some p
    /\ PathPoint.date p = month_start testDate 0.
Proof.
  pose proof (generateMixedPricePath_nth clock_2025_06 testDate 5 mockFit fair
                january_history 0 ltac:(cbn; lia)) as Hp.
  eexists. split; [exact Hp |].
  exact (proj1 (mixed_path_points _ _ _ _ _ _ _ _ Hp)).
Defined.

(** X19: without historical points, or when the path starts after the clock's
    month, the mixed path is the projected path. *)
Theorem mixed_path_without_history (now startDate : Date) (projectionYears : Z)
    (fit : PowerLawFit.t) (scenario : PriceScenario)
    (historicalData : list HistoricalPricePoint.t) :
  historicalData = []
  \/ Date_UTC (getUTCFullYear now) (getUTCMonth now) 1 < month_start startDate 0 ->
  generateMixedPricePath now startDate projectionYears fit scenario historicalData
  = generatePricePath startDate projectionYears fit scenario.
Proof.
  intros H. unfold generateMixedPricePath, generatePricePath.
  apply map_ext_in. intros month Hmonth.
  unfold month_range in Hmonth. apply in_map_iff in Hmonth.
  destruct Hmonth as (k & <- & _).
  destruct H as [-> | Hlate].
  - unfold historical_map. cbn [fold_left]. rewrite lookup_empty. reflexivity.
  - destruct (historical_map _ !! _) as [price |]; [| reflexivity].
    pose proof (month_start_monotone startDate k) as Hmono.
    replace (_ <=? _) with false; [reflexivity |].
    symmetry. apply Z.leb_gt. unfold msPerDay in Hmono. lia.
Qed.

Lemma mixed_path_without_history_witness :
  generateMixedPricePath clock_2025_06 testDate 5 mockFit fair []
  = generatePricePath testDate 5 mockFit fair.
Proof.
  apply mixed_path_without_history. left. reflexivity.
Defined.

(* ================================================================== *)
(** * The simulation: balances, totals, summary *)
(* ================================================================== *)

Local Open Scope Z_scope.

Section Balance.

Variable config : BBDSimulatorConfig.t.
Variables monthlyInterestRate liquidationLtv : number.

Local Abbreviation body := (loop_body config monthlyInterestRate liquidationLtv).
Local Abbreviation loop := (sim_loop config monthlyInterestRate liquidationLtv).

Lemma loop_body_monthly_update (i : Z) (point : PathPoint.t) (st : SimState.t) :
  SimState.loanBalance (body i point st)
  = monthly_update config monthlyInterestRate i (SimState.loanBalance st).
Proof. apply loop_body_loanBalance. Qed.

Lemma monthly_update_0 (balance : number) :
  monthly_update config monthlyInterestRate 0 balance = balance.
Proof. unfold monthly_update. cbn. rewrite andb_false_r. reflexivity. Qed.

Lemma balance_after_S (b0 : number) (k : nat) :
  balance_after config monthlyInterestRate b0 (S k)
  = monthly_update config monthlyInterestRate (Z.of_nat (S k))
      (balance_after config monthlyInterestRate b0 k).
Proof.
  unfold balance_after. rewrite seq_S, map_app, fold_left_app. reflexivity.
Qed.

(** The balance recorded at index [k] depends on the initial balance and
    on [k] only. *)
Lemma sim_loop_balance (rest : list PathPoint.t) (st0 : SimState.t) :
  SimState.isLiquidated st0 = false ->
  SimState.steps st0 = [] ->
  forall k s,
    nth_error (SimState.steps (loop 0 rest st0)) k = Some s ->
    BBDMonthlyStep.loanBalance s
    = balance_after config monthlyInterestRate (SimState.loanBalance st0) k.
Proof.
  intros Hnot Hnil k s Hk.
  pose (b0 := SimState.loanBalance st0).
  assert (Q : BBDMonthlyStep.loanBalance s
              = balance_after config monthlyInterestRate b0 (Z.to_nat (Z.of_nat k))).
  { revert k s Hk.
    apply (sim_loop_rule config monthlyInterestRate liquidationLtv
             (fun i st => SimState.loanBalance st
                          = balance_after config monthlyInterestRate b0 (Z.to_nat (i - 1)))
             (fun i s => BBDMonthlyStep.loanBalance s
                         = balance_after config monthlyInterestRate b0 (Z.to_nat i))).
    - intros i point st s Hi HInv _ Hs.
      destruct (loop_body_step config monthlyInterestRate liquidationLtv i point st s Hs)
        as (_ & _ & Hl & _).
      rewrite Hl, loop_body_monthly_update, HInv.
      replace (Z.to_nat (i + 1 - 1)) with (Z.to_nat i) by lia.
      assert (E : monthly_update config monthlyInterestRate i
                    (balance_after config monthlyInterestRate b0 (Z.to_nat (i - 1)))
                  = balance_after config monthlyInterestRate b0 (Z.to_nat i)).
      { destruct (Z.eq_dec i 0) as [-> | Hpos].
        - apply monthly_update_0.
        - replace (Z.to_nat i) with (S (Z.to_nat (i - 1))) by lia.
          rewrite balance_after_S. f_equal. lia. }
      rewrite E. split; reflexivity.
    - lia.
    - reflexivity.
    - assumption.
    - rewrite Hnil. reflexivity.
    - rewrite Hnil. intros k s H. destruct k; discriminate. }
  rewrite Nat2Z.id in Q. exact Q.
Qed.

(** What one iteration records as interest paid. *)
Lemma loop_body_interest (i : Z) (point : PathPoint.t) (st : SimState.t)
    (s : BBDMonthlyStep.t) :
  SimState.steps (body i point st) = SimState.steps st ++ [s] ->
  BBDMonthlyStep.interestPaidThisMonth s
  = if 0 <? i then
      match BBDSimulatorConfig.interestMode config with
      | capitalize => Fin 0
      | pay_monthly => mul (BBDMonthlyStep.loanBalance s) monthlyInterestRate
      end
    else Fin 0.
Proof.
  unfold loop_body. split_conditionals; cbn; intros Happ;
    apply app_inv_head in Happ; injection Happ as <-; reflexivity.
Qed.

(** [totalBorrowed] grows by exactly what the step records as borrowed. *)
Lemma loop_body_total_borrowed (i : Z) (point : PathPoint.t) (st : SimState.t)
    (s : BBDMonthlyStep.t) :
  SimState.steps (body i point st) = SimState.steps st ++ [s] ->
  SimState.totalBorrowed (body i point st)
  = add (SimState.totalBorrowed st) (BBDMonthlyStep.borrowedThisMonth s).
Proof.
  unfold loop_body. split_conditionals; cbn; intros Happ;
    apply app_inv_head in Happ; injection Happ as <-; cbn;
    rewrite ?add_0_r; reflexivity.
Qed.


End Balance.


(** ** Run-level statements *)

Lemma last_app_singleton {T : Type} (l : list T) (d : T) :
  l <> [] -> exists before final, l = before ++ [final] /\ List.last l d = final.
Proof.
  intros Hne. destruct (exists_last Hne) as (before & final & ->).
  exists before, final. split; [reflexivity | apply last_last].
Qed.

(** The summary, field by field, from the final state of the loop. *)
Lemma summarize_fields (config : BBDSimulatorConfig.t) (st : SimState.t)
    (result : BBDSimulationResult.t) :
  summarize config st = Return result ->
  exists firstStep,
    nth_error (SimState.steps st) 0 = Some firstStep
    /\ BBDSimulationResult.steps result = SimState.steps st
    /\ BBDSimulationResult.summary result
       = let lastStep := List.last (SimState.steps st) firstStep in
         let final (field : BBDMonthlyStep.t -> number) :=
           if SimState.isLiquidated st then None else Some (field lastStep) in
         BBDSimulationSummary.mk
           (BBDMonthlyStep.collateralValue firstStep)
           (final BBDMonthlyStep.collateralValue)
           (BBDMonthlyStep.loanBalance firstStep)
           (final BBDMonthlyStep.loanBalance)
           (BBDMonthlyStep.ltv firstStep)
           (final BBDMonthlyStep.ltv)
           (BBDMonthlyStep.netEquity firstStep)
           (final BBDMonthlyStep.netEquity)
           (SimState.totalInterestPaid st)
           (SimState.totalBorrowed st)
           (SimState.isLiquidated st)
           (SimState.liquidationMonth st)
           (SimState.liquidationMonth st).
Proof.
  unfold summarize.
  destruct (SimState.steps st) as [| firstStep others] eqn:Hsteps; [discriminate |].
  intros H. apply (f_equal (fun c => match c with Return r => Some r | Throw _ => None end)) in H.
  injection H as <-. exists firstStep. repeat split.
Qed.

(** The first recorded step carries the balance the loop was entered with. *)
Lemma run_initial_balance (now : Date) (config : BBDSimulatorConfig.t)
    (fit : PowerLawFit.t) (startDate : Date)
    (historicalData : option (list HistoricalPricePoint.t))
    (result : BBDSimulationResult.t) :
  runBBDSimulation now config fit startDate historicalData = Return result ->
  exists st0,
    initial_state config (select_price_path now config fit startDate historicalData)
    = Return st0
    /\ BBDSimulationSummary.initialLoanBalance (BBDSimulationResult.summary result)
       = SimState.loanBalance st0
    /\ BBDSimulationResult.steps result
       = SimState.steps
           (sim_loop config
              (div (div (BBDSimulatorConfig.interestAprPercent config) (Fin 100)) (Fin 12))
              (div (BBDSimulatorConfig.liquidationLtvPercent config) (Fin 100))
              0 (select_price_path now config fit startDate historicalData) st0).
Proof.
  intros Hrun.
  destruct (runBBDSimulation_Return _ _ _ _ _ _ Hrun) as (st0 & Hinit & Hsum).
  destruct (initial_state_Return _ _ _ Hinit) as (Hnot & _ & Hnil & _).
  destruct (summarize_fields _ _ _ Hsum) as (firstStep & Hfirst & Hsteps & Hsummary).
  exists st0. split; [assumption |]. split; [| assumption].
  rewrite Hsummary. cbn [BBDSimulationSummary.initialLoanBalance].
  rewrite (sim_loop_balance _ _ _ _ _ Hnot Hnil 0%nat firstStep Hfirst).
  reflexivity.
Qed.

(** X20: the loan balance of every step is fixed by the configuration, the
    initial loan and the step's index: prices decide only where the run
    stops. *)
Theorem loan_balance_ignores_prices (now : Date) (config : BBDSimulatorConfig.t)
    (fit : PowerLawFit.t) (startDate : Date)
    (historicalData : option (list HistoricalPricePoint.t))
    (result : BBDSimulationResult.t) (k : nat) (s : BBDMonthlyStep.t) :
  runBBDSimulation now config fit startDate historicalData = Return result ->
  nth_error (BBDSimulationResult.steps result) k = Some s ->
  BBDMonthlyStep.loanBalance s
  = balance_after config
      (div (div (BBDSimulatorConfig.interestAprPercent config) (Fin 100)) (Fin 12))
      (BBDSimulationSummary.initialLoanBalance (BBDSimulationResult.summary result))
      k
  /\ (BBDSimulatorConfig.borrowMonthly config = true ->
      BBDSimulationSummary.initialLoanBalance (BBDSimulationResult.summary result)
      = Fin 0).
Proof.
  intros Hrun Hk.
  destruct (run_initial_balance _ _ _ _ _ _ Hrun) as (st0 & Hinit & Hb0 & Hsteps).
  destruct (initial_state_Return _ _ _ Hinit) as (Hnot & _ & Hnil & _).
  rewrite Hsteps in Hk. split.
  - rewrite Hb0. apply (sim_loop_balance _ _ _ _ _ Hnot Hnil k s Hk).
  - intros Hb. rewrite Hb0.
    rewrite initial_state_borrow_mode in Hinit by assumption.
    apply (f_equal (fun c => match c with Return r => Some r | Throw _ => None end)) in Hinit.
    injection Hinit as <-. reflexivity.
Qed.

(** In borrow mode with a positive liquidation threshold and a horizon of
    a year or more, months 0 and 1 are always recorded: the balance of
    month 0 is zero and cannot liquidate. *)
Lemma borrow_mode_first_two_steps (now : Date) (config : BBDSimulatorConfig.t)
    (fit : PowerLawFit.t) (startDate : Date)
    (historicalData : option (list HistoricalPricePoint.t)) :
  BBDSimulatorConfig.borrowMonthly config = true ->
  geb (Fin 0) (div (BBDSimulatorConfig.liquidationLtvPercent config) (Fin 100)) = false ->
  1 <= BBDSimulatorConfig.projectionYears config ->
  exists result s0 s1,
    runBBDSimulation now config fit startDate historicalData = Return result
    /\ nth_error (BBDSimulationResult.steps result) 0 = Some s0
    /\ nth_error (BBDSimulationResult.steps result) 1 = Some s1.
Proof.
  intros Hb Hliq Hyears.
  destruct (runBBDSimulation_total now config fit startDate historicalData)
    as [result Hrun]; [lia |].
  destruct (runBBDSimulation_Return _ _ _ _ _ _ Hrun) as (st0 & Hinit & Hsum).
  rewrite initial_state_borrow_mode in Hinit by assumption.
  apply (f_equal (fun c => match c with Return r => Some r | Throw _ => None end)) in Hinit.
  apply Some_eq in Hinit. subst st0.
  destruct (summarize_Return _ _ _ Hsum) as (_ & Hsteps & _).
  pose proof (select_price_path_length now config fit startDate historicalData) as Hlen.
  destruct (select_price_path now config fit startDate historicalData)
    as [| p0 [| p1 rest]]; cbn [length] in Hlen; try lia.
  set (st0 := SimState.mk (Fin 0) (Fin 0) (Fin 0) false None []) in *.
  set (rate := div (div (BBDSimulatorConfig.interestAprPercent config) (Fin 100)) (Fin 12)) in *.
  set (liq := div (BBDSimulatorConfig.liquidationLtvPercent config) (Fin 100)) in *.
  assert (Hfirst : SimState.isLiquidated (loop_body config rate liq 0 p0 st0) = false).
  { apply zero_balance_not_liquidated; [reflexivity | | assumption].
    rewrite loop_body_monthly_update. apply monthly_update_0. }
  destruct (sim_loop_two_steps config rate liq p0 p1 rest st0 eq_refl Hfirst)
    as (s0 & s1 & Hs0 & Hs1).
  exists result, s0, s1. rewrite Hsteps. auto.
Qed.

Lemma loan_balance_ignores_prices_witness :
  exists result s1,
    runBBDSimulation testDate baseConfig mockFit testDate None = Return result
    /\ nth_error (BBDSimulationResult.steps result) 1 = Some s1
    /\ BBDMonthlyStep.loanBalance s1
       = balance_after baseConfig (div (div (Fin 10) (Fin 100)) (Fin 12))
           (BBDSimulationSummary.initialLoanBalance (BBDSimulationResult.summary result))
           1.
Proof.
  assert (Hliq : geb (Fin 0) (div (Fin 80) (Fin 100)) = false).
  { rewrite reference_threshold. cbn. apply Rleb_false. lra. }
  destruct (borrow_mode_first_two_steps testDate baseConfig mockFit testDate None
              eq_refl Hliq ltac:(cbn; lia))
    as (result & s0 & s1 & Hrun & _ & Hs1).
  exists result, s1. split; [exact Hrun |]. split; [exact Hs1 |].
  exact (proj1 (loan_balance_ignores_prices _ _ _ _ _ _ _ _ Hrun Hs1)).
Defined.

Local Open Scope R_scope.

(** X21: interest is paid by the month only in the pay-monthly mode.  The
    step of month 0 pays nothing; a later step pays nothing when interest
    is capitalised, and its recorded balance times the monthly rate
    (interestAprPercent / 100 / 12) when interest is paid monthly.  With
    capitalised interest the total of interest paid stays 0. *)
Theorem interest_follows_mode (now : Date) (config : BBDSimulatorConfig.t)
    (fit : PowerLawFit.t) (startDate : Date)
    (historicalData : option (list HistoricalPricePoint.t))
    (result : BBDSimulationResult.t) (k : nat) (s : BBDMonthlyStep.t) :
  runBBDSimulation now config fit startDate historicalData = Return result ->
  nth_error (BBDSimulationResult.steps result) k = Some s ->
  BBDMonthlyStep.interestPaidThisMonth s
  = (if (0 <? Z.of_nat k)%Z then
       match BBDSimulatorConfig.interestMode config with
       | capitalize => Fin 0
       | pay_monthly =>
           mul (BBDMonthlyStep.loanBalance s)
               (div (div (BBDSimulatorConfig.interestAprPercent config) (Fin 100))
                    (Fin 12))
       end
     else Fin 0)
  /\ (BBDSimulatorConfig.interestMode config = capitalize ->
      BBDSimulationSummary.totalInterestPaid (BBDSimulationResult.summary result)
      = Fin 0).
Proof.
  intros Hrun Hk.
  destruct (runBBDSimulation_Return _ _ _ _ _ _ Hrun) as (st0 & Hinit & Hsum).
  destruct (initial_state_Return _ _ _ Hinit) as (Hnot & _ & Hnil & Hzero & _).
  destruct (summarize_Return _ _ _ Hsum) as (_ & Hsteps & _ & _ & Htotal & _).
  split.
  - rewrite Hsteps in Hk. revert k s Hk.
    apply (sim_loop_rule config _ _ (fun _ _ => True)
             (fun i s =>
                BBDMonthlyStep.interestPaidThisMonth s
                = if (0 <? i)%Z then
                    match BBDSimulatorConfig.interestMode config with
                    | capitalize => Fin 0
                    | pay_monthly =>
                        mul (BBDMonthlyStep.loanBalance s)
                            (div (div (BBDSimulatorConfig.interestAprPercent config)
                                      (Fin 100)) (Fin 12))
                    end
                  else Fin 0)); auto; try lia.
    + intros i point st s _ _ _ Hs. split; [| exact I].
      apply (loop_body_interest _ _ _ _ _ _ _ Hs).
    + rewrite Hnil. reflexivity.
    + rewrite Hnil. intros k s H. destruct k; discriminate.
  - intros Hmode. rewrite Htotal.
    apply (sim_loop_state_rule config _ _
             (fun st => SimState.totalInterestPaid st = Fin 0)); [| assumption].
    intros i point st Hst. unfold loop_body. rewrite Hmode.
    split_conditionals; cbn; assumption.
Qed.

Lemma interest_follows_mode_witness :
  exists result s1,
    runBBDSimulation testDate pay_monthly_config mockFit testDate None = Return result
    /\ nth_error (BBDSimulationResult.steps result) 1 = Some s1
    /\ BBDMonthlyStep.interestPaidThisMonth s1
       = mul (BBDMonthlyStep.loanBalance s1) (div (div (Fin 10) (Fin 100)) (Fin 12)).
Proof.
  assert (Hliq : geb (Fin 0) (div (Fin 80) (Fin 100)) = false).
  { rewrite reference_threshold. cbn. apply Rleb_false. lra. }
  destruct (borrow_mode_first_two_steps testDate pay_monthly_config mockFit testDate None
              eq_refl Hliq ltac:(cbn; lia))
    as (result & s0 & s1 & Hrun & _ & Hs1).
  exists result, s1. split; [exact Hrun |]. split; [exact Hs1 |].
  exact (proj1 (interest_follows_mode _ _ _ _ _ _ _ _ Hrun Hs1)).
Defined.


Local Open Scope Z_scope.

Lemma nth_error_Some_length {T : Type} (l : list T) (k : nat) (x : T) :
  nth_error l k = Some x -> (k < length l)%nat.
Proof. intros H. apply nth_error_Some. congruence. Qed.

(** X22: [totalBorrowed] is the initial loan plus everything the steps record
    as borrowed, and [totalInterestPaid] is everything they record as paid. *)
Theorem totals_are_sums_of_steps (now : Date) (config : BBDSimulatorConfig.t)
    (fit : PowerLawFit.t) (startDate : Date)
    (historicalData : option (list HistoricalPricePoint.t))
    (result : BBDSimulationResult.t) :
  runBBDSimulation now config fit startDate historicalData = Return result ->
  BBDSimulationSummary.totalBorrowed (BBDSimulationResult.summary result)
  = fold_left add
      (map BBDMonthlyStep.borrowedThisMonth (BBDSimulationResult.steps result))
      (BBDSimulationSummary.initialLoanBalance (BBDSimulationResult.summary result))
  /\ BBDSimulationSummary.totalInterestPaid (BBDSimulationResult.summary result)
     = fold_left add
         (map BBDMonthlyStep.interestPaidThisMonth (BBDSimulationResult.steps result))
         (Fin 0).
Proof.
  intros Hrun. split; [| apply (total_interest_is_sum _ _ _ _ _ _ Hrun)].
  destruct (run_initial_balance _ _ _ _ _ _ Hrun) as (st0 & Hinit & Hb0 & Hsteps).
  destruct (runBBDSimulation_Return _ _ _ _ _ _ Hrun) as (st0' & Hinit' & Hsum).
  rewrite Hinit in Hinit'.
  apply (f_equal (fun c => match c with Return r => Some r | Throw _ => None end)) in Hinit'.
  injection Hinit' as <-.
  destruct (initial_state_Return _ _ _ Hinit) as (_ & _ & Hnil & _ & Htb).
  destruct (summarize_Return _ _ _ Hsum) as (_ & _ & _ & _ & _ & ->).
  rewrite Hsteps, Hb0.
  apply (sim_loop_state_rule config _ _
           (fun st => SimState.totalBorrowed st
                      = fold_left add
                          (map BBDMonthlyStep.borrowedThisMonth (SimState.steps st))
                          (SimState.loanBalance st0))).
  - intros i point st HJ.
    destruct (loop_body_appends config
                (div (div (BBDSimulatorConfig.interestAprPercent config) (Fin 100)) (Fin 12))
                (div (BBDSimulatorConfig.liquidationLtvPercent config) (Fin 100))
                i point st) as (s & Hs & _).
    rewrite (loop_body_total_borrowed _ _ _ _ _ _ _ Hs), Hs, HJ.
    rewrite map_app, fold_left_app. reflexivity.
  - rewrite Hnil, Htb. reflexivity.
Qed.

Lemma totals_are_sums_of_steps_witness :
  exists result,
    runBBDSimulation testDate baseConfig mockFit testDate None = Return result
    /\ BBDSimulationSummary.totalBorrowed (BBDSimulationResult.summary result)
       = fold_left add
           (map BBDMonthlyStep.borrowedThisMonth (BBDSimulationResult.steps result))
           (BBDSimulationSummary.initialLoanBalance (BBDSimulationResult.summary result)).
Proof.
  destruct (runBBDSimulation_total testDate baseConfig mockFit testDate None)
    as [result Hrun]; [cbn; lia |].
  exists result. split; [exact Hrun |].
  exact (proj1 (totals_are_sums_of_steps _ _ _ _ _ _ Hrun)).
Defined.



(** X24: the summary against the steps: the initial values are those of the
    first step; the flag is the last step's; after a liquidation the final
    values are [null] and the liquidation month is the last step's month;
    otherwise the final values are the last step's and the run covers the
    whole horizon. *)
Theorem summary_matches_steps (now : Date) (config : BBDSimulatorConfig.t)
    (fit : PowerLawFit.t) (startDate : Date)
    (historicalData : option (list HistoricalPricePoint.t))
    (result : BBDSimulationResult.t) :
  runBBDSimulation now config fit startDate historicalData = Return result ->
  let steps := BBDSimulationResult.steps result in
  let summary := BBDSimulationResult.summary result in
  exists firstStep lastStep,
    nth_error steps 0 = Some firstStep
    /\ List.last steps firstStep = lastStep
    /\ BBDSimulationSummary.initialCollateralValue summary
       = BBDMonthlyStep.collateralValue firstStep
    /\ BBDSimulationSummary.initialLoanBalance summary
       = BBDMonthlyStep.loanBalance firstStep
    /\ BBDSimulationSummary.initialLtv summary = BBDMonthlyStep.ltv firstStep
    /\ BBDSimulationSummary.initialNetEquity summary
       = BBDMonthlyStep.netEquity firstStep
    /\ BBDSimulationSummary.isLiquidated summary = BBDMonthlyStep.isLiquidated lastStep
    /\ BBDSimulationSummary.monthsUntilLiquidation summary
       = BBDSimulationSummary.liquidationMonth summary
    /\ (BBDSimulationSummary.isLiquidated summary = true ->
        BBDSimulationSummary.finalCollateralValue summary = None
        /\ BBDSimulationSummary.finalLoanBalance summary = None
        /\ BBDSimulationSummary.finalLtv summary = None
        /\ BBDSimulationSummary.finalNetEquity summary = None
        /\ BBDSimulationSummary.liquidationMonth summary
           = Some (Z.of_nat (length steps) - 1))
    /\ (BBDSimulationSummary.isLiquidated summary = false ->
        BBDSimulationSummary.finalCollateralValue summary
        = Some (BBDMonthlyStep.collateralValue lastStep)
        /\ BBDSimulationSummary.finalLoanBalance summary
           = Some (BBDMonthlyStep.loanBalance lastStep)
        /\ BBDSimulationSummary.finalLtv summary = Some (BBDMonthlyStep.ltv lastStep)
        /\ BBDSimulationSummary.finalNetEquity summary
           = Some (BBDMonthlyStep.netEquity lastStep)
        /\ BBDSimulationSummary.liquidationMonth summary = None
        /\ Z.of_nat (length steps)
           = BBDSimulatorConfig.projectionYears config * 12 + 1).
Proof.
  intros Hrun steps summary.
  destruct (runBBDSimulation_Return _ _ _ _ _ _ Hrun) as (st0 & Hinit & Hsum).
  destruct (initial_state_Return _ _ _ Hinit) as (Hnot & Hmonth & Hnil & _).
  destruct (summarize_fields _ _ _ Hsum) as (firstStep & Hfirst & Hsteps & Hsummary).
  set (rate := div (div (BBDSimulatorConfig.interestAprPercent config) (Fin 100)) (Fin 12)) in *.
  set (liq := div (BBDSimulatorConfig.liquidationLtvPercent config) (Fin 100)) in *.
  set (path := select_price_path now config fit startDate historicalData) in *.
  set (st := sim_loop config rate liq 0 path st0) in *.
  exists firstStep, (List.last steps firstStep).
  subst steps summary. rewrite Hsummary, Hsteps. cbv zeta.
  cbn [BBDSimulationSummary.initialCollateralValue BBDSimulationSummary.initialLoanBalance
       BBDSimulationSummary.initialLtv BBDSimulationSummary.initialNetEquity
       BBDSimulationSummary.isLiquidated BBDSimulationSummary.monthsUntilLiquidation
       BBDSimulationSummary.liquidationMonth BBDSimulationSummary.finalCollateralValue
       BBDSimulationSummary.finalLoanBalance BBDSimulationSummary.finalLtv
       BBDSimulationSummary.finalNetEquity].
  split; [exact Hfirst |]. do 5 (split; [reflexivity |]).
  assert (Hne : SimState.steps st <> []).
  { intros E. rewrite E in Hfirst. discriminate. }
  destruct (last_app_singleton (SimState.steps st) firstStep Hne)
    as (before & final & Happ & Hlast).
  rewrite Hlast.
  assert (Hall0 : Forall (fun s => BBDMonthlyStep.isLiquidated s = false) (SimState.steps st0)).
  { rewrite Hnil. constructor. }
  destruct (sim_loop_end config rate liq path 0 st0 Hnot Hmonth Hall0)
    as [(H1 & H2 & H3 & H4) | (H1 & before' & final' & Happ' & Hbefore & Hflag & Hlm)];
    fold st in H1.
  - fold st in H2, H3, H4. rewrite H1, H2.
    assert (Hfinal : BBDMonthlyStep.isLiquidated final = false).
    { rewrite Forall_forall in H3. apply H3. rewrite Happ. apply in_elt. }
    split; [symmetry; assumption |]. split; [reflexivity |].
    split; [discriminate |]. intros _. repeat split.
    rewrite H4, Hnil. subst path. rewrite select_price_path_length. cbn [length].
    assert (Hpos : (0 < length (SimState.steps st))%nat).
    { destruct (SimState.steps st); [contradiction | cbn; lia]. }
    rewrite H4, Hnil, select_price_path_length in Hpos. cbn [length] in Hpos. lia.
  - fold st in Happ', Hlm. rewrite H1.
    rewrite Happ in Happ'. apply app_inj_tail in Happ'. destruct Happ' as [<- <-].
    split; [symmetry; assumption |]. split; [reflexivity |].
    split; [| discriminate]. intros _. repeat split.
    rewrite Hlm. f_equal.
    assert (Hidx : nth_error (BBDSimulationResult.steps result) (length before) = Some final).
    { rewrite Hsteps, Happ, nth_error_app2, Nat.sub_diag by lia. reflexivity. }
    destruct (steps_indexed _ _ _ _ _ _ Hrun _ _ Hidx) as (-> & _).
    rewrite Happ, length_app. cbn [length]. lia.
Qed.

Lemma summary_matches_steps_witness :
  exists result firstStep,
    runBBDSimulation testDate baseConfig mockFit testDate None = Return result
    /\ nth_error (BBDSimulationResult.steps result) 0 = Some firstStep
    /\ BBDSimulationSummary.initialLoanBalance (BBDSimulationResult.summary result)
       = BBDMonthlyStep.loanBalance firstStep.
Proof.
  destruct (runBBDSimulation_total testDate baseConfig mockFit testDate None)
    as [result Hrun]; [cbn; lia |].
  destruct (summary_matches_steps _ _ _ _ _ _ Hrun)
    as (firstStep & lastStep & Hfirst & _ & _ & Hloan & _).
  exists result, firstStep. auto.
Defined.

(** X25: the call returns exactly when the horizon is not negative; it then
    echoes the configuration and records between 1 and years·12 + 1 steps.
    With a negative horizon it throws. *)
Theorem runBBDSimulation_returns_iff (now : Date) (config : BBDSimulatorConfig.t)
    (fit : PowerLawFit.t) (startDate : Date)
    (historicalData : option (list HistoricalPricePoint.t)) :
  (0 <= BBDSimulatorConfig.projectionYears config ->
   exists result,
     runBBDSimulation now config fit startDate historicalData = Return result
     /\ BBDSimulationResult.config result = config
     /\ 1 <= Z.of_nat (length (BBDSimulationResult.steps result))
        <= BBDSimulatorConfig.projectionYears config * 12 + 1)
  /\ (BBDSimulatorConfig.projectionYears config < 0 ->
      runBBDSimulation now config fit startDate historicalData = Throw TypeError).
Proof.
  split; [| apply runBBDSimulation_negative_horizon].
  intros Hyears.
  destruct (runBBDSimulation_total now config fit startDate historicalData Hyears)
    as [result Hrun].
  exists result. split; [assumption |].
  destruct (runBBDSimulation_Return _ _ _ _ _ _ Hrun) as (st0 & Hinit & Hsum).
  destruct (initial_state_Return _ _ _ Hinit) as (_ & _ & Hnil & _).
  destruct (summarize_fields _ _ _ Hsum) as (firstStep & Hfirst & Hsteps & _).
  destruct (summarize_Return _ _ _ Hsum) as (Hconfig & _).
  split; [assumption |]. rewrite Hsteps.
  destruct (sim_loop_extends config
              (div (div (BBDSimulatorConfig.interestAprPercent config) (Fin 100)) (Fin 12))
              (div (BBDSimulatorConfig.liquidationLtvPercent config) (Fin 100))
              (select_price_path now config fit startDate historicalData) 0 st0)
    as (new & Hnew & Hlen & _).
  rewrite select_price_path_length in Hlen.
  split.
  - apply nth_error_Some_length in Hfirst. lia.
  - rewrite Hnew, Hnil. cbn [app]. lia.
Qed.

Lemma runBBDSimulation_returns_iff_witness :
  exists result,
    runBBDSimulation testDate baseConfig mockFit testDate None = Return result
    /\ BBDSimulationResult.config result = baseConfig.
Proof.
  destruct (proj1 (runBBDSimulation_returns_iff testDate baseConfig mockFit testDate None)
              ltac:(cbn; lia)) as (result & Hrun & Hconfig & _).
  exists result. auto.
Defined.


(** ** Fields the simulation does not read *)

Lemma sim_loop_ext (c1 c2 : BBDSimulatorConfig.t) (rate liq : number) :
  (forall i point st, loop_body c1 rate liq i point st = loop_body c2 rate liq i point st) ->
  forall rest i st, sim_loop c1 rate liq i rest st = sim_loop c2 rate liq i rest st.
Proof.
  intros Hbody rest. induction rest as [| point rest IH]; intros i st.
  - reflexivity.
  - rewrite !sim_loop_cons, Hbody.
    destruct (SimState.isLiquidated _); [reflexivity | apply IH].
Qed.

(** X26: two configurations that agree on the fields their mode uses give the
    same steps and the same summary: the start-date string and the step-ups
    never matter, the spending amount and the borrowing frequency do not
    matter without recurring borrowing, and the starting LTV does not matter
    with it. *)
Theorem unused_fields_do_not_matter (now : Date) (c1 c2 : BBDSimulatorConfig.t)
    (fit : PowerLawFit.t) (startDate : Date)
    (historicalData : option (list HistoricalPricePoint.t)) :
  BBDSimulatorConfig.btcHeld c1 = BBDSimulatorConfig.btcHeld c2 ->
  BBDSimulatorConfig.interestAprPercent c1 = BBDSimulatorConfig.interestAprPercent c2 ->
  BBDSimulatorConfig.liquidationLtvPercent c1 = BBDSimulatorConfig.liquidationLtvPercent c2 ->
  BBDSimulatorConfig.interestMode c1 = BBDSimulatorConfig.interestMode c2 ->
  BBDSimulatorConfig.projectionYears c1 = BBDSimulatorConfig.projectionYears c2 ->
  BBDSimulatorConfig.scenario c1 = BBDSimulatorConfig.scenario c2 ->
  BBDSimulatorConfig.borrowMonthly c1 = BBDSimulatorConfig.borrowMonthly c2 ->
  (BBDSimulatorConfig.borrowMonthly c1 = true ->
   BBDSimulatorConfig.monthlySpendingUsd c1 = BBDSimulatorConfig.monthlySpendingUsd c2
   /\ BBDSimulatorConfig.borrowFrequency c1 = BBDSimulatorConfig.borrowFrequency c2) ->
  (BBDSimulatorConfig.borrowMonthly c1 = false ->
   BBDSimulatorConfig.startingLtvPercent c1 = BBDSimulatorConfig.startingLtvPercent c2) ->
  match runBBDSimulation now c1 fit startDate historicalData,
        runBBDSimulation now c2 fit startDate historicalData with
  | Return r1, Return r2 =>
      BBDSimulationResult.steps r1 = BBDSimulationResult.steps r2
      /\ BBDSimulationResult.summary r1 = BBDSimulationResult.summary r2
  | Throw e1, Throw e2 => e1 = e2
  | _, _ => False
  end.
Proof.
  intros Hbtc Hapr Hliq Hmode Hyears Hsc Hb Hborrow Hlump.
  unfold runBBDSimulation. cbv zeta.
  assert (Hpath : select_price_path now c1 fit startDate historicalData
                  = select_price_path now c2 fit startDate historicalData).
  { unfold select_price_path. rewrite Hyears, Hsc. reflexivity. }
  rewrite <- Hpath, <- Hapr, <- Hliq.
  set (path := select_price_path now c1 fit startDate historicalData).
  set (rate := div (div (BBDSimulatorConfig.interestAprPercent c1) (Fin 100)) (Fin 12)).
  set (liq := div (BBDSimulatorConfig.liquidationLtvPercent c1) (Fin 100)).
  assert (Hinit : initial_state c1 path = initial_state c2 path).
  { unfold initial_state. rewrite <- Hb, <- Hbtc.
    destruct (BBDSimulatorConfig.borrowMonthly c1) eqn:E.
    - destruct (BBDSimulatorConfig.startingLtvPercent c1),
               (BBDSimulatorConfig.startingLtvPercent c2); reflexivity.
    - rewrite <- Hlump by reflexivity. reflexivity. }
  assert (Hbody : forall i point st,
             loop_body c1 rate liq i point st = loop_body c2 rate liq i point st).
  { intros i point st. unfold loop_body. rewrite <- Hb, <- Hbtc, <- Hmode.
    destruct (BBDSimulatorConfig.borrowMonthly c1) eqn:E.
    - destruct (Hborrow eq_refl) as [<- <-]. reflexivity.
    - reflexivity. }
  rewrite <- Hinit. destruct (initial_state c1 path) as [st0 | e]; [| reflexivity].
  rewrite <- (sim_loop_ext c1 c2 rate liq Hbody).
  unfold summarize.
  destruct (SimState.steps (sim_loop c1 rate liq 0 path st0)); [reflexivity |].
  split; reflexivity.
Qed.

Lemma unused_fields_do_not_matter_witness :
  match runBBDSimulation testDate (lump_sum_config (Fin 20)) mockFit testDate None,
        runBBDSimulation testDate other_lump_sum_config mockFit testDate None with
  | Return r1, Return r2 =>
      BBDSimulationResult.steps r1 = BBDSimulationResult.steps r2
      /\ BBDSimulationResult.summary r1 = BBDSimulationResult.summary r2
  | Throw e1, Throw e2 => e1 = e2
  | _, _ => False
  end.
Proof.
  apply unused_fields_do_not_matter; try reflexivity.
  intros H. discriminate H.
Defined.


(* ================================================================== *)
(** * Yearly rows *)
(* ================================================================== *)

Local Open Scope Z_scope.

Lemma yearly_indices_spec (len i : nat) :
  In i (yearly_indices len)
  <-> (0 < i)%nat /\ (i < len)%nat /\ (i mod 12 = 0)%nat.
Proof.
  unfold yearly_indices. rewrite in_map_iff. split.
  - intros (j & <- & Hj). apply in_seq in Hj.
    assert (H12 : (12 * S j <= 12 * ((len - 1) / 12))%nat) by lia.
    pose proof (Nat.Div0.mul_div_le (len - 1) 12) as Hle.
    repeat split; try lia.
    rewrite Nat.mul_comm. apply Nat.Div0.mod_mul.
  - intros (Hpos & Hlt & Hmod).
    pose proof (Nat.div_mod_eq i 12) as Hi. rewrite Hmod in Hi.
    exists (i / 12 - 1)%nat. split; [lia |].
    apply in_seq. split; [lia |].
    assert (Hq : (i / 12 <= (len - 1) / 12)%nat) by (apply Nat.Div0.div_le_mono; lia).
    lia.
Qed.

Lemma yearly_rows_length (steps : list BBDMonthlyStep.t) (idx : list nat) :
  Forall (fun i => (i < length steps)%nat) idx ->
  length (flat_map (fun i => match nth_error steps i with
                             | Some s => [s]
                             | None => []
                             end) idx)
  = length idx.
Proof.
  induction 1 as [| i idx Hi _ IH]; [reflexivity |].
  cbn [flat_map]. rewrite length_app, IH.
  destruct (nth_error steps i) eqn:E; [reflexivity |].
  apply nth_error_None in E. lia.
Qed.

(** [getYearlyData] on steps that carry their index as month: the rows at
    months 0, 12, 24, ... and the final row, each of them once. *)
Lemma getYearlyData_indexed (steps : list BBDMonthlyStep.t) :
  steps <> [] ->
  (forall k s, nth_error steps k = Some s -> BBDMonthlyStep.month s = Z.of_nat k) ->
  exists rows,
    getYearlyData steps = Return rows
    /\ (forall s, In s rows <-> In s steps /\ is_yearly_row (length steps) s = true)
    /\ Z.of_nat (length rows)
       = (Z.of_nat (length steps) - 1) / 12 + 1
         + (if (Z.of_nat (length steps) - 1) mod 12 =? 0 then 0 else 1).
Proof.
  intros Hne Hidx.
  destruct (exists_last Hne) as (before & lastStep & Hlast).
  destruct steps as [| first others] eqn:Hsteps; [contradiction |].
  rewrite <- Hsteps in *.
  assert (Hlen : length steps = S (length before)).
  { rewrite Hlast, length_app. cbn. lia. }
  assert (Hmlast : BBDMonthlyStep.month lastStep = Z.of_nat (length steps) - 1).
  { rewrite (Hidx (length before) lastStep); [lia |].
    rewrite Hlast, nth_error_app2, Nat.sub_diag by lia. reflexivity. }
  assert (Hmfirst : BBDMonthlyStep.month first = 0).
  { apply (Hidx 0%nat). rewrite Hsteps. reflexivity. }
  unfold getYearlyData.
  assert (Hstart : match steps with [] => [] | f :: _ => [f] end = [first])
    by (rewrite Hsteps; reflexivity).
  rewrite Hstart.
  replace (List.last (map Some steps) None) with (Some lastStep)
    by (rewrite Hlast, map_app; cbn [map]; rewrite last_last; reflexivity).
  rewrite Hmlast.
  rewrite Z.rem_mod_nonneg by lia.
  set (years := flat_map _ (yearly_indices (length steps))).
  assert (Hyears : forall s, In s years <->
            exists i, (0 < i)%nat /\ (i mod 12 = 0)%nat /\ nth_error steps i = Some s).
  { intros s. subst years. rewrite in_flat_map. split.
    - intros (i & Hi & Hs). apply yearly_indices_spec in Hi.
      exists i. destruct (nth_error steps i) eqn:E; [| contradiction].
      destruct Hs as [-> | []]. tauto.
    - intros (i & Hpos & Hmod & Hs). exists i. split.
      + apply yearly_indices_spec. apply nth_error_Some_length in Hs. tauto.
      + rewrite Hs. left. reflexivity. }
  assert (Hylen : length years = ((length steps - 1) / 12)%nat).
  { subst years. rewrite yearly_rows_length.
    - unfold yearly_indices. rewrite length_map, length_seq. reflexivity.
    - apply Forall_forall. intros i Hi. apply yearly_indices_spec in Hi. tauto. }
  assert (Hdiv : Z.of_nat ((length steps - 1) / 12)
                 = (Z.of_nat (length steps) - 1) / 12).
  { rewrite Nat2Z.inj_div. f_equal. lia. }
  assert (Hmember : forall s,
            In s steps /\ is_yearly_row (length steps) s = true
            <-> s = first \/ In s years
                \/ (s = lastStep /\ (Z.of_nat (length steps) - 1) mod 12 <> 0)).
  { intros s. split.
    - intros [Hin Hrow]. apply In_nth_error in Hin. destruct Hin as [k Hk].
      pose proof (Hidx k s Hk) as Hm.
      pose proof (nth_error_Some_length _ _ _ Hk) as Hk'.
      unfold is_yearly_row in Hrow. rewrite Hm in Hrow.
      destruct (Z.eq_dec (Z.of_nat k mod 12) 0) as [E | E].
      + destruct k as [| k].
        * left. rewrite Hsteps in Hk. cbn in Hk. congruence.
        * right. left. apply Hyears. exists (S k). repeat split; try lia; try assumption.
          apply Nat2Z.inj. rewrite Nat2Z.inj_mod. exact E.
      + right. right.
        apply orb_true_iff in Hrow. destruct Hrow as [Hrow | Hrow].
        * apply Z.eqb_eq in Hrow. contradiction.
        * apply Z.eqb_eq in Hrow.
          assert (k = length before) by lia. subst k.
          rewrite Hlast, nth_error_app2, Nat.sub_diag in Hk by lia.
          cbn in Hk. split; [congruence |]. rewrite <- Hrow. assumption.
    - intros [-> | [Hin | [-> Hmod]]].
      + split; [rewrite Hsteps; left; reflexivity |].
        unfold is_yearly_row. rewrite Hmfirst. reflexivity.
      + apply Hyears in Hin. destruct Hin as (i & Hpos & Hmod & Hs).
        split; [apply (nth_error_In _ _ Hs) |].
        unfold is_yearly_row. rewrite (Hidx i s Hs).
        replace (Z.of_nat i mod 12) with 0; [reflexivity |].
        change 12 with (Z.of_nat 12). rewrite <- Nat2Z.inj_mod, Hmod. reflexivity.
      + split; [rewrite Hlast; apply in_elt |].
        unfold is_yearly_row. rewrite Hmlast, Z.eqb_refl. apply orb_true_r. }
  destruct ((Z.of_nat (length steps) - 1) mod 12 =? 0) eqn:Hmod.
  - apply Z.eqb_eq in Hmod. cbn [negb andb].
    eexists. split; [reflexivity |]. split.
    + intros s. rewrite Hmember. cbn [app In]. split.
      * intros [<- | H]; auto.
      * intros [-> | [H | [_ H]]]; auto. contradiction.
    + cbn [app length]. rewrite Hylen. lia.
  - apply Z.eqb_neq in Hmod. cbn [negb andb].
    replace (Z.of_nat (length steps) - 1 =? 0) with false
      by (symmetry; apply Z.eqb_neq; intros E; rewrite E in Hmod; apply Hmod; reflexivity).
    cbn [negb]. eexists. split; [reflexivity |]. split.
    + intros s. rewrite Hmember. cbn [app In]. rewrite in_app_iff. cbn [In]. split.
      * intros [<- | [H | [<- | []]]]; auto.
      * intros [-> | [H | [-> _]]]; auto.
    + cbn [app length]. rewrite length_app, Hylen. cbn [length]. lia.
Qed.

(** X27: the yearly rows of a simulation: exactly the steps of months 0, 12,
    24, ... and the final step (the liquidation step when the run ended
    early), without repetition.  On an empty array the call throws. *)
Theorem getYearlyData_of_run (now : Date) (config : BBDSimulatorConfig.t)
    (fit : PowerLawFit.t) (startDate : Date)
    (historicalData : option (list HistoricalPricePoint.t))
    (result : BBDSimulationResult.t) :
  getYearlyData [] = Throw TypeError
  /\ (runBBDSimulation now config fit startDate historicalData = Return result ->
      let steps := BBDSimulationResult.steps result in
      exists rows,
        getYearlyData steps = Return rows
        /\ (forall s, In s rows <->
                      In s steps
                      /\ (BBDMonthlyStep.month s mod 12 = 0
                          \/ BBDMonthlyStep.month s = Z.of_nat (length steps) - 1))
        /\ Z.of_nat (length rows)
           = (Z.of_nat (length steps) - 1) / 12 + 1
             + (if (Z.of_nat (length steps) - 1) mod 12 =? 0 then 0 else 1)).
Proof.
  split; [reflexivity |]. intros Hrun steps.
  destruct (runBBDSimulation_Return _ _ _ _ _ _ Hrun) as (st0 & _ & Hsum).
  destruct (summarize_fields _ _ _ Hsum) as (firstStep & Hfirst & Hsteps & _).
  assert (Hne : steps <> []).
  { subst steps. rewrite Hsteps. intros E. rewrite E in Hfirst. discriminate. }
  destruct (getYearlyData_indexed steps Hne) as (rows & Hrows & Hmem & Hlen).
  { intros k s Hk. apply (steps_indexed _ _ _ _ _ _ Hrun _ _ Hk). }
  exists rows. split; [assumption |]. split; [| assumption].
  intros s. rewrite Hmem. unfold is_yearly_row.
  rewrite orb_true_iff, !Z.eqb_eq. reflexivity.
Qed.

Lemma getYearlyData_of_run_witness :
  exists result rows,
    runBBDSimulation testDate baseConfig mockFit testDate None = Return result
    /\ getYearlyData (BBDSimulationResult.steps result) = Return rows.
Proof.
  destruct (runBBDSimulation_total testDate baseConfig mockFit testDate None)
    as [result Hrun]; [cbn; lia |].
  destruct (proj2 (getYearlyData_of_run _ _ _ _ _ _) Hrun) as (rows & Hrows & _).
  exists result, rows. auto.
Defined.


(* ================================================================== *)
(** * Halvings *)
(* ================================================================== *)

Local Open Scope Z_scope.

(** Replaces the calendar constants of the goal and the context by their
    time values. *)
Ltac eval_dates :=
  repeat match goal with
         | |- context [Date_UTC ?a ?b ?c] =>
             let v := eval vm_compute in (Date_UTC a b c) in
             change (Date_UTC a b c) with v
         | H : context [Date_UTC ?a ?b ?c] |- _ =>
             let v := eval vm_compute in (Date_UTC a b c) in
             change (Date_UTC a b c) with v in H
         end.

(** Settles every comparison of the goal that the context decides. *)
Ltac decide_comparisons :=
  repeat match goal with
         | |- context [Z.leb ?a ?b] =>
             first [ replace (Z.leb a b) with true by (symmetry; apply Z.leb_le; lia)
                   | replace (Z.leb a b) with false by (symmetry; apply Z.leb_gt; lia) ]
         | |- context [Z.ltb ?a ?b] =>
             first [ replace (Z.ltb a b) with true by (symmetry; apply Z.ltb_lt; lia)
                   | replace (Z.ltb a b) with false by (symmetry; apply Z.ltb_ge; lia) ]
         end.

Lemma cycle_test_false (start finish date : Z) :
  (start <=? date) && (date <? finish) = false -> date < start \/ finish <= date.
Proof.
  intros H. apply andb_false_iff in H.
  destruct H as [H | H]; [apply Z.leb_gt in H | apply Z.ltb_ge in H]; lia.
Qed.

(** X28: the five cycles tile the time from genesis to the estimated fifth
    halving: a date in that range lies in exactly one cycle, which is the
    one returned; outside of it the answer is [null]. *)
Theorem getCycleForDate_partition (date : Date) :
  match getCycleForDate date with
  | Some c =>
      In c HALVING_CYCLES
      /\ HalvingCycle.start c <= date < HalvingCycle.finish c
      /\ BITCOIN_GENESIS <= date < Date_UTC 2028 3 20
  | None => date < BITCOIN_GENESIS \/ Date_UTC 2028 3 20 <= date
  end
  /\ forall c,
       In c HALVING_CYCLES ->
       HalvingCycle.start c <= date < HalvingCycle.finish c ->
       getCycleForDate date = Some c.
Proof.
  split.
  - destruct (getCycleForDate date) as [c |] eqn:E; unfold getCycleForDate, getTime in E.
    + apply find_some in E. destruct E as [Hin Htest].
      apply andb_true_iff in Htest. destruct Htest as [Hlo Hhi].
      apply Z.leb_le in Hlo. apply Z.ltb_lt in Hhi.
      split; [assumption |]. split; [lia |].
      unfold HALVING_CYCLES, BITCOIN_GENESIS in *. cbn [In] in Hin.
      repeat (destruct Hin as [<- | Hin]); try contradiction;
        cbn [HalvingCycle.start HalvingCycle.finish] in Hlo, Hhi; eval_dates; lia.
    + pose proof (find_none _ _ E) as Hnone.
      unfold HALVING_CYCLES, BITCOIN_GENESIS in *.
      pose proof (cycle_test_false _ _ _ (Hnone _ (or_introl eq_refl))) as H1.
      pose proof (cycle_test_false _ _ _ (Hnone _ (or_intror (or_introl eq_refl)))) as H2.
      pose proof (cycle_test_false _ _ _
                    (Hnone _ (or_intror (or_intror (or_introl eq_refl))))) as H3.
      pose proof (cycle_test_false _ _ _
                    (Hnone _ (or_intror (or_intror (or_intror (or_introl eq_refl)))))) as H4.
      pose proof (cycle_test_false _ _ _
                    (Hnone _ (or_intror (or_intror (or_intror (or_intror
                                                                 (or_introl eq_refl))))))) as H5.
      clear Hnone E.
      cbn [HalvingCycle.start HalvingCycle.finish] in H1, H2, H3, H4, H5.
      eval_dates. lia.
  - intros c Hin Hrange.
    unfold HALVING_CYCLES, BITCOIN_GENESIS in Hin. cbn [In] in Hin.
    unfold getCycleForDate, HALVING_CYCLES, BITCOIN_GENESIS, getTime.
    cbn [find HalvingCycle.start HalvingCycle.finish].
    repeat (destruct Hin as [<- | Hin]); try contradiction;
      cbn [HalvingCycle.start HalvingCycle.finish] in Hrange; eval_dates;
      decide_comparisons; reflexivity.
Qed.

Lemma getCycleForDate_partition_witness :
  getCycleForDate testDate
  = Some (HalvingCycle.mk (Date_UTC 2024 3 20) (Date_UTC 2028 3 20) "Cycle 5"
            "rgba(59, 130, 246, 0.05)").
Proof.
  apply (proj2 (getCycleForDate_partition testDate)).
  - do 4 right. left. reflexivity.
  - cbn [HalvingCycle.start HalvingCycle.finish].
    split; [vm_compute; discriminate | vm_compute; reflexivity].
Defined.

Lemma findIndex_Some {T : Type} (p : T -> bool) (xs : list T) (i : nat) :
  findIndex p xs = Some i ->
  exists x, nth_error xs i = Some x /\ p x = true
            /\ forall j y, (j < i)%nat -> nth_error xs j = Some y -> p y = false.
Proof.
  revert i. induction xs as [| x xs IH]; intros i; cbn [findIndex]; [discriminate |].
  destruct (p x) eqn:Hp.
  - intros H. injection H as <-. exists x. repeat split; try assumption.
    intros j y Hj. lia.
  - destruct (findIndex p xs) as [i' |]; [| discriminate].
    intros H. injection H as <-.
    destruct (IH i' eq_refl) as (x' & Hx' & Hpx' & Hbefore).
    exists x'. repeat split; try assumption.
    intros [| j] y Hj Hy; cbn in Hy.
    + congruence.
    + apply (Hbefore j y); [lia | assumption].
Qed.

Lemma findIndex_None {T : Type} (p : T -> bool) (xs : list T) :
  findIndex p xs = None -> forall x, In x xs -> p x = false.
Proof.
  induction xs as [| x xs IH]; cbn [findIndex]; [contradiction |].
  destruct (p x) eqn:Hp; [discriminate |].
  destruct (findIndex p xs); [discriminate |].
  intros _ y [<- | Hin]; auto.
Qed.

Lemma string_ltb_irrefl (s : string) : String.ltb s s = false.
Proof.
  unfold String.ltb. pose proof (String.compare_antisym s s) as H.
  destruct (String.compare s s); cbn in H; try discriminate; reflexivity.
Qed.

(** X29: the marker of a halving on a chart axis.  A halving is reported exactly
    when its date string is within the range of the first and the last
    label (and never for an empty axis); its index is that of the first
    label equal to the date string if there is one, and of the first label
    not below it otherwise. *)
Theorem getHalvingIndices_spec (labels : list string) :
  (labels = [] -> getHalvingIndices labels = [])
  /\ forall minLabel,
       nth_error labels 0 = Some minLabel ->
       let maxLabel := List.last labels minLabel in
       (forall e, In e (getHalvingIndices labels) ->
          let halvingStr := Halving.dateStr (HalvingIndex.halving e) in
          In (HalvingIndex.halving e) HALVING_DATES
          /\ String.ltb halvingStr minLabel = false
          /\ String.ltb maxLabel halvingStr = false
          /\ exists label,
               nth_error labels (HalvingIndex.index e) = Some label
               /\ String.ltb label halvingStr = false
               /\ (In halvingStr labels -> label = halvingStr)
               /\ forall j other,
                    (j < HalvingIndex.index e)%nat ->
                    nth_error labels j = Some other ->
                    other <> halvingStr
                    /\ (~ In halvingStr labels -> String.ltb other halvingStr = true))
       /\ (forall h, In h HALVING_DATES ->
             String.ltb (Halving.dateStr h) minLabel = false ->
             String.ltb maxLabel (Halving.dateStr h) = false ->
             exists e, In e (getHalvingIndices labels) /\ HalvingIndex.halving e = h).
Proof.
  split; [intros ->; reflexivity |].
  intros minLabel Hmin maxLabel.
  destruct labels as [| first rest] eqn:Hlabels; [discriminate |].
  cbn in Hmin. injection Hmin as ->. rewrite <- Hlabels in *.
  assert (Hdef : getHalvingIndices labels
                 = flat_map
                     (fun halving =>
                        let halvingStr := Halving.dateStr halving in
                        if String.ltb halvingStr minLabel || String.ltb maxLabel halvingStr
                        then []
                        else
                          let index :=
                            match findIndex (fun label => String.eqb label halvingStr) labels with
                            | Some i => Some i
                            | None =>
                                findIndex (fun label => negb (String.ltb label halvingStr)) labels
                            end in
                          match index with
                          | Some i => [HalvingIndex.mk i halving]
                          | None => []
                          end)
                     HALVING_DATES).
  { subst maxLabel. rewrite Hlabels. reflexivity. }
  rewrite Hdef. clear Hdef. split.
  - intros e He halvingStr. apply in_flat_map in He. destruct He as (h & Hh & He).
    cbv zeta in He.
    destruct (String.ltb (Halving.dateStr h) minLabel) eqn:Hlo; [contradiction |].
    destruct (String.ltb maxLabel (Halving.dateStr h)) eqn:Hhi; [contradiction |].
    cbn [orb] in He.
    destruct (findIndex (fun label => String.eqb label (Halving.dateStr h)) labels)
      as [i |] eqn:Hexact.
    + destruct He as [<- | []]. subst halvingStr. cbn [HalvingIndex.halving HalvingIndex.index].
      destruct (findIndex_Some _ _ _ Hexact) as (label & Hlabel & Heq & Hbefore).
      apply String.eqb_eq in Heq. subst label.
      do 3 (split; [assumption |]).
      exists (Halving.dateStr h).
      split; [assumption |]. split; [apply string_ltb_irrefl |].
      split; [reflexivity |].
      intros j other Hj Hother. split.
      * intros E. specialize (Hbefore j other Hj Hother). cbv beta in Hbefore.
        apply String.eqb_neq in Hbefore. contradiction.
      * intros Hnot. exfalso. apply Hnot. apply (nth_error_In _ _ Hlabel).
    + destruct (findIndex (fun label => negb (String.ltb label (Halving.dateStr h))) labels)
        as [i |] eqn:Hclosest; [| contradiction].
      destruct He as [<- | []]. subst halvingStr. cbn [HalvingIndex.halving HalvingIndex.index].
      destruct (findIndex_Some _ _ _ Hclosest) as (label & Hlabel & Hge & Hbefore).
      apply negb_true_iff in Hge.
      pose proof (findIndex_None _ _ Hexact) as Hnone.
      do 3 (split; [assumption |]).
      exists label.
      split; [assumption |]. split; [assumption |]. split.
      * intros Hin. apply Hnone in Hin. cbv beta in Hin.
        rewrite String.eqb_refl in Hin. discriminate.
      * intros j other Hj Hother. split.
        -- intros E. subst other. apply nth_error_In in Hother. apply Hnone in Hother.
           cbv beta in Hother. rewrite String.eqb_refl in Hother. discriminate.
        -- intros _. specialize (Hbefore j other Hj Hother). cbv beta in Hbefore.
           apply negb_false_iff in Hbefore. assumption.
  - intros h Hh Hlo Hhi.
    assert (Hmax : In maxLabel labels).
    { subst maxLabel. rewrite Hlabels.
      destruct (last_app_singleton (minLabel :: rest) minLabel ltac:(discriminate))
        as (before & final & Happ & ->).
      rewrite Happ. apply in_elt. }
    assert (Hfound : exists i,
               match findIndex (fun label => String.eqb label (Halving.dateStr h)) labels with
               | Some i => Some i
               | None =>
                   findIndex (fun label => negb (String.ltb label (Halving.dateStr h))) labels
               end = Some i).
    { destruct (findIndex (fun label => String.eqb label (Halving.dateStr h)) labels)
        as [i |]; [eauto |].
      destruct (findIndex (fun label => negb (String.ltb label (Halving.dateStr h))) labels)
        as [i |] eqn:Hclosest; [eauto |].
      pose proof (findIndex_None _ _ Hclosest maxLabel Hmax) as Hcontra.
      cbv beta in Hcontra. rewrite Hhi in Hcontra. discriminate. }
    destruct Hfound as [i Hi].
    exists (HalvingIndex.mk i h). split; [| reflexivity].
    apply in_flat_map. exists h. split; [assumption |].
    cbv zeta. rewrite Hlo, Hhi. cbn [orb]. rewrite Hi. left. reflexivity.
Qed.

Lemma getHalvingIndices_spec_witness :
  exists e,
    In e (getHalvingIndices axis_labels)
    /\ HalvingIndex.halving e
       = Halving.mk (Date_UTC 2024 3 20) "2024-04-20" "Halving 4" 840000.
Proof.
  apply (proj2 (proj2 (getHalvingIndices_spec axis_labels) "2024-01-01" eq_refl)).
  - do 3 right. left. reflexivity.
  - vm_compute. reflexivity.
  - vm_compute. reflexivity.
Defined.

Lemma halving_strings_find (target : string) (l : list Halving.t) :
  existsb (String.eqb target) (map Halving.dateStr l) = true
  <-> exists h, find (fun h => String.eqb (Halving.dateStr h) target) l = Some h.
Proof.
  induction l as [| h l IH]; cbn [map existsb find].
  - split; [discriminate | intros [h H]; discriminate].
  - rewrite (String.eqb_sym target). destruct (String.eqb (Halving.dateStr h) target).
    + split; eauto.
    + cbn [orb]. exact IH.
Qed.

(** X30: a date string is a halving date exactly when the lookup finds a
    halving, and that halving carries the first ten characters of the
    string as its date; nothing after the tenth character matters. *)
Theorem halving_lookup_agrees (dateStr : string) :
  (isHalvingDate dateStr = true <-> exists h, getHalvingInfo dateStr = Some h)
  /\ (forall h, getHalvingInfo dateStr = Some h ->
        In h HALVING_DATES /\ Halving.dateStr h = String.substring 0 10 dateStr)
  /\ (forall other,
        String.substring 0 10 other = String.substring 0 10 dateStr ->
        isHalvingDate other = isHalvingDate dateStr
        /\ getHalvingInfo other = getHalvingInfo dateStr).
Proof.
  split; [| split].
  - apply halving_strings_find.
  - intros h Hh. unfold getHalvingInfo in Hh. apply find_some in Hh.
    destruct Hh as [Hin Heq]. apply String.eqb_eq in Heq. auto.
  - intros other Heq. unfold isHalvingDate, getHalvingInfo, first_10.
    rewrite Heq. auto.
Qed.

Lemma halving_lookup_agrees_witness :
  isHalvingDate "2024-04-20T00:00:00.000Z" = isHalvingDate "2024-04-20".
Proof.
  apply (proj1 (proj2 (proj2 (halving_lookup_agrees "2024-04-20"))
                  "2024-04-20T00:00:00.000Z" ltac:(vm_compute; reflexivity))).
Defined.
